(** * Layer0 orchestration core: tag store, environment manager, task delete

    A shallow embedding of
      - api/tag/dynamo_store.go            (module [tag]),
      - api/backend/ecs/environment_manager.go (module [ecsbackend]),
      - api/provider/aws/task_delete.go    (module [aws]),
      - common/models/environment.go       (module [models]),
    followed by the properties of these programs.

    The Go code talks to collaborators (the DynamoDB table, the ECS, EC2 and
    AutoScaling providers, the clock) through method calls.  Every such call
    is an _event_ of a small free monad [Prog]; a program is run against a
    handler that answers the calls, and the run records the calls and
    their replies in order. *)

From Stdlib Require Import ZArith List Lia Bool.
From stdpp Require Import base option list gmap strings fin_maps.

Set Warnings "-clear-no-such-hyp".

(* ===================================================================== *)
(** * The Go runtime fragment the sources rely on *)
(* ===================================================================== *)

Module Go.

(** Codes of common/errors used by the sources. *)
Inductive ErrorCode : Type :=
| InvalidEnvironmentID.

(** A non-nil Go [error].  The sources distinguish the AWS SDK's
    [awserr.Error] (with [Code()] and [Message()]) by type assertion; every
    other error is only inspected through [Error()].  A nil-able [error] is
    an [option error]. *)
Inductive error : Type :=
| AwsError (code message : string)
| ServerError (code : ErrorCode) (message : string)
| Errorf (text : string).

(** [err.Error()]; the SDK renders an [awserr.Error] as "code: message". *)
Definition Error (e : error) : string :=
  match e with
  | AwsError code message => code +:+ ": " +:+ message
  | ServerError _ message => message
  | Errorf text => text
  end.

(** A Go [(T, error)] result of a function that returns either a value and
    a nil error, or an error. *)
Inductive result (A : Type) : Type :=
| Ok (a : A)
| Err (e : error).
Arguments Ok {A} a.
Arguments Err {A} e.

(** [strings.Contains]. *)
Fixpoint Contains (s substr : string) : bool :=
  if String.prefix substr s then true
  else match s with
       | EmptyString => false
       | String _ s' => Contains s' substr
       end.

(** [strings.ToLower] follows Go's Unicode tables, which are not part of
    the sources; the package that calls it takes it as a parameter (see
    [ecsbackend.Helpers]).  On ASCII text it maps the letters A-Z to a-z
    and keeps every other byte: [asciiToLower] is that function, and
    [isASCII] says that a text has no byte above 127. *)
Definition lower_ascii (c : Ascii.ascii) : Ascii.ascii :=
  let n := Ascii.nat_of_ascii c in
  if (65 <=? n)%nat && (n <=? 90)%nat then Ascii.ascii_of_nat (n + 32) else c.

Fixpoint asciiToLower (s : string) : string :=
  match s with
  | EmptyString => EmptyString
  | String c s' => String (lower_ascii c) (asciiToLower s')
  end.

Fixpoint isASCII (s : string) : bool :=
  match s with
  | EmptyString => true
  | String c s' => (Ascii.nat_of_ascii c <? 128)%nat && isASCII s'
  end.

Section Prog.
Context {E : Type -> Type}.

(** Programs over the calls [E]: return, call a collaborator and go on
    with its reply, or panic (a nil dereference). *)
Inductive Prog (R : Type) : Type :=
| Ret (r : R)
| Panic (reason : string)
| Do {X : Type} (e : E X) (k : X -> Prog R).
Arguments Ret {R} r.
Arguments Panic {R} reason.
Arguments Do {R X} e k.

Fixpoint bind {A B : Type} (p : Prog A) (f : A -> Prog B) : Prog B :=
  match p with
  | Ret a => f a
  | Panic reason => Panic reason
  | Do e k => Do e (fun x => bind (k x) f)
  end.

Definition call {X : Type} (e : E X) : Prog X := Do e Ret.

(** How a run ends. *)
Inductive Outcome (R : Type) : Type :=
| Returned (r : R)
| Panicked (reason : string).
Arguments Returned {R} r.
Arguments Panicked {R} reason.

(** One entry of the record of a run: the call and the reply it got. *)
Record Event : Type := Ev { ev_type : Type; ev_call : E ev_type; ev_reply : ev_type }.
Arguments Ev {ev_type} ev_call ev_reply.

(** A call without its reply. *)
Definition Request : Type := sigT E.
Definition req {X : Type} (e : E X) : Request := existT X e.
Definition request (ev : Event) : Request := req (ev_call ev).
Definition requests (tr : list Event) : list Request := map request tr.

(** A collaborator: it answers every call from its state [W]. *)
Definition Handler (W : Type) : Type := forall X : Type, E X -> W -> X * W.

(** Run a program against a collaborator; the result is the outcome, the
    collaborator's final state, and the calls made with their replies. *)
Fixpoint run {R W : Type} (h : Handler W) (p : Prog R) (w : W)
  : Outcome R * W * list Event :=
  match p with
  | Ret r => (Returned r, w, [])
  | Panic reason => (Panicked reason, w, [])
  | Do e k =>
      let '(x, w1) := h _ e w in
      let '(o, w2, tr) := run h (k x) w1 in
      (o, w2, Ev e x :: tr)
  end.

Definition outcome {R W : Type} (r : Outcome R * W * list Event) : Outcome R := r.1.1.
Definition final {R W : Type} (r : Outcome R * W * list Event) : W := r.1.2.
Definition trace {R W : Type} (r : Outcome R * W * list Event) : list Event := r.2.
End Prog.

Arguments Prog E R : clear implicits.
Arguments Ret {E R} r.
Arguments Panic {E R} reason.
Arguments Do {E R X} e k.
Arguments Outcome R : clear implicits.
Arguments Returned {R} r.
Arguments Panicked {R} reason.
Arguments Event E : clear implicits.
Arguments Ev {E ev_type} ev_call ev_reply.
Arguments Request E : clear implicits.
Arguments Handler E W : clear implicits.

Declare Scope prog_scope.
Delimit Scope prog_scope with prog.
Notation "x <- p ;; q" := (bind p (fun x => q))
  (at level 100, p at next level, right associativity) : prog_scope.

End Go.

Import Go.
Open Scope prog_scope.

(* ===================================================================== *)
(** * common/models *)
(* ===================================================================== *)

Module models.

(** models.Tag *)
Record Tag : Type := mkTag {
  EntityType : string;
  EntityID : string;
  Key : string;
  Value : string;
}.

(** models.Tags is [[]Tag]. *)
Definition Tags : Type := list Tag.

(** models.Environment (common/models/environment.go). *)
Record Environment : Type := mkEnvironment {
  EnvironmentID : string;
  EnvironmentName : string;
  ClusterCount : Z;
  InstanceSize : string;
  SecurityGroupID : string;
  OperatingSystem : string;
  AMIID : string;
  Links : list string;
}.

End models.

(* ===================================================================== *)
(** * api/tag/dynamo_store.go *)
(* ===================================================================== *)

Module tag.

(** DynamoTagSchema.  A Go map that is nil and one that is empty behave
    alike in every use the store makes of [Tags] once [selectByTypeAndID]
    has replaced nil by an empty map, so both are the empty [gmap]. *)
Record DynamoTagSchema : Type := mkSchema {
  EntityType : string;
  EntityID : string;
  Tags : gmap string string;
}.

(** ToTags: one models.Tag per entry of the map (Go ranges over the map in
    no fixed order; [map_to_list] fixes one). *)
Definition ToTags (s : DynamoTagSchema) : models.Tags :=
  (fun kv => models.mkTag (EntityType s) (EntityID s) kv.1 kv.2) <$> map_to_list (Tags s).

(** The requests the store sends to its [dynamo.Table]; one constructor per
    method chain that ends in [Run], [One] or [All]. *)
Inductive tableE : Type -> Type :=
(* d.table.Scan().Consistent(c).All(&schemas); a scan that is not told
   otherwise is not consistent *)
| ScanAll (consistent : bool) : tableE (result (list DynamoTagSchema))
(* d.table.Batch("EntityType", "EntityID").Write().Delete(keys...).Run() *)
| BatchWriteDelete (keys : list (string * string)) : tableE (option error)
(* d.table.Get("EntityType", t).Range("EntityID", dynamo.Equal, i).Consistent(true).One(&schema) *)
| GetOne (entityType entityID : string) : tableE (result DynamoTagSchema)
(* d.table.Get("EntityType", t).Consistent(true).All(&schemas) *)
| GetAll (entityType : string) : tableE (result (list DynamoTagSchema))
(* d.table.Put(schema).If("attribute_not_exists(EntityType)").Run() *)
| PutIfNotExists (schema : DynamoTagSchema) : tableE (option error)
(* d.table.Update("EntityType", t).Range("EntityID", i).Set("Tags", tags).Run() *)
| UpdateSetTags (entityType entityID : string) (tags : gmap string string) : tableE (option error)
(* d.table.Delete("EntityType", t).Range("EntityID", i).Run() *)
| DeleteItem (entityType entityID : string) : tableE (option error).

Definition M : Type -> Type := Prog tableE.

Definition keysOf (schemas : list DynamoTagSchema) : list (string * string) :=
  (fun schema => (EntityType schema, EntityID schema)) <$> schemas.

Definition Clear : M (option error) :=
  r <- call (ScanAll false);;
  match r with
  | Err err => Ret (Some err)
  | Ok schemas => call (BatchWriteDelete (keysOf schemas))
  end.

Definition selectByTypeAndID (entityType entityID : string) : M (result DynamoTagSchema) :=
  if bool_decide (entityType = "") then
    Ret (Err (Errorf "Failed to select tags: EntityType is required"))
  else if bool_decide (entityID = "") then
    Ret (Err (Errorf "Failed to select tags: EntityID is required"))
  else
    r <- call (GetOne entityType entityID);;
    match r with
    | Err err => Ret (Err err)
    | Ok schema => Ret (Ok schema)
    end.

Definition Delete (entityType entityID key : string) : M (option error) :=
  r <- selectByTypeAndID entityType entityID;;
  match r with
  | Err err => Ret (Some err)
  | Ok schema =>
      (* do nothing if key doesn't exist *)
      match Tags schema !! key with
      | None => Ret None
      | Some _ =>
          let tags := delete key (Tags schema) in
          (* update entry if it still has tags *)
          if bool_decide (0 < size tags) then
            call (UpdateSetTags (EntityType schema) (EntityID schema) tags)
          else
            (* delete the entire entry if this was the last tag *)
            call (DeleteItem (EntityType schema) (EntityID schema))
      end
  end.

Definition insertKey (tag : models.Tag) : M (option error) :=
  r <- selectByTypeAndID (models.EntityType tag) (models.EntityID tag);;
  match r with
  | Err err => Ret (Some err)
  | Ok schema =>
      call (UpdateSetTags (models.EntityType tag) (models.EntityID tag)
              (<[models.Key tag := models.Value tag]> (Tags schema)))
  end.

Definition Insert (tag : models.Tag) : M (option error) :=
  let schema := mkSchema (models.EntityType tag) (models.EntityID tag)
                  {[ models.Key tag := models.Value tag ]} in
  err <- call (PutIfNotExists schema);;
  match err with
  | Some (AwsError code message) =>
      if bool_decide (code = "ConditionalCheckFailedException") then insertKey tag
      else Ret (Some (AwsError code message))
  | Some err => Ret (Some err)
  | None => Ret None
  end.

Definition concatTags (schemas : list DynamoTagSchema) : models.Tags :=
  concat (ToTags <$> schemas).

Definition SelectAll : M (result models.Tags) :=
  r <- call (ScanAll false);;
  match r with
  | Err err => Ret (Err err)
  | Ok schemas => Ret (Ok (concatTags schemas))
  end.

Definition SelectByTypeAndID (entityType entityID : string) : M (result models.Tags) :=
  r <- selectByTypeAndID entityType entityID;;
  match r with
  | Err err =>
      if bool_decide (Error err = "dynamo: no item found") then Ret (Ok [])
      else Ret (Err err)
  | Ok schema => Ret (Ok (ToTags schema))
  end.

Definition selectByType (entityType : string) : M (result (list DynamoTagSchema)) :=
  call (GetAll entityType).

Definition SelectByType (entityType : string) : M (result models.Tags) :=
  r <- selectByType entityType;;
  match r with
  | Err err =>
      if bool_decide (Error err = "dynamo: no item found") then Ret (Ok [])
      else Ret (Err err)
  | Ok schemas => Ret (Ok (concatTags schemas))
  end.

(** ** The backing table

    The DynamoDB table the store is used with, as a collaborator: items are
    keyed by (EntityType, EntityID) and hold the Tags attribute.  [One]
    on a missing item fails with dynamo.ErrNotFound, whose text
    [SelectByTypeAndID] compares against; a conditional put on an existing
    item fails with ConditionalCheckFailedException, the code [Insert]
    compares against; an update creates a missing item; a delete of a
    missing item succeeds; a request whose key has an empty attribute is
    rejected with ValidationException. *)
Definition Table : Type := gmap (string * string) (gmap string string).

Definition ErrNotFound : error := Errorf "dynamo: no item found".

Definition items (tbl : Table) : list DynamoTagSchema :=
  (fun kv => mkSchema kv.1.1 kv.1.2 kv.2) <$> map_to_list tbl.

Definition invalidKey : error :=
  AwsError "ValidationException"
    "One or more parameter values are not valid: a key attribute is an empty string".

Definition validKey (t i : string) : bool :=
  negb (bool_decide (t = "")) && negb (bool_decide (i = "")).

Definition table : Handler tableE Table :=
  fun X e =>
    match e in tableE X return Table -> X * Table with
    | ScanAll _ => fun tbl => (Ok (items tbl), tbl)
    | BatchWriteDelete keys => fun tbl => (None, foldr delete tbl keys)
    | GetOne t i => fun tbl =>
        if validKey t i then
          match tbl !! (t, i) with
          | Some tags => (Ok (mkSchema t i tags), tbl)
          | None => (Err ErrNotFound, tbl)
          end
        else (Err invalidKey, tbl)
    | GetAll t => fun tbl =>
        (Ok (filter (fun s => EntityType s = t) (items tbl)), tbl)
    | PutIfNotExists s => fun tbl =>
        if validKey (EntityType s) (EntityID s) then
          match tbl !! (EntityType s, EntityID s) with
          | Some _ =>
              (Some (AwsError "ConditionalCheckFailedException" "The conditional request failed"),
               tbl)
          | None => (None, <[(EntityType s, EntityID s) := Tags s]> tbl)
          end
        else (Some invalidKey, tbl)
    | UpdateSetTags t i tags => fun tbl =>
        if validKey t i then (None, <[(t, i) := tags]> tbl) else (Some invalidKey, tbl)
    | DeleteItem t i => fun tbl =>
        if validKey t i then (None, delete (t, i) tbl) else (Some invalidKey, tbl)
    end.

(** Run [f] on the elements of a list in order and stop at the first
    error, as a Go loop with [if err != nil { return err }] does. *)
Fixpoint forEach {A : Type} (f : A -> M (option error)) (l : list A) : M (option error) :=
  match l with
  | [] => Ret None
  | a :: l' =>
      err <- f a;;
      match err with
      | Some e => Ret (Some e)
      | None => forEach f l'
      end
  end.

End tag.

(* ===================================================================== *)
(** * Collaborators of the environment manager *)
(* ===================================================================== *)

(** api/backend/ecs/id: the identifier codec.  Its file is not among the
    sources, so the manager is parameterised by it.  [ECSEnvironmentID] and
    [L0EnvironmentID] are Go string types, the conversions between them are
    methods; [ecsEnvironmentID.String()] is the string itself. *)
Module id.
Class Codec : Type := {
  PREFIX : string;
  GenerateHashedEntityID : string -> string;
  ECSEnvironmentID : string -> string;     (* L0EnvironmentID.ECSEnvironmentID() *)
  L0EnvironmentID : string -> string;      (* ECSEnvironmentID.L0EnvironmentID() *)
  SecurityGroupName : string -> string;
  AutoScalingGroupName : string -> string;
  LaunchConfigurationName : string -> string;
}.
End id.

(** common/config: deployment-wide values, read-only. *)
Module config.
Class Config : Type := {
  AWSLinuxServiceAMI : string;
  AWSWindowsServiceAMI : string;
  AWSVPCID : string;
  AWSAgentGroupID : string;
  AWSECSInstanceProfile : string;
  AWSKeyPair : string;
  AWSPrivateSubnets : string;
  AWSS3Bucket : string;
}.
End config.

(** common/aws/ecs, ec2, autoscaling: the provider data the manager reads.
    A pointer the manager tests against nil is an [option]; a pointer it
    dereferences without a test is the value itself. *)
Module ecs.
Record Cluster : Type := mkCluster { ClusterName : string }.
End ecs.

Module ec2.
Record SecurityGroup : Type := mkSecurityGroup { GroupId : option string }.
End ec2.

Module autoscaling.
Record Group : Type := mkGroup {
  Instances : list string;
  LaunchConfigurationName : option string;
  MaxSize : Z;
  Status : option string;
}.
Record LaunchConfiguration : Type := mkLaunchConfiguration {
  InstanceType : string;
  ImageId : string;
}.
End autoscaling.

(** [time.Duration] counts nanoseconds. *)
Module time.
Definition Second : Z := 1000000000.
End time.

(** common/waitutils. *)
Module waitutils.
Section Waiter.
Context {E : Type -> Type}.

Record Waiter : Type := mkWaiter {
  Name : string;
  Retries : nat;
  Delay : Z;
  Clock : Z -> E unit;                     (* Clock.Sleep *)
  Check : Prog E (bool * option error);
}.

Definition timedOut (w : Waiter) : error :=
  Errorf ("Wait '" +:+ Name w +:+ "' timed out").

(** Modelled from the spec: waitutils.Waiter.Wait is not among the
    sources.  The check is invoked until it reports done, reports an
    error, or the retry budget is exhausted, in which case the wait fails
    with a timeout error carrying the waiter's name; after an invocation
    that reports neither, the waiter sleeps for the delay on its clock. *)
Fixpoint loop (w : Waiter) (retries : nat) : Prog E (option error) :=
  match retries with
  | O => Ret (Some (timedOut w))
  | S retries' =>
      r <- Check w;;
      match r.2 with
      | Some err => Ret (Some err)
      | None =>
          if r.1 then Ret None
          else _ <- call (Clock w (Delay w));; loop w retries'
      end
  end.

Definition Wait (w : Waiter) : Prog E (option error) := loop w (Retries w).
End Waiter.
Arguments Waiter E : clear implicits.
End waitutils.

(* ===================================================================== *)
(** * api/backend/ecs/environment_manager.go *)
(* ===================================================================== *)

Module ecsbackend.
Import id config.

(** The calls of the manager's collaborators: the ECS, EC2 and AutoScaling
    providers and the clock (the fields of ECSEnvironmentManager).  A Go
    result of a pointer and an error is a pair of options. *)
Inductive awsE : Type -> Type :=
(* ecs.Provider *)
| Helper_DescribeClusters : awsE (list ecs.Cluster * option error)
| DescribeCluster (clusterName : string) : awsE (option ecs.Cluster * option error)
| CreateCluster (clusterName : string) : awsE (option ecs.Cluster * option error)
| DeleteCluster (clusterName : string) : awsE (option error)
(* ec2.Provider *)
| DescribeSecurityGroup (name : string) : awsE (option ec2.SecurityGroup * option error)
| CreateSecurityGroup (name description vpcID : string) : awsE (option string * option error)
| AuthorizeSecurityGroupIngressFromGroup (groupID sourceGroupID : option string) : awsE (option error)
| DeleteSecurityGroup (securityGroup : ec2.SecurityGroup) : awsE (option error)
(* autoscaling.Provider *)
| DescribeAutoScalingGroup (name : string) : awsE (option autoscaling.Group * option error)
| DescribeLaunchConfiguration (name : string)
    : awsE (option autoscaling.LaunchConfiguration * option error)
| CreateLaunchConfiguration
    (name ami role instanceSize keyPair userData : string) (securityGroups : list (option string))
    : awsE (option error)
| CreateAutoScalingGroup (name launchConfigurationName subnets : string) (minSize maxSize : Z)
    : awsE (option error)
| UpdateAutoScalingGroupMinSize (name : string) (size : Z) : awsE (option error)
| UpdateAutoScalingGroupMaxSize (name : string) (size : Z) : awsE (option error)
| DeleteAutoScalingGroup (name : string) : awsE (option error)
| DeleteLaunchConfiguration (name : string) : awsE (option error)
(* waitutils.Clock *)
| Sleep (d : Z) : awsE unit.

Definition M : Type -> Type := Prog awsE.

(** The helpers of the package whose file is not among the sources:
    the two tests on a provider error; and the standard library behind
    CreateEnvironment: strings.ToLower, of which the one fact assumed is
    what it does on ASCII text, and the text/template and base64
    machinery behind renderUserData.  The two default user data templates
    are taken as values: their Go literals contain quotation marks. *)
Class Helpers : Type := {
  ContainsErrCode : error -> string -> bool;
  ContainsErrMsg : error -> string -> bool;
  ToLower : string -> string;                        (* strings.ToLower *)
  ToLower_ASCII : forall s : string, isASCII s = true -> ToLower s = asciiToLower s;
  template_Parse : string -> option error;
  template_Execute : string -> string -> string -> result string;
  base64_EncodeToString : string -> string;
  defaultWindowsUserDataTemplate : string;
  defaultLinuxUserDataTemplate : string;
}.

(** Modelled from the spec: pstring is not among the sources; a nil
    pointer reads as the empty string (a missing dependent resource
    gives zero/empty fields). *)
Definition pstring (s : option string) : string := default "" s.

Section Manager.
Context `{Codec} `{Config} `{Helpers}.

Definition ListEnvironments : M (result (list models.Environment)) :=
  r <- call Helper_DescribeClusters;;
  let '(clusters, err) := r in
  match err with
  | Some err => Ret (Err err)
  | None =>
      Ret (Ok (omap (fun cluster =>
                 if String.prefix PREFIX (ecs.ClusterName cluster) then
                   let ecsEnvironmentID := ecs.ClusterName cluster in
                   Some (models.mkEnvironment (L0EnvironmentID ecsEnvironmentID)
                           "" 0%Z "" "" "" "" [])
                 else None) clusters))
  end.

Definition describeAutoscalingGroup (ecsEnvironmentID : string)
  : M (option autoscaling.Group * option error) :=
  let autoScalingGroupName := AutoScalingGroupName ecsEnvironmentID in
  r <- call (DescribeAutoScalingGroup autoScalingGroupName);;
  let '(asg, err) := r in
  match err with
  | Some err => Ret (None, Some err)
  | None => Ret (asg, None)
  end.

Definition populateModel (cluster : option ecs.Cluster) : M (result models.Environment) :=
  match cluster with
  | None => Panic "nil pointer dereference: cluster"
  | Some cluster =>
      (* assuming id.ECSEnvironmentID == ECSEnvironmentID.ClusterName() *)
      let ecsEnvironmentID := ecs.ClusterName cluster in
      (* from "var securityGroupID string" to the end *)
      let finish (clusterCount : Z) (instanceSize amiID : string)
        : M (result models.Environment) :=
        r <- call (DescribeSecurityGroup (SecurityGroupName ecsEnvironmentID));;
        let '(securityGroup, err) := r in
        match err with
        | Some err => Ret (Err err)
        | None =>
            let securityGroupID :=
              match securityGroup with
              | Some securityGroup => pstring (ec2.GroupId securityGroup)
              | None => ""
              end in
            Ret (Ok (models.mkEnvironment (L0EnvironmentID ecsEnvironmentID) ""
                       clusterCount instanceSize securityGroupID "" amiID []))
        end in
      (* "if asg != nil { ... }" *)
      let sizes (asg : option autoscaling.Group) :=
        match asg with
        | None => finish 0%Z "" ""
        | Some asg =>
            let clusterCount := Z.of_nat (length (autoscaling.Instances asg)) in
            match autoscaling.LaunchConfigurationName asg with
            | None => finish clusterCount "" ""
            | Some name =>
                r <- call (DescribeLaunchConfiguration name);;
                let '(launchConfig, err) := r in
                let read :=
                  match launchConfig with
                  | Some launchConfig =>
                      finish clusterCount (autoscaling.InstanceType launchConfig)
                        (autoscaling.ImageId launchConfig)
                  | None => finish clusterCount "" ""
                  end in
                match err with
                | Some err => if ContainsErrMsg err "not found" then read else Ret (Err err)
                | None => read
                end
            end
        end in
      r <- describeAutoscalingGroup ecsEnvironmentID;;
      let '(asg, err) := r in
      match err with
      | Some err => if ContainsErrMsg err "not found" then sizes asg else Ret (Err err)
      | None => sizes asg
      end
  end.

Definition GetEnvironment (environmentID : string) : M (result models.Environment) :=
  let ecsEnvironmentID := ECSEnvironmentID environmentID in
  r <- call (DescribeCluster ecsEnvironmentID);;
  let '(cluster, err) := r in
  match err with
  | Some err =>
      if ContainsErrCode err "ClusterNotFoundException" || ContainsErrMsg err "cluster not found"
      then Ret (Err (ServerError InvalidEnvironmentID
                       ("Environment with id '" +:+ environmentID +:+ "' was not found")))
      else Ret (Err err)
  | None => populateModel cluster
  end.

Definition renderUserData (ecsEnvironmentID userData : string) : result string :=
  match template_Parse userData with
  | Some err => Err (Errorf ("Failed to parse user data: " +:+ Error err))
  | None =>
      match template_Execute userData ecsEnvironmentID AWSS3Bucket with
      | Err err => Err (Errorf ("Failed to render user data: " +:+ Error err))
      | Ok rendered => Ok (base64_EncodeToString rendered)
      end
  end.

(** The switch on [strings.ToLower(operatingSystem)]: the default user
    data template and the service AMI of a recognized operating system. *)
Definition osDefaults (operatingSystem : string) : option (string * string) :=
  let os := ToLower operatingSystem in
  if bool_decide (os = "linux") then Some (defaultLinuxUserDataTemplate, AWSLinuxServiceAMI)
  else if bool_decide (os = "windows") then
    Some (defaultWindowsUserDataTemplate, AWSWindowsServiceAMI)
  else None.

Definition CreateEnvironment
  (environmentName instanceSize operatingSystem amiID : string)
  (minClusterCount : Z) (userDataTemplate : string) : M (result models.Environment) :=
  match osDefaults operatingSystem with
  | None =>
      Ret (Err (Errorf ("Operating system '" +:+ operatingSystem +:+ "' is not recognized")))
  | Some (defaultUserDataTemplate, serviceAMI) =>
      let environmentID := GenerateHashedEntityID environmentName in
      let ecsEnvironmentID := ECSEnvironmentID environmentID in
      let userDataTemplate :=
        if bool_decide (String.length userDataTemplate = 0%nat) then defaultUserDataTemplate
        else userDataTemplate in
      let serviceAMI := if bool_decide (amiID ≠ "") then amiID else serviceAMI in
      match renderUserData ecsEnvironmentID userDataTemplate with
      | Err err => Ret (Err err)
      | Ok userData =>
          r <- call (CreateCluster ecsEnvironmentID);;
          let '(cluster, err) := r in
          match err with Some err => Ret (Err err) | None =>
          let description := "Auto-generated Layer0 Environment Security Group" in
          let vpcID := AWSVPCID in
          r <- call (CreateSecurityGroup (SecurityGroupName ecsEnvironmentID) description vpcID);;
          let '(groupID, err) := r in
          match err with Some err => Ret (Err err) | None =>
          (* wait for security group to propagate *)
          _ <- call (Sleep (time.Second * 2));;
          err <- call (AuthorizeSecurityGroupIngressFromGroup groupID groupID);;
          match err with Some err => Ret (Err err) | None =>
          let agentGroupID := AWSAgentGroupID in
          let securityGroups := [groupID; Some agentGroupID] in
          let ecsRole := AWSECSInstanceProfile in
          let keyPair := AWSKeyPair in
          let launchConfigurationName := LaunchConfigurationName ecsEnvironmentID in
          err <- call (CreateLaunchConfiguration launchConfigurationName serviceAMI ecsRole
                         instanceSize keyPair userData securityGroups);;
          match err with Some err => Ret (Err err) | None =>
          let maxClusterCount := if bool_decide (minClusterCount > 0)%Z then minClusterCount else 0%Z in
          err <- call (CreateAutoScalingGroup (AutoScalingGroupName ecsEnvironmentID)
                         launchConfigurationName AWSPrivateSubnets
                         minClusterCount maxClusterCount);;
          match err with Some err => Ret (Err err) | None =>
          populateModel cluster
          end end end end end
      end
  end.

Definition updateEnvironmentMinCount (model : models.Environment) (minClusterCount : Z)
  : M (option error) :=
  let ecsEnvironmentID := ECSEnvironmentID (models.EnvironmentID model) in
  let autoScalingGroupName := AutoScalingGroupName ecsEnvironmentID in
  r <- describeAutoscalingGroup ecsEnvironmentID;;
  let '(asg, err) := r in
  match err with
  | Some err => Ret (Some err)
  | None =>
      match asg with
      | None => Panic "nil pointer dereference: asg"
      | Some asg =>
          let setMin := call (UpdateAutoScalingGroupMinSize autoScalingGroupName minClusterCount) in
          if bool_decide (autoscaling.MaxSize asg < minClusterCount)%Z then
            err <- call (UpdateAutoScalingGroupMaxSize autoScalingGroupName minClusterCount);;
            match err with
            | Some err => Ret (Some err)
            | None => setMin
            end
          else setMin
      end
  end.

Definition UpdateEnvironment (environmentID : string) (minClusterCount : Z)
  : M (result models.Environment) :=
  r <- GetEnvironment environmentID;;
  match r with
  | Err err => Ret (Err err)
  | Ok model =>
      err <- updateEnvironmentMinCount model minClusterCount;;
      match err with
      | Some err => Ret (Err err)
      | None => Ret (Ok model)
      end
  end.

Definition waitForAutoScalingGroupInactive (ecsEnvironmentID : string) : M (option error) :=
  let autoScalingGroupName := AutoScalingGroupName ecsEnvironmentID in
  let check : M (bool * option error) :=
    r <- call (DescribeAutoScalingGroup autoScalingGroupName);;
    let '(group, err) := r in
    match err with
    | Some err => if ContainsErrMsg err "not found" then Ret (true, None) else Ret (false, Some err)
    | None =>
        (* log.Debugf("Waiting for ASG %s to delete (status: '%s')", autoScalingGroupName,
             pstring(group.Status)) reads the field of [group] *)
        match group with
        | None => Panic "nil pointer dereference: group"
        | Some _ => Ret (false, None)
        end
    end in
  waitutils.Wait
    (waitutils.mkWaiter ("Stop Autoscaling " +:+ autoScalingGroupName) 50 (time.Second * 10)
       Sleep check).

(** The waiter's name formats the group with %v; the name only appears
    in the timeout text, for which the group ID stands here. *)
Definition waitForSecurityGroupDeleted (securityGroup : ec2.SecurityGroup) : M (option error) :=
  let check : M (bool * option error) :=
    err <- call (DeleteSecurityGroup securityGroup);;
    match err with
    | None => Ret (true, None)
    | Some _ => Ret (false, None)
    end in
  waitutils.Wait
    (waitutils.mkWaiter
       ("SecurityGroup delete for '" +:+ pstring (ec2.GroupId securityGroup) +:+ "'")
       50 (time.Second * 10) Sleep check).

Definition DeleteEnvironment (environmentID : string) : M (option error) :=
  let ecsEnvironmentID := ECSEnvironmentID environmentID in
  let autoScalingGroupName := AutoScalingGroupName ecsEnvironmentID in
  (* "if err != nil && !tolerated(err) { return err }" *)
  let fatal (err : option error) (tolerated : error -> bool) : option error :=
    match err with
    | Some err => if tolerated err then None else Some err
    | None => None
    end in
  let pending (err : error) :=
    ContainsErrMsg err "name not found" || ContainsErrMsg err "is pending delete" in
  let missing (err : error) := ContainsErrMsg err "name not found" in
  err <- call (UpdateAutoScalingGroupMinSize autoScalingGroupName 0%Z);;
  match fatal err pending with Some err => Ret (Some err) | None =>
  err <- call (UpdateAutoScalingGroupMaxSize autoScalingGroupName 0%Z);;
  match fatal err pending with Some err => Ret (Some err) | None =>
  err <- call (DeleteAutoScalingGroup autoScalingGroupName);;
  match fatal err missing with Some err => Ret (Some err) | None =>
  let launchConfigurationName := LaunchConfigurationName ecsEnvironmentID in
  err <- call (DeleteLaunchConfiguration launchConfigurationName);;
  match fatal err missing with Some err => Ret (Some err) | None =>
  err <- waitForAutoScalingGroupInactive ecsEnvironmentID;;
  match err with Some err => Ret (Some err) | None =>
  r <- call (DescribeSecurityGroup (SecurityGroupName ecsEnvironmentID));;
  let '(securityGroup, err) := r in
  match err with Some err => Ret (Some err) | None =>
  err <- match securityGroup with
         | Some securityGroup => waitForSecurityGroupDeleted securityGroup
         | None => Ret None
         end;;
  match err with Some err => Ret (Some err) | None =>
  err <- call (DeleteCluster ecsEnvironmentID);;
  match fatal err (fun err => ContainsErrCode err "ClusterNotFoundException") with
  | Some err => Ret (Some err)
  | None => Ret None
  end end end end end end end end.

Definition getEnvironmentSecurityGroup (environmentID : string)
  : M (option ec2.SecurityGroup * option error) :=
  r <- call (DescribeSecurityGroup (SecurityGroupName environmentID));;
  let '(group, err) := r in
  match err with
  | Some err => Ret (None, Some err)
  | None =>
      match group with
      | None =>
          Ret (None, Some (Errorf ("Security group for environment '" +:+
                                   L0EnvironmentID environmentID +:+ "' does not exist")))
      | Some group => Ret (Some group, None)
      end
  end.

Definition CreateEnvironmentLink (sourceEnvironmentID destEnvironmentID : string)
  : M (option error) :=
  let sourceECSID := ECSEnvironmentID sourceEnvironmentID in
  let destECSID := ECSEnvironmentID destEnvironmentID in
  r <- getEnvironmentSecurityGroup sourceECSID;;
  match r with
  | (_, Some err) => Ret (Some err)
  | (None, None) => Panic "nil pointer dereference: sourceGroup"
  | (Some sourceGroup, None) =>
      r <- getEnvironmentSecurityGroup destECSID;;
      match r with
      | (_, Some err) => Ret (Some err)
      | (None, None) => Panic "nil pointer dereference: destGroup"
      | (Some destGroup, None) =>
          let duplicate (err : option error) : option error :=
            match err with
            | Some err =>
                if ContainsErrCode err "InvalidPermission.Duplicate" then None else Some err
            | None => None
            end in
          err <- call (AuthorizeSecurityGroupIngressFromGroup
                         (ec2.GroupId sourceGroup) (ec2.GroupId destGroup));;
          match duplicate err with
          | Some err => Ret (Some err)
          | None =>
              err <- call (AuthorizeSecurityGroupIngressFromGroup
                             (ec2.GroupId destGroup) (ec2.GroupId sourceGroup));;
              match duplicate err with
              | Some err => Ret (Some err)
              | None => Ret None
              end
          end
      end
  end.

End Manager.
End ecsbackend.

(* ===================================================================== *)
(** * api/provider/aws/task_delete.go *)
(* ===================================================================== *)

Module aws.

(** ecs.StopTaskInput with the two fields the code sets. *)
Record StopTaskInput : Type := mkStopTaskInput {
  Cluster : option string;
  Task : option string;
}.

(** What TaskProvider.Delete calls: the package's helpers over the tag
    store (their files are not among the sources) and the ECS API. *)
Inductive taskE : Type -> Type :=
| lookupEntityEnvironmentID (entityType entityID : string) : taskE (string * option error)
| lookupTaskARN (taskID : string) : taskE (string * option error)
(* t.AWS.ECS.StopTask(input); the output is discarded *)
| StopTask (input : StopTaskInput) : taskE (option error)
| deleteEntityTags (entityType entityID : string) : taskE (option error).

Definition M : Type -> Type := Prog taskE.

(** Pure helpers whose code is not among the sources. *)
Class Helpers : Type := {
  Instance : string;                                  (* t.Config.Instance() *)
  addLayer0Prefix : string -> string -> string;
  Validate : StopTaskInput -> option error;           (* input.Validate() *)
}.

Section TaskProvider.
Context `{Helpers}.

Definition stopTask (clusterName taskARN : string) : M (option error) :=
  let input := mkStopTaskInput (Some clusterName) (Some taskARN) in
  match Validate input with
  | Some err => Ret (Some err)
  | None =>
      err <- call (StopTask input);;
      let notFound :=
        match err with
        | Some (AwsError _ message) => Contains message "task was not found"
        | _ => false
        end in
      if notFound then Ret None
      else Ret None
  end.

Definition Delete (taskID : string) : M (option error) :=
  r <- call (lookupEntityEnvironmentID "task" taskID);;
  let '(environmentID, err) := r in
  match err with
  | Some _ => Ret None                                (* [WARN] Environment not found *)
  | None =>
      r <- call (lookupTaskARN taskID);;
      let '(taskARN, err) := r in
      match err with
      | Some _ => Ret None                            (* [WARN] Task not found *)
      | None =>
          let fqEnvironmentID := addLayer0Prefix Instance environmentID in
          let clusterName := fqEnvironmentID in
          err <- stopTask clusterName taskARN;;
          match err with
          | Some err => Ret (Some err)
          | None =>
              err <- call (deleteEntityTags "task" taskID);;
              match err with
              | Some err => Ret (Some err)
              | None => Ret None
              end
          end
      end
  end.
End TaskProvider.
End aws.

(* ===================================================================== *)
(** * A provider account to run the manager against *)
(* ===================================================================== *)

(** The providers are outside the repository.  The properties below that
    speak of every provider quantify over all handlers; this account is one
    concrete provider, used to run the manager on examples: it keeps the
    resources by name and answers a call on a missing resource with the
    provider's error for it. *)
Module account.
Import ecsbackend.

Record Account : Type := mkAccount {
  clusters : gset string;
  securityGroups : gset string;                      (* group IDs *)
  ingress : gset (string * string);                  (* (group ID, source group ID) *)
  launchConfigurations : gmap string (string * string);   (* name to (instance type, image) *)
  scalingGroups : gmap string (string * Z * Z);      (* name to (launch configuration, min, max) *)
}.

Definition fresh : Account := mkAccount ∅ ∅ ∅ ∅ ∅.

Definition groupIdOf (name : string) : string := "sg-" +:+ name.

Definition asgMissing : error := AwsError "ValidationError" "AutoScalingGroup name not found - null".
Definition lcMissing : error :=
  AwsError "ValidationError" "Launch configuration name not found - null".
Definition clusterMissing : error :=
  AwsError "ClusterNotFoundException" "The referenced cluster was not found".
Definition duplicateRule : error :=
  AwsError "InvalidPermission.Duplicate" "the specified rule already exists".
Definition invalid (message : string) : error := AwsError "ValidationError" message.

Definition setBounds (name : string) (f : Z * Z -> option (Z * Z)) (a : Account)
  : option error * Account :=
  match scalingGroups a !! name with
  | None => (Some asgMissing, a)
  | Some (lc, lo, hi) =>
      match f (lo, hi) with
      | None => (Some (invalid "Min bound must not exceed max bound"), a)
      | Some (lo', hi') =>
          (None, mkAccount (clusters a) (securityGroups a) (ingress a) (launchConfigurations a)
                   (<[name := (lc, lo', hi')]> (scalingGroups a)))
      end
  end.

Definition handler : Handler awsE Account :=
  fun X e =>
    match e in awsE X return Account -> X * Account with
    | Helper_DescribeClusters => fun a =>
        ((ecs.mkCluster <$> elements (clusters a), None), a)
    | DescribeCluster n => fun a =>
        if bool_decide (n ∈ clusters a) then ((Some (ecs.mkCluster n), None), a)
        else ((None, Some clusterMissing), a)
    | CreateCluster n => fun a =>
        ((Some (ecs.mkCluster n), None),
         mkAccount ({[n]} ∪ clusters a) (securityGroups a) (ingress a)
           (launchConfigurations a) (scalingGroups a))
    | DeleteCluster n => fun a =>
        if bool_decide (n ∈ clusters a) then
          (None, mkAccount (clusters a ∖ {[n]}) (securityGroups a) (ingress a)
                   (launchConfigurations a) (scalingGroups a))
        else (Some clusterMissing, a)
    | DescribeSecurityGroup n => fun a =>
        if bool_decide (groupIdOf n ∈ securityGroups a)
        then ((Some (ec2.mkSecurityGroup (Some (groupIdOf n))), None), a)
        else ((None, None), a)
    | CreateSecurityGroup n _ _ => fun a =>
        if bool_decide (groupIdOf n ∈ securityGroups a)
        then ((None, Some (AwsError "InvalidGroup.Duplicate" "the group already exists")), a)
        else ((Some (groupIdOf n), None),
              mkAccount (clusters a) ({[groupIdOf n]} ∪ securityGroups a) (ingress a)
                (launchConfigurations a) (scalingGroups a))
    | AuthorizeSecurityGroupIngressFromGroup (Some g) (Some s) => fun a =>
        if bool_decide ((g, s) ∈ ingress a) then (Some duplicateRule, a)
        else (None, mkAccount (clusters a) (securityGroups a) ({[(g, s)]} ∪ ingress a)
                      (launchConfigurations a) (scalingGroups a))
    | AuthorizeSecurityGroupIngressFromGroup _ _ => fun a =>
        (Some (AwsError "MissingParameter" "a group ID is required"), a)
    | DeleteSecurityGroup sg => fun a =>
        match ec2.GroupId sg with
        | Some g =>
            if bool_decide (g ∈ securityGroups a) then
              (None, mkAccount (clusters a) (securityGroups a ∖ {[g]})
                       (filter (fun r => r.1 ≠ g) (ingress a))
                       (launchConfigurations a) (scalingGroups a))
            else (Some (AwsError "InvalidGroup.NotFound" "the group does not exist"), a)
        | None => (Some (AwsError "MissingParameter" "a group ID is required"), a)
        end
    | DescribeAutoScalingGroup n => fun a =>
        match scalingGroups a !! n with
        | Some (lc, lo, hi) =>
            ((Some (autoscaling.mkGroup (replicate (Z.to_nat lo) "i-0") (Some lc) hi None), None), a)
        | None => ((None, Some asgMissing), a)
        end
    | DescribeLaunchConfiguration n => fun a =>
        match launchConfigurations a !! n with
        | Some (size, image) => ((Some (autoscaling.mkLaunchConfiguration size image), None), a)
        | None => ((None, Some lcMissing), a)
        end
    | CreateLaunchConfiguration n ami _ size _ _ _ => fun a =>
        match launchConfigurations a !! n with
        | Some _ => (Some (AwsError "AlreadyExists" "the launch configuration already exists"), a)
        | None =>
            (None, mkAccount (clusters a) (securityGroups a) (ingress a)
                     (<[n := (size, ami)]> (launchConfigurations a)) (scalingGroups a))
        end
    | CreateAutoScalingGroup n lc _ lo hi => fun a =>
        match scalingGroups a !! n with
        | Some _ => (Some (AwsError "AlreadyExists" "the group already exists"), a)
        | None =>
            if bool_decide (0 ≤ lo ≤ hi)%Z then
              (None, mkAccount (clusters a) (securityGroups a) (ingress a)
                       (launchConfigurations a) (<[n := (lc, lo, hi)]> (scalingGroups a)))
            else (Some (invalid "Min bound must not exceed max bound"), a)
        end
    | UpdateAutoScalingGroupMinSize n size => fun a =>
        setBounds n (fun b => if bool_decide (0 ≤ size ≤ b.2)%Z then Some (size, b.2) else None) a
    | UpdateAutoScalingGroupMaxSize n size => fun a =>
        setBounds n (fun b => if bool_decide (b.1 ≤ size)%Z then Some (b.1, size) else None) a
    | DeleteAutoScalingGroup n => fun a =>
        match scalingGroups a !! n with
        | Some _ =>
            (None, mkAccount (clusters a) (securityGroups a) (ingress a)
                     (launchConfigurations a) (delete n (scalingGroups a)))
        | None => (Some asgMissing, a)
        end
    | DeleteLaunchConfiguration n => fun a =>
        match launchConfigurations a !! n with
        | Some _ =>
            (None, mkAccount (clusters a) (securityGroups a) (ingress a)
                     (delete n (launchConfigurations a)) (scalingGroups a))
        | None => (Some lcMissing, a)
        end
    | Sleep _ => fun a => (tt, a)
    end.

(** The codec, configuration and helpers of the examples.  The examples
    use ASCII text only, and their ToLower is [asciiToLower]. *)
#[export] Instance codec : id.Codec := {|
  id.PREFIX := "l0-test-";
  id.GenerateHashedEntityID := fun name => name +:+ "1a2b3";
  id.ECSEnvironmentID := fun l0 => "l0-test-" +:+ l0;
  id.L0EnvironmentID := fun e => String.substring 8 (String.length e - 8) e;
  id.SecurityGroupName := fun e => e +:+ "-env";
  id.AutoScalingGroupName := fun e => e;
  id.LaunchConfigurationName := fun e => e;
|}.

#[export] Instance settings : config.Config := {|
  config.AWSLinuxServiceAMI := "ami-linux";
  config.AWSWindowsServiceAMI := "ami-windows";
  config.AWSVPCID := "vpc-1";
  config.AWSAgentGroupID := "sg-agent";
  config.AWSECSInstanceProfile := "ecs-role";
  config.AWSKeyPair := "key";
  config.AWSPrivateSubnets := "subnet-1,subnet-2";
  config.AWSS3Bucket := "bucket";
|}.

#[export] Instance helpers : ecsbackend.Helpers := {|
  ContainsErrCode := fun err code =>
    match err with AwsError c _ => bool_decide (c = code) | _ => false end;
  ContainsErrMsg := fun err msg =>
    match err with AwsError _ m => Contains m msg | _ => false end;
  ToLower := asciiToLower;
  ToLower_ASCII := fun _ _ => eq_refl;
  template_Parse := fun _ => None;
  template_Execute := fun tmpl _ _ => Ok tmpl;
  base64_EncodeToString := fun s => s;
  defaultWindowsUserDataTemplate := "<powershell>";
  defaultLinuxUserDataTemplate := "#!/bin/bash";
|}.

(** A task provider's collaborators for the examples: the tag store knows
    the tasks in [known]; StopTask answers with [stopReply]. *)
Record Tasks : Type := mkTasks { known : gset string; stopReply : option error }.

Definition tasks : Handler aws.taskE Tasks :=
  fun X e =>
    match e in aws.taskE X return Tasks -> X * Tasks with
    | aws.lookupEntityEnvironmentID _ i => fun t =>
        if bool_decide (i ∈ known t) then (("env1", None), t)
        else (("", Some (Errorf "no environment_id tag")), t)
    | aws.lookupTaskARN i => fun t =>
        if bool_decide (i ∈ known t) then (("arn:" +:+ i, None), t)
        else (("", Some (Errorf "no arn tag")), t)
    | aws.StopTask _ => fun t => (stopReply t, t)
    | aws.deleteEntityTags _ i => fun t => (None, mkTasks (known t ∖ {[i]}) (stopReply t))
    end.

#[export] Instance taskHelpers : aws.Helpers := {|
  aws.Instance := "test";
  aws.addLayer0Prefix := fun instance i => "l0-" +:+ instance +:+ "-" +:+ i;
  aws.Validate := fun input =>
    match aws.Task input with
    | Some _ => None
    | None => Some (Errorf "InvalidParameter: missing required field, StopTaskInput.Task")
    end;
|}.

(** The account with the ingress rules replaced, and with the bounds of a
    scaling group replaced. *)
Definition withIngress (a : Account) (rules : gset (string * string)) : Account :=
  mkAccount (clusters a) (securityGroups a) rules (launchConfigurations a) (scalingGroups a).

Definition withBounds (a : Account) (name launchConfiguration : string) (lo hi : Z) : Account :=
  mkAccount (clusters a) (securityGroups a) (ingress a) (launchConfigurations a)
    (<[name := (launchConfiguration, lo, hi)]> (scalingGroups a)).

(** The account after the environment "prod" was created in it, and the
    logical ID the codec generated for it. *)
Definition prodID : string := "prod1a2b3".

Definition prod : Account :=
  final (run handler (CreateEnvironment "prod" "m3.medium" "linux" "" 2 "") fresh).

(** The account after a second environment, "dev", was created as well. *)
Definition devID : string := "dev1a2b3".

Definition prodAndDev : Account :=
  final (run handler (CreateEnvironment "dev" "m3.medium" "linux" "" 1 "") prod).
End account.

Import (hints) account.

(* ===================================================================== *)
(** * Vocabulary of the properties *)
(* ===================================================================== *)

(** The table [tbl] with the record of (t, i) holding the tags [m]; no
    record when [m] is empty. *)
Definition withTags (tbl : tag.Table) (t i : string) (m : gmap string string) : tag.Table :=
  if decide (m = ∅) then delete (t, i) tbl else <[(t, i) := m]> tbl.

(** The tags [m] after setting the pairs [kvs] in order, and after
    removing the keys [ks]. *)
Definition setAll (kvs : list (string * string)) (m : gmap string string) : gmap string string :=
  foldl (fun m kv => <[kv.1 := kv.2]> m) m kvs.

Definition removeAll (ks : list string) (m : gmap string string) : gmap string string :=
  foldl (fun m k => delete k m) m ks.

(** Insert the tag of the pair [kv] for the entity (t, i). *)
Definition insertTag (t i : string) (kv : string * string) : tag.M (option error) :=
  tag.Insert (models.mkTag t i kv.1 kv.2).

(** A clock call, as opposed to a call to one of the providers. *)
Definition isSleep (ev : Event ecsbackend.awsE) : bool :=
  match ev_call ev with
  | ecsbackend.Sleep _ => true
  | _ => false
  end.

(** The provider calls of a run, in order. *)
Definition providerCalls (tr : list (Event ecsbackend.awsE)) : list (Event ecsbackend.awsE) :=
  List.filter (fun ev => negb (isSleep ev)) tr.

(** The same call answered with each of the replies [xs] in turn. *)
Definition answered {X : Type} (e : ecsbackend.awsE X) (xs : list X)
  : list (Event ecsbackend.awsE) :=
  List.map (Ev e) xs.

(** [polled check timeout n xs o]: a wait with a budget of [n] checks saw
    the replies [xs] and returned [o].  [check] is what the waiter's check
    makes of a reply; it has no result for a reply on which the check
    panics.  Each reply but the last made the check say "not done, no
    error"; the last one ended the wait, unless the budget ran out. *)
Inductive polled {X : Type} (check : X -> option (bool * option error)) (timeout : error)
  : nat -> list X -> option error -> Prop :=
| polled_timeout : polled check timeout 0 [] (Some timeout)
| polled_done (n : nat) (x : X) :
    check x = Some (true, None) -> polled check timeout (S n) [x] None
| polled_failed (n : nat) (x : X) (done : bool) (err : error) :
    check x = Some (done, Some err) -> polled check timeout (S n) [x] (Some err)
| polled_again (n : nat) (x : X) (xs : list X) (o : option error) :
    check x = Some (false, None) -> polled check timeout n xs o ->
    polled check timeout (S n) (x :: xs) o.

(** [crashed check n xs]: a wait with a budget of [n] checks saw the
    replies [xs] and panicked in the check of the last one; each reply
    before it made the check say "not done, no error". *)
Inductive crashed {X : Type} (check : X -> option (bool * option error))
  : nat -> list X -> Prop :=
| crashed_now (n : nat) (x : X) :
    check x = None -> crashed check (S n) [x]
| crashed_later (n : nat) (x : X) (xs : list X) :
    check x = Some (false, None) -> crashed check n xs ->
    crashed check (S n) (x :: xs).

(** What the check of waitForAutoScalingGroupInactive makes of a reply to
    DescribeAutoScalingGroup: an error ends the wait, with success when it
    says "not found"; a group without an error means "not done"; on a
    reply with neither the check panics, since it reads the status of the
    group.  And what the check of waitForSecurityGroupDeleted makes of a
    reply to DeleteSecurityGroup. *)
Definition groupInactive `{ecsbackend.Helpers}
    (r : option autoscaling.Group * option error) : option (bool * option error) :=
  match r.2 with
  | Some err =>
      Some (if ecsbackend.ContainsErrMsg err "not found" then (true, None) else (false, Some err))
  | None =>
      match r.1 with
      | Some _ => Some (false, None)
      | None => None
      end
  end.

Definition groupDeleted (r : option error) : option (bool * option error) :=
  match r with
  | None => Some (true, None)
  | Some _ => Some (false, None)
  end.

(** A reply that lets DeleteEnvironment go on without waiting: the call
    succeeded, or the provider says the resource is not there (for the
    scaling group: not there, or pending delete, where the code accepts
    it); for the poll of the scaling group, that the group is no longer
    listed. *)
Definition tolerated `{ecsbackend.Helpers} (ev : Event ecsbackend.awsE) : bool :=
  match ev with
  | Ev e x =>
      match e in ecsbackend.awsE X return X -> bool with
      | ecsbackend.UpdateAutoScalingGroupMinSize _ _
      | ecsbackend.UpdateAutoScalingGroupMaxSize _ _ => fun r =>
          match r with
          | None => true
          | Some err =>
              ecsbackend.ContainsErrMsg err "name not found"
              || ecsbackend.ContainsErrMsg err "is pending delete"
          end
      | ecsbackend.DeleteAutoScalingGroup _
      | ecsbackend.DeleteLaunchConfiguration _ => fun r =>
          match r with
          | None => true
          | Some err => ecsbackend.ContainsErrMsg err "name not found"
          end
      | ecsbackend.DescribeAutoScalingGroup _ => fun r =>
          match r.2 with
          | Some err => ecsbackend.ContainsErrMsg err "not found"
          | None => false
          end
      | ecsbackend.DescribeSecurityGroup _ => fun r =>
          match r.2 with
          | None => true
          | Some _ => false
          end
      | ecsbackend.DeleteSecurityGroup _ => fun r =>
          match r with
          | None => true
          | Some _ => false
          end
      | ecsbackend.DeleteCluster _ => fun r =>
          match r with
          | None => true
          | Some err => ecsbackend.ContainsErrCode err "ClusterNotFoundException"
          end
      | _ => fun _ => true
      end x
  end.

(** The error with which DeleteAutoScalingGroup or
    DeleteLaunchConfiguration refused, if the reply is one that
    DeleteEnvironment does not accept: an error whose message does not
    contain "name not found". *)
Definition refusal `{ecsbackend.Helpers} (ev : Event ecsbackend.awsE) : option error :=
  match ev with
  | Ev e x =>
      match e in ecsbackend.awsE X return X -> option error with
      | ecsbackend.DeleteAutoScalingGroup _
      | ecsbackend.DeleteLaunchConfiguration _ => fun r =>
          match r with
          | Some err => if ecsbackend.ContainsErrMsg err "name not found" then None else Some err
          | None => None
          end
      | _ => fun _ => None
      end x
  end.

(** A provider for an example: it is the account, but every scaling group
    is being deleted, and the provider says so to each call that would
    resize or delete one. *)
Definition groupPending : error :=
  AwsError "ResourceInUse" "The AutoScalingGroup is pending delete".

Definition pendingGroups : Handler ecsbackend.awsE account.Account :=
  fun X e =>
    match e in ecsbackend.awsE X return account.Account -> X * account.Account with
    | ecsbackend.UpdateAutoScalingGroupMinSize _ _
    | ecsbackend.UpdateAutoScalingGroupMaxSize _ _
    | ecsbackend.DeleteAutoScalingGroup _ => fun a => (Some groupPending, a)
    | e' => account.handler _ e'
    end.

(** A lookup of TaskProvider.Delete in the tag store that failed. *)
Definition lookupFailed (ev : Event aws.taskE) : bool :=
  match ev with
  | Ev e x =>
      match e in aws.taskE X return X -> bool with
      | aws.lookupEntityEnvironmentID _ _ => fun r => bool_decide (is_Some r.2)
      | aws.lookupTaskARN _ => fun r => bool_decide (is_Some r.2)
      | _ => fun _ => false
      end x
  end.

(** A call of TaskProvider.Delete that acts on the task or its tags. *)
Definition actsOnTask (ev : Event aws.taskE) : bool :=
  match ev_call ev with
  | aws.StopTask _ => true
  | aws.deleteEntityTags _ _ => true
  | _ => false
  end.

(** [satisfies h p w Q]: the run of [p] against [h] from [w] ends with an
    outcome, a final state and a record of calls that satisfy [Q]. *)
Definition satisfies {E : Type -> Type} {R W : Type} (h : Handler E W) (p : Prog E R) (w : W)
    (Q : Outcome R -> W -> list (Event E) -> Prop) : Prop :=
  Q (outcome (run h p w)) (final (run h p w)) (trace (run h p w)).

(** The provider calls of DeleteEnvironment in their order: the scaling
    group is described [polls] times, and when the security group is
    [Some sg] its deletion is attempted [attempts] times. *)
Definition delete_calls `{!id.Codec} (environmentID : string) (polls : nat)
    (securityGroup : option ec2.SecurityGroup) (attempts : nat)
  : list (Request ecsbackend.awsE) :=
  let e := id.ECSEnvironmentID environmentID in
  [req (ecsbackend.UpdateAutoScalingGroupMinSize (id.AutoScalingGroupName e) 0);
   req (ecsbackend.UpdateAutoScalingGroupMaxSize (id.AutoScalingGroupName e) 0);
   req (ecsbackend.DeleteAutoScalingGroup (id.AutoScalingGroupName e));
   req (ecsbackend.DeleteLaunchConfiguration (id.LaunchConfigurationName e))]
  ++ repeat (req (ecsbackend.DescribeAutoScalingGroup (id.AutoScalingGroupName e))) polls
  ++ [req (ecsbackend.DescribeSecurityGroup (id.SecurityGroupName e))]
  ++ match securityGroup with
     | Some sg => repeat (req (ecsbackend.DeleteSecurityGroup sg)) attempts
     | None => []
     end
  ++ [req (ecsbackend.DeleteCluster e)].

(** The same calls with their replies: [r1] to [r5] for the calls made
    once, [xs] for the polls of the scaling group, [ys] for the attempts
    to delete the security group. *)
Definition delete_events `{!id.Codec} (environmentID : string)
    (r1 r2 r3 r4 : option error) (xs : list (option autoscaling.Group * option error))
    (securityGroup : option ec2.SecurityGroup) (ys : list (option error)) (r5 : option error)
  : list (Event ecsbackend.awsE) :=
  let e := id.ECSEnvironmentID environmentID in
  [Ev (ecsbackend.UpdateAutoScalingGroupMinSize (id.AutoScalingGroupName e) 0) r1;
   Ev (ecsbackend.UpdateAutoScalingGroupMaxSize (id.AutoScalingGroupName e) 0) r2;
   Ev (ecsbackend.DeleteAutoScalingGroup (id.AutoScalingGroupName e)) r3;
   Ev (ecsbackend.DeleteLaunchConfiguration (id.LaunchConfigurationName e)) r4]
  ++ answered (ecsbackend.DescribeAutoScalingGroup (id.AutoScalingGroupName e)) xs
  ++ [Ev (ecsbackend.DescribeSecurityGroup (id.SecurityGroupName e)) (securityGroup, None)]
  ++ match securityGroup with
     | Some sg => answered (ecsbackend.DeleteSecurityGroup sg) ys
     | None => []
     end
  ++ [Ev (ecsbackend.DeleteCluster e) r5].

(** The calls of a run of DeleteEnvironment that went as far as the polls
    of the scaling group, with their replies. *)
Definition delete_events_to_poll `{!id.Codec} (environmentID : string)
    (r1 r2 r3 r4 : option error) (xs : list (option autoscaling.Group * option error))
  : list (Event ecsbackend.awsE) :=
  let e := id.ECSEnvironmentID environmentID in
  [Ev (ecsbackend.UpdateAutoScalingGroupMinSize (id.AutoScalingGroupName e) 0) r1;
   Ev (ecsbackend.UpdateAutoScalingGroupMaxSize (id.AutoScalingGroupName e) 0) r2;
   Ev (ecsbackend.DeleteAutoScalingGroup (id.AutoScalingGroupName e)) r3;
   Ev (ecsbackend.DeleteLaunchConfiguration (id.LaunchConfigurationName e)) r4]
  ++ answered (ecsbackend.DescribeAutoScalingGroup (id.AutoScalingGroupName e)) xs.

(** [startsWith l full]: the list [l] is a prefix of [full]. *)
Inductive startsWith {A : Type} : list A -> list A -> Prop :=
| startsWith_nil (full : list A) : startsWith [] full
| startsWith_cons (a : A) (l full : list A) :
    startsWith l full -> startsWith (a :: l) (a :: full).

(** [inOrder script l]: the calls [l] follow the script: they are a
    prefix of it, or all of it followed by further calls. *)
Definition inOrder {A : Type} (script l : list A) : Prop :=
  startsWith l script \/ startsWith script l.

(** The AMI CreateEnvironment launches with: the one given, or the
    default of the operating system when none is given. *)
Definition chosenAMI `{!config.Config} `{!ecsbackend.Helpers}
    (operatingSystem amiID : string) : string :=
  if bool_decide (amiID = "") then
    if bool_decide (ecsbackend.ToLower operatingSystem = "linux") then config.AWSLinuxServiceAMI
    else config.AWSWindowsServiceAMI
  else amiID.

(** The calls of CreateEnvironment up to the creation of the scaling
    group, for the group ID [groupID] that CreateSecurityGroup returned and
    the rendered [userData]. *)
Definition create_calls `{!id.Codec} `{!config.Config}
    (environmentName instanceSize serviceAMI userData : string) (minClusterCount : Z)
    (groupID : option string) : list (Request ecsbackend.awsE) :=
  let e := id.ECSEnvironmentID (id.GenerateHashedEntityID environmentName) in
  [req (ecsbackend.CreateCluster e);
   req (ecsbackend.CreateSecurityGroup (id.SecurityGroupName e)
          "Auto-generated Layer0 Environment Security Group" config.AWSVPCID);
   req (ecsbackend.Sleep (time.Second * 2));
   req (ecsbackend.AuthorizeSecurityGroupIngressFromGroup groupID groupID);
   req (ecsbackend.CreateLaunchConfiguration (id.LaunchConfigurationName e) serviceAMI
          config.AWSECSInstanceProfile instanceSize config.AWSKeyPair userData
          [groupID; Some config.AWSAgentGroupID]);
   req (ecsbackend.CreateAutoScalingGroup (id.AutoScalingGroupName e)
          (id.LaunchConfigurationName e) config.AWSPrivateSubnets
          minClusterCount (Z.max minClusterCount 0))].

(** A reply to an ingress authorization that CreateEnvironmentLink takes
    for success: no error, or the code InvalidPermission.Duplicate. *)
Definition authorized `{!ecsbackend.Helpers} (r : option error) : bool :=
  match r with
  | None => true
  | Some err => ecsbackend.ContainsErrCode err "InvalidPermission.Duplicate"
  end.

(** The maximum size a reply to DescribeAutoScalingGroup reports. *)
Definition reportedMaxSize (ev : Event ecsbackend.awsE) : option Z :=
  match ev with
  | Ev e x =>
      match e in ecsbackend.awsE X return X -> option Z with
      | ecsbackend.DescribeAutoScalingGroup _ => fun r => autoscaling.MaxSize <$> r.1
      | _ => fun _ => None
      end x
  end.

Definition firstReportedMaxSize (tr : list (Event ecsbackend.awsE)) : option Z :=
  match tr with
  | ev :: _ => reportedMaxSize ev
  | [] => None
  end.

(** The bounds (min, max) of a scaling group after a call: an update of a
    bound that the provider accepted sets that bound. *)
Definition resized (bounds : Z * Z) (ev : Event ecsbackend.awsE) : Z * Z :=
  match ev with
  | Ev e x =>
      match e in ecsbackend.awsE X return X -> Z * Z with
      | ecsbackend.UpdateAutoScalingGroupMinSize _ size => fun r =>
          match r with None => (size, bounds.2) | Some _ => bounds end
      | ecsbackend.UpdateAutoScalingGroupMaxSize _ size => fun r =>
          match r with None => (bounds.1, size) | Some _ => bounds end
      | _ => fun _ => bounds
      end x
  end.

(** The bounds after each call of a run, from the bounds before it. *)
Fixpoint boundsAfterEach (bounds : Z * Z) (tr : list (Event ecsbackend.awsE)) : list (Z * Z) :=
  match tr with
  | [] => []
  | ev :: tr' => resized bounds ev :: boundsAfterEach (resized bounds ev) tr'
  end.

(** A model none of whose fields was set but EnvironmentID, ClusterCount,
    InstanceSize, SecurityGroupID and AMIID; and one with only
    EnvironmentID set. *)
Definition describedOnly (model : models.Environment) : Prop :=
  models.EnvironmentName model = "" /\ models.OperatingSystem model = "" /\
  models.Links model = [].

Definition idOnly (model : models.Environment) : Prop :=
  model = models.mkEnvironment (models.EnvironmentID model) "" 0 "" "" "" "" [].

(** None of the provider resources of an environment is left on the
    account. *)
Definition environmentGone `{!id.Codec} (a : account.Account) (environmentID : string) : Prop :=
  let e := id.ECSEnvironmentID environmentID in
  (account.scalingGroups a !! id.AutoScalingGroupName e = None) /\
  (account.launchConfigurations a !! id.LaunchConfigurationName e = None) /\
  (account.groupIdOf (id.SecurityGroupName e) ∉ account.securityGroups a) /\
  (e ∉ account.clusters a).

(* ===================================================================== *)
(** * Vocabulary of the further properties *)
(* ===================================================================== *)

(** The tags the table holds for the entity (t, i): those of its record,
    none when it has no record. *)
Definition tagsOf (tbl : tag.Table) (t i : string) : gmap string string :=
  default ∅ (tbl !! (t, i)).

(** A tag is stored in the table: the record of its entity has its key
    with its value. *)
Definition stored (tbl : tag.Table) (tg : models.Tag) : Prop :=
  tagsOf tbl (models.EntityType tg) (models.EntityID tg) !! models.Key tg
    = Some (models.Value tg).

(** The error of a conditional put on an item that exists. *)
Definition conflict (err : error) : bool :=
  match err with
  | AwsError code _ => bool_decide (code = "ConditionalCheckFailedException")
  | _ => false
  end.

(** A call that only reads from a provider. *)
Definition isDescribe (ev : Event ecsbackend.awsE) : bool :=
  match ev_call ev with
  | ecsbackend.Helper_DescribeClusters
  | ecsbackend.DescribeCluster _
  | ecsbackend.DescribeSecurityGroup _
  | ecsbackend.DescribeAutoScalingGroup _
  | ecsbackend.DescribeLaunchConfiguration _ => true
  | _ => false
  end.

(** A call that removes a resource, and one that sets a bound of a scaling
    group. *)
Definition isDelete (ev : Event ecsbackend.awsE) : bool :=
  match ev_call ev with
  | ecsbackend.DeleteCluster _
  | ecsbackend.DeleteSecurityGroup _
  | ecsbackend.DeleteAutoScalingGroup _
  | ecsbackend.DeleteLaunchConfiguration _ => true
  | _ => false
  end.

Definition isResize (ev : Event ecsbackend.awsE) : bool :=
  match ev_call ev with
  | ecsbackend.UpdateAutoScalingGroupMinSize _ _
  | ecsbackend.UpdateAutoScalingGroupMaxSize _ _ => true
  | _ => false
  end.

(** A call that creates a resource or an ingress rule. *)
Definition isCreate (ev : Event ecsbackend.awsE) : bool :=
  match ev_call ev with
  | ecsbackend.CreateCluster _
  | ecsbackend.CreateSecurityGroup _ _ _
  | ecsbackend.AuthorizeSecurityGroupIngressFromGroup _ _
  | ecsbackend.CreateLaunchConfiguration _ _ _ _ _ _ _
  | ecsbackend.CreateAutoScalingGroup _ _ _ _ _ => true
  | _ => false
  end.

(** The first reply in a record of calls that [f] reads something from. *)
Fixpoint firstReply {E : Type -> Type} {A : Type} (f : Event E -> option A)
    (tr : list (Event E)) : option A :=
  match tr with
  | [] => None
  | ev :: tr' =>
      match f ev with
      | Some a => Some a
      | None => firstReply f tr'
      end
  end.

(** What populateModel reads from a reply: the scaling group of a
    DescribeAutoScalingGroup that did not fail, the launch configuration of
    a DescribeLaunchConfiguration, the security group of a
    DescribeSecurityGroup. *)
Definition describedGroup (ev : Event ecsbackend.awsE) : option autoscaling.Group :=
  match ev with
  | Ev e x =>
      match e in ecsbackend.awsE X return X -> option autoscaling.Group with
      | ecsbackend.DescribeAutoScalingGroup _ => fun r =>
          match r.2 with
          | None => r.1
          | Some _ => None
          end
      | _ => fun _ => None
      end x
  end.

Definition describedLaunchConfiguration (ev : Event ecsbackend.awsE)
  : option autoscaling.LaunchConfiguration :=
  match ev with
  | Ev e x =>
      match e in ecsbackend.awsE X return X -> option autoscaling.LaunchConfiguration with
      | ecsbackend.DescribeLaunchConfiguration _ => fun r => r.1
      | _ => fun _ => None
      end x
  end.

Definition describedSecurityGroup (ev : Event ecsbackend.awsE) : option ec2.SecurityGroup :=
  match ev with
  | Ev e x =>
      match e in ecsbackend.awsE X return X -> option ec2.SecurityGroup with
      | ecsbackend.DescribeSecurityGroup _ => fun r => r.1
      | _ => fun _ => None
      end x
  end.

Definition describedCluster (ev : Event ecsbackend.awsE) : option ecs.Cluster :=
  match ev with
  | Ev e x =>
      match e in ecsbackend.awsE X return X -> option ecs.Cluster with
      | ecsbackend.DescribeCluster _ => fun r => r.1
      | _ => fun _ => None
      end x
  end.

(** A reply to DescribeSecurityGroup that reports no group and no error. *)
Definition groupMissing (ev : Event ecsbackend.awsE) : bool :=
  match ev with
  | Ev e x =>
      match e in ecsbackend.awsE X return X -> bool with
      | ecsbackend.DescribeSecurityGroup _ => fun r =>
          match r with
          | (None, None) => true
          | _ => false
          end
      | _ => fun _ => false
      end x
  end.

(** The time slept on the clock in a record of calls. *)
Fixpoint slept (tr : list (Event ecsbackend.awsE)) : Z :=
  match tr with
  | [] => 0
  | ev :: tr' =>
      match ev_call ev with
      | ecsbackend.Sleep d => d + slept tr'
      | _ => slept tr'
      end
  end.

(** A result of a waiter's check that makes it sleep and check again. *)
Definition again (r : option (bool * option error)) : bool :=
  match r with
  | Some (false, None) => true
  | _ => false
  end.

(** Every call the program [p] makes satisfies [P], whatever the
    collaborator and its answers. *)
Definition callsOnly {E : Type -> Type} {R : Type} (P : Event E -> Prop) (p : Prog E R) : Prop :=
  forall (W : Type) (h : Handler E W) (w : W), Forall P (trace (run h p w)).

(** The call that removes the cluster. *)
Definition isDeleteCluster (ev : Event ecsbackend.awsE) : bool :=
  match ev_call ev with
  | ecsbackend.DeleteCluster _ => true
  | _ => false
  end.

(** The user data template CreateEnvironment renders: the one given, or
    the default of the operating system when the one given is empty. *)
Definition chosenTemplate `{!ecsbackend.Helpers} (operatingSystem userDataTemplate : string)
  : string :=
  if bool_decide (String.length userDataTemplate = 0%nat) then
    if bool_decide (ecsbackend.ToLower operatingSystem = "linux")
    then ecsbackend.defaultLinuxUserDataTemplate
    else ecsbackend.defaultWindowsUserDataTemplate
  else userDataTemplate.

(** Helpers for an example: as those of the account, but the template
    parser rejects a template with an action that is not closed. *)
Definition strictHelpers : ecsbackend.Helpers := {|
  ecsbackend.ContainsErrCode := @ecsbackend.ContainsErrCode account.helpers;
  ecsbackend.ContainsErrMsg := @ecsbackend.ContainsErrMsg account.helpers;
  ecsbackend.ToLower := @ecsbackend.ToLower account.helpers;
  ecsbackend.ToLower_ASCII := @ecsbackend.ToLower_ASCII account.helpers;
  ecsbackend.template_Parse := fun template =>
    if Contains template "{{" && negb (Contains template "}}")
    then Some (Errorf "template: :1: unclosed action")
    else None;
  ecsbackend.template_Execute := @ecsbackend.template_Execute account.helpers;
  ecsbackend.base64_EncodeToString := @ecsbackend.base64_EncodeToString account.helpers;
  ecsbackend.defaultWindowsUserDataTemplate :=
    @ecsbackend.defaultWindowsUserDataTemplate account.helpers;
  ecsbackend.defaultLinuxUserDataTemplate :=
    @ecsbackend.defaultLinuxUserDataTemplate account.helpers;
|}.

(** The call that stops the task. *)
Definition isStopTask (ev : Event aws.taskE) : bool :=
  match ev_call ev with
  | aws.StopTask _ => true
  | _ => false
  end.

(** Collaborators of the task provider for an example: every task is
    known and can be stopped, but its tags cannot be deleted. *)
Definition readOnlyTags : Handler aws.taskE unit :=
  fun X e =>
    match e in aws.taskE X return unit -> X * unit with
    | aws.lookupEntityEnvironmentID _ _ => fun u => (("env1", None), u)
    | aws.lookupTaskARN i => fun u => (("arn:" +:+ i, None), u)
    | aws.StopTask _ => fun u => (None, u)
    | aws.deleteEntityTags _ _ => fun u => (Some (Errorf "the tag store is read-only"), u)
    end.

(** The account [a] with the resources of the environment created for
    [environmentName]: the cluster, the security group with the rule that
    lets it reach itself, the launch configuration and the scaling group. *)
Definition withEnvironment `{!id.Codec} (a : account.Account)
    (environmentName instanceSize serviceAMI : string) (minClusterCount : Z) : account.Account :=
  let e := id.ECSEnvironmentID (id.GenerateHashedEntityID environmentName) in
  let g := account.groupIdOf (id.SecurityGroupName e) in
  account.mkAccount
    ({[e]} ∪ account.clusters a)
    ({[g]} ∪ account.securityGroups a)
    ({[(g, g)]} ∪ account.ingress a)
    (<[id.LaunchConfigurationName e := (instanceSize, serviceAMI)]>
       (account.launchConfigurations a))
    (<[id.AutoScalingGroupName e
       := (id.LaunchConfigurationName e, minClusterCount, Z.max minClusterCount 0)]>
       (account.scalingGroups a)).

(* ===================================================================== *)
(** * Running programs: general facts *)
(* ===================================================================== *)

Section RunFacts.
Context {E : Type -> Type}.

Lemma run_bind {A B W : Type} (h : Handler E W) (p : Prog E A) (f : A -> Prog E B) (w : W) :
  run h (bind p f) w =
    match run h p w with
    | (Returned a, w1, t1) =>
        match run h (f a) w1 with
        | (o, w2, t2) => (o, w2, t1 ++ t2)
        end
    | (Panicked reason, w1, t1) => (Panicked reason, w1, t1)
    end.
Proof.
  revert w. induction p as [a|reason|X e k IH]; intros w; simpl.
  - destruct (run h (f a) w) as [[o w2] t2]. reflexivity.
  - reflexivity.
  - destruct (h X e w) as [x w1]. rewrite IH.
    destruct (run h (k x) w1) as [[[a|reason] w2] t1]; [|reflexivity].
    destruct (run h (f a) w2) as [[o w3] t2]. reflexivity.
Qed.

Lemma run_bind_returned {A B W : Type} (h : Handler E W) (p : Prog E A) (f : A -> Prog E B)
    (w w1 : W) (a : A) (t1 : list (Event E)) :
  run h p w = (Returned a, w1, t1) ->
  run h (bind p f) w = (outcome (run h (f a) w1), final (run h (f a) w1),
                        t1 ++ trace (run h (f a) w1)).
Proof.
  intros Hp. rewrite run_bind, Hp.
  destruct (run h (f a) w1) as [[o w2] t2]. reflexivity.
Qed.

Lemma outcome_bind {A B W : Type} (h : Handler E W) (p : Prog E A) (f : A -> Prog E B)
    (w : W) (a : A) :
  outcome (run h p w) = Returned a ->
  outcome (run h (bind p f) w) = outcome (run h (f a) (final (run h p w))).
Proof.
  intros Hp. destruct (run h p w) as [[o w1] t1] eqn:Hr. unfold outcome in Hp; simpl in Hp; subst o.
  by rewrite (run_bind_returned _ _ _ _ _ _ _ Hr).
Qed.

Lemma final_bind {A B W : Type} (h : Handler E W) (p : Prog E A) (f : A -> Prog E B)
    (w : W) (a : A) :
  outcome (run h p w) = Returned a ->
  final (run h (bind p f) w) = final (run h (f a) (final (run h p w))).
Proof.
  intros Hp. destruct (run h p w) as [[o w1] t1] eqn:Hr. unfold outcome in Hp; simpl in Hp; subst o.
  by rewrite (run_bind_returned _ _ _ _ _ _ _ Hr).
Qed.

Lemma requests_app (t1 t2 : list (Event E)) :
  requests (t1 ++ t2) = requests t1 ++ requests t2.
Proof. induction t1 as [|ev t1 IH]; simpl; [reflexivity|]. by rewrite IH. Qed.
End RunFacts.

Section Satisfies.
Context {E : Type -> Type}.

Lemma satisfies_Ret {R W : Type} (h : Handler E W) (r : R) (w : W)
    (Q : Outcome R -> W -> list (Event E) -> Prop) :
  Q (Returned r) w [] -> satisfies h (Ret r) w Q.
Proof. done. Qed.

Lemma satisfies_Panic {R W : Type} (h : Handler E W) (reason : string) (w : W)
    (Q : Outcome R -> W -> list (Event E) -> Prop) :
  Q (Panicked reason) w [] -> satisfies h (Panic reason) w Q.
Proof. done. Qed.

Lemma satisfies_Do {R W X : Type} (h : Handler E W) (e : E X) (k : X -> Prog E R) (w : W)
    (Q : Outcome R -> W -> list (Event E) -> Prop) :
  (forall (x : X) (w1 : W), h X e w = (x, w1) ->
     satisfies h (k x) w1 (fun o w2 tr => Q o w2 (Ev e x :: tr))) ->
  satisfies h (Do e k) w Q.
Proof.
  intros Hk. unfold satisfies in *. simpl.
  destruct (h X e w) as [x w1] eqn:Hx. specialize (Hk x w1 eq_refl).
  destruct (run h (k x) w1) as [[o w2] tr]. exact Hk.
Qed.

Lemma satisfies_bind {A R W : Type} (h : Handler E W) (p : Prog E A) (f : A -> Prog E R) (w : W)
    (Q : Outcome R -> W -> list (Event E) -> Prop) :
  satisfies h p w (fun o w1 t1 =>
    match o with
    | Returned a => satisfies h (f a) w1 (fun o2 w2 t2 => Q o2 w2 (t1 ++ t2))
    | Panicked reason => Q (Panicked reason) w1 t1
    end) ->
  satisfies h (bind p f) w Q.
Proof.
  unfold satisfies. rewrite run_bind.
  destruct (run h p w) as [[[a|reason] w1] t1]; [|done].
  unfold outcome, final, trace. simpl.
  by destruct (run h (f a) w1) as [[o w2] t2].
Qed.

Lemma satisfies_mono {R W : Type} (h : Handler E W) (p : Prog E R) (w : W)
    (Q Q' : Outcome R -> W -> list (Event E) -> Prop) :
  satisfies h p w Q -> (forall o w1 tr, Q o w1 tr -> Q' o w1 tr) -> satisfies h p w Q'.
Proof. unfold satisfies. auto. Qed.
End Satisfies.

(* ===================================================================== *)
(** * The tag store on its table *)
(* ===================================================================== *)

Section TagStore.
Import tag.
Implicit Types (tbl : Table) (t i k v : string) (m : gmap string string).

Lemma withTags_lookup tbl t i m :
  withTags tbl t i m !! (t, i) = if decide (m = ∅) then None else Some m.
Proof.
  unfold withTags. destruct (decide (m = ∅)).
  - apply lookup_delete_eq.
  - apply lookup_insert_eq.
Qed.

Lemma withTags_withTags tbl t i m m' :
  withTags (withTags tbl t i m) t i m' = withTags tbl t i m'.
Proof.
  unfold withTags. destruct (decide (m = ∅)), (decide (m' = ∅)).
  - apply delete_delete_eq.
  - apply insert_delete_eq.
  - apply delete_insert_eq.
  - apply insert_insert_eq.
Qed.

Lemma withTags_absent tbl t i : tbl !! (t, i) = None -> withTags tbl t i ∅ = tbl.
Proof. intros Hn. unfold withTags. rewrite decide_True by done. by apply delete_id. Qed.

Lemma validKey_true t i : t ≠ "" -> i ≠ "" -> validKey t i = true.
Proof. intros Ht Hi. unfold validKey. by rewrite !bool_decide_eq_false_2. Qed.

Lemma run_selectByTypeAndID tbl t i :
  t ≠ "" -> i ≠ "" ->
  run table (selectByTypeAndID t i) tbl =
    (Returned (match tbl !! (t, i) with
               | Some m => Ok (mkSchema t i m)
               | None => Err ErrNotFound
               end), tbl,
     [Ev (GetOne t i) (match tbl !! (t, i) with
                       | Some m => Ok (mkSchema t i m)
                       | None => Err ErrNotFound
                       end)]).
Proof.
  intros Ht Hi. unfold selectByTypeAndID.
  rewrite !bool_decide_eq_false_2 by done. simpl.
  rewrite validKey_true by done.
  destruct (tbl !! (t, i)); reflexivity.
Qed.

(** Insert on a valid key sets the tag and keeps the other tags. *)
Lemma Insert_withTags tbl t i m k v :
  t ≠ "" -> i ≠ "" ->
  let r := run table (Insert (models.mkTag t i k v)) (withTags tbl t i m) in
  outcome r = Returned None /\ final r = withTags tbl t i (<[k := v]> m).
Proof.
  intros Ht Hi. pose proof (validKey_true t i Ht Hi) as Hv.
  unfold Insert. simpl. rewrite Hv, withTags_lookup.
  destruct (decide (m = ∅)) as [->|Hm]; simpl.
  - split; [reflexivity|]. unfold withTags.
    rewrite decide_True by done. rewrite decide_False by apply insert_non_empty.
    unfold final. simpl. rewrite (insert_delete_eq tbl). reflexivity.
  - unfold insertKey. simpl.
    erewrite run_bind_returned by (apply run_selectByTypeAndID; done). simpl.
    rewrite withTags_lookup, decide_False by done. simpl. rewrite Hv.
    split; [reflexivity|].
    unfold final, withTags. simpl. rewrite (decide_False (P := m = ∅)) by done.
    rewrite decide_False by apply insert_non_empty. apply insert_insert_eq.
Qed.

(** Delete on a record that exists: the key is removed, and the record
    with it when no tag is left. *)
Lemma Delete_withTags tbl t i m k :
  t ≠ "" -> i ≠ "" -> m ≠ ∅ ->
  let r := run table (Delete t i k) (withTags tbl t i m) in
  outcome r = Returned None /\ final r = withTags tbl t i (delete k m).
Proof.
  intros Ht Hi Hm. pose proof (validKey_true t i Ht Hi) as Hv.
  unfold Delete. simpl.
  erewrite run_bind_returned by (apply run_selectByTypeAndID; done).
  rewrite withTags_lookup, decide_False by done. simpl.
  destruct (m !! k) as [v|] eqn:Hk; simpl.
  - destruct (decide (delete k m = ∅)) as [He|He].
    + rewrite He, bool_decide_eq_false_2 by (rewrite map_size_empty; lia). simpl.
      rewrite Hv.
      split; [reflexivity|]. unfold final, withTags. simpl.
      rewrite decide_False by done. rewrite decide_True by done.
      apply delete_insert_eq.
    + rewrite bool_decide_eq_true_2.
      2:{ apply map_size_non_empty_iff in He. lia. }
      simpl. rewrite Hv. split; [reflexivity|]. unfold final, withTags. simpl.
      rewrite !decide_False by done. apply insert_insert_eq.
  - split; [reflexivity|]. unfold final. simpl. by rewrite delete_id.
Qed.

Lemma lookup_setAll kvs m k :
  NoDup kvs.*1 ->
  setAll kvs m !! k =
    match (list_to_map kvs : gmap string string) !! k with
    | Some v => Some v
    | None => m !! k
    end.
Proof.
  revert m. induction kvs as [|[k0 v0] kvs IH]; intros m Hnd; simpl.
  - by rewrite lookup_empty.
  - apply NoDup_cons in Hnd as [Hk0 Hnd]. rewrite IH by done.
    destruct (decide (k0 = k)) as [->|Hne].
    + rewrite (not_elem_of_list_to_map_1 kvs k) by done.
      by rewrite !lookup_insert_eq.
    + by rewrite !lookup_insert_ne.
Qed.

Lemma lookup_removeAll ks m k :
  removeAll ks m !! k = if decide (k ∈ ks) then None else m !! k.
Proof.
  revert m. induction ks as [|k0 ks IH]; intros m.
  - rewrite decide_False; [done|]. apply not_elem_of_nil.
  - change (removeAll (k0 :: ks) m) with (removeAll ks (delete k0 m)).
    rewrite IH. destruct (decide (k ∈ ks)) as [Hin|Hin].
    + rewrite decide_True; [done|]. by right.
    + destruct (decide (k0 = k)) as [->|Hne].
      * rewrite decide_True by left. apply lookup_delete_eq.
      * rewrite decide_False; [by apply lookup_delete_ne|].
        intros [->|?]%elem_of_cons; done.
Qed.

Lemma forEach_cons {A : Type} (f : A -> M (option error)) (a : A) (l : list A) :
  forEach f (a :: l) =
    (err <- f a;; match err with Some e => Ret (Some e) | None => forEach f l end).
Proof. reflexivity. Qed.

Lemma forEach_Insert tbl t i kvs m :
  t ≠ "" -> i ≠ "" ->
  let r := run table (forEach (insertTag t i) kvs) (withTags tbl t i m) in
  outcome r = Returned None /\ final r = withTags tbl t i (setAll kvs m).
Proof.
  intros Ht Hi. revert m. induction kvs as [|[k v] kvs IH]; intros m.
  - done.
  - destruct (Insert_withTags tbl t i m k v Ht Hi) as [Ho Hf].
    change (Insert _) with (insertTag t i (k, v)) in Ho, Hf.
    rewrite forEach_cons. cbv zeta.
    rewrite (outcome_bind _ _ _ _ _ Ho), (final_bind _ _ _ _ _ Ho), Hf. apply IH.
Qed.

Lemma forEach_Delete tbl t i ks m :
  t ≠ "" -> i ≠ "" -> NoDup ks -> (forall k, k ∈ ks -> is_Some (m !! k)) ->
  let r := run table (forEach (Delete t i) ks) (withTags tbl t i m) in
  outcome r = Returned None /\ final r = withTags tbl t i (removeAll ks m).
Proof.
  intros Ht Hi. revert m. induction ks as [|k ks IH]; intros m Hnd Hin.
  - done.
  - apply NoDup_cons in Hnd as [Hk Hnd]. rewrite forEach_cons. cbv zeta.
    assert (m ≠ ∅) as Hm.
    { intros ->. destruct (Hin k) as [v Hv]; [left|]. by rewrite lookup_empty in Hv. }
    destruct (Delete_withTags tbl t i m k Ht Hi Hm) as [Ho Hf].
    rewrite (outcome_bind _ _ _ _ _ Ho), (final_bind _ _ _ _ _ Ho), Hf.
    apply IH; [done|]. intros k' Hk'.
    rewrite lookup_delete_ne by (intros ->; done). apply Hin. by right.
Qed.

Lemma SelectByTypeAndID_withTags tbl t i m :
  t ≠ "" -> i ≠ "" ->
  let r := run table (SelectByTypeAndID t i) (withTags tbl t i m) in
  outcome r = Returned (Ok (ToTags (mkSchema t i m))) /\ final r = withTags tbl t i m.
Proof.
  intros Ht Hi. unfold SelectByTypeAndID. simpl.
  erewrite run_bind_returned by (apply run_selectByTypeAndID; done).
  rewrite withTags_lookup. destruct (decide (m = ∅)) as [->|Hm]; simpl.
  - unfold ToTags. simpl. rewrite map_to_list_empty. done.
  - done.
Qed.

Lemma elem_of_ToTags t i m k v :
  models.mkTag t i k v ∈ ToTags (mkSchema t i m) <-> m !! k = Some v.
Proof.
  unfold ToTags. simpl. rewrite list_elem_of_fmap. split.
  - intros ([k' v'] & Heq & Hin). simpl in Heq. injection Heq as -> ->.
    by apply elem_of_map_to_list.
  - intros Hl. exists (k, v). split; [done|]. by apply elem_of_map_to_list.
Qed.

Lemma keys_ToTags t i m : models.Key <$> ToTags (mkSchema t i m) = (map_to_list m).*1.
Proof.
  unfold ToTags. simpl. rewrite <- list_fmap_compose. reflexivity.
Qed.

(** Delete where the record does not exist: the error of the read is
    returned, and the table is as before. *)
Lemma Delete_absent_record tbl t i k :
  t ≠ "" -> i ≠ "" -> tbl !! (t, i) = None ->
  run table (Delete t i k) tbl = (Returned (Some ErrNotFound), tbl, [Ev (GetOne t i) (Err ErrNotFound)]).
Proof.
  intros Ht Hi Hn. unfold Delete.
  erewrite run_bind_returned by (apply run_selectByTypeAndID; done).
  rewrite Hn. reflexivity.
Qed.

(** Delete of a key the record does not have changes nothing. *)
Lemma Delete_absent_key tbl t i k m :
  t ≠ "" -> i ≠ "" -> tbl !! (t, i) = Some m -> m !! k = None ->
  run table (Delete t i k) tbl =
    (Returned None, tbl, [Ev (GetOne t i) (Ok (mkSchema t i m))]).
Proof.
  intros Ht Hi Hm Hk. unfold Delete.
  erewrite run_bind_returned by (apply run_selectByTypeAndID; done).
  rewrite Hm. simpl. rewrite Hk. reflexivity.
Qed.

(** Delete of the only key of a record removes the record. *)
Lemma Delete_last_key tbl t i k v :
  t ≠ "" -> i ≠ "" -> tbl !! (t, i) = Some {[k := v]} ->
  let r := run table (Delete t i k) tbl in
  outcome r = Returned None /\ final r = delete (t, i) tbl.
Proof.
  intros Ht Hi Hm. pose proof (validKey_true t i Ht Hi) as Hv. unfold Delete.
  erewrite run_bind_returned by (apply run_selectByTypeAndID; done).
  rewrite Hm. simpl. rewrite lookup_singleton_eq, delete_singleton_eq.
  rewrite bool_decide_eq_false_2 by (rewrite map_size_empty; lia). simpl.
  rewrite Hv. done.
Qed.
End TagStore.

(** C2.  On a table without a record for (t, i), with t and i non-empty:
    after the tags of [kvs] (distinct keys) are inserted and the keys [gone]
    are deleted, where [gone] and [rest] together are the inserted keys, every
    call has succeeded and SelectByTypeAndID returns exactly the inserted tags
    with a key in [rest]; the record exists iff [rest] is not empty.  When all
    the keys are deleted the result is empty and the table is the one before
    the inserts. *)
Theorem record_lives_as_long_as_its_tags
    (tbl : tag.Table) (t i : string) (kvs : list (string * string)) (gone rest : list string) :
  t ≠ "" -> i ≠ "" -> tbl !! (t, i) = None ->
  NoDup kvs.*1 -> gone ++ rest ≡ₚ kvs.*1 ->
  let r := run tag.table
             (err1 <- tag.forEach (insertTag t i) kvs;;
              err2 <- tag.forEach (tag.Delete t i) gone;;
              tags <- tag.SelectByTypeAndID t i;;
              Ret (err1, err2, tags)) tbl in
  exists tags : models.Tags,
    outcome r = Returned (None, None, Ok tags) /\
    (forall k v, models.mkTag t i k v ∈ tags <-> (k, v) ∈ kvs /\ k ∈ rest) /\
    models.Key <$> tags ≡ₚ rest /\
    (final r !! (t, i) = None <-> rest = []) /\
    (rest = [] -> tags = [] /\ final r = tbl).
Proof.
  intros Ht Hi Hn Hnd Hperm r.
  assert (NoDup (gone ++ rest)) as Hnd' by (by rewrite Hperm).
  apply NoDup_app in Hnd' as (Hgone & Hdisj & Hrest).
  set (m := removeAll gone (setAll kvs ∅)).
  assert (forall k v, m !! k = Some v <-> (k, v) ∈ kvs /\ k ∈ rest) as Hm.
  { intros k v. unfold m. rewrite lookup_removeAll, lookup_setAll, lookup_empty by done.
    destruct (decide (k ∈ gone)) as [Hin|Hin].
    - split; [done|]. intros [_ Hr]. by destruct (Hdisj k).
    - destruct (list_to_map kvs !! k) as [v'|] eqn:Hl.
      + apply elem_of_list_to_map in Hl; [|done]. split.
        * intros [= ->]. split; [done|].
          assert (k ∈ gone ++ rest) as [?|?]%elem_of_app; [|done|done].
          rewrite Hperm. apply list_elem_of_fmap. by exists (k, v).
        * intros [Hkv _]. f_equal.
          apply (elem_of_list_to_map (M := gmap string)) in Hkv; [|done].
          apply (elem_of_list_to_map (M := gmap string)) in Hl; [|done]. congruence.
      + split; [done|]. intros [Hkv _].
        apply (elem_of_list_to_map (M := gmap string)) in Hkv; [|done]. congruence. }
  assert (run tag.table (tag.forEach (insertTag t i) kvs) tbl
          = run tag.table (tag.forEach (insertTag t i) kvs) (withTags tbl t i ∅)) as Hstart
    by (by rewrite withTags_absent).
  destruct (forEach_Insert tbl t i kvs ∅ Ht Hi) as [Ho1 Hf1]. rewrite <- Hstart in Ho1, Hf1.
  destruct (forEach_Delete tbl t i gone (setAll kvs ∅) Ht Hi Hgone) as [Ho2 Hf2].
  { intros k Hk. rewrite lookup_setAll, lookup_empty by done.
    assert (k ∈ kvs.*1) as ([k' v] & -> & Hin)%list_elem_of_fmap.
    { rewrite <- Hperm. apply elem_of_app. by left. }
    apply (elem_of_list_to_map (M := gmap string)) in Hin; [|done].
    simpl. rewrite Hin. by eexists. }
  destruct (SelectByTypeAndID_withTags tbl t i m Ht Hi) as [Ho3 Hf3].
  assert (outcome r = Returned (None, None, Ok (tag.ToTags (tag.mkSchema t i m)))
          /\ final r = withTags tbl t i m) as [Ho Hf].
  { unfold r.
    rewrite (outcome_bind _ _ _ _ _ Ho1), (final_bind _ _ _ _ _ Ho1), Hf1.
    rewrite (outcome_bind _ _ _ _ _ Ho2), (final_bind _ _ _ _ _ Ho2), Hf2.
    fold m. rewrite (outcome_bind _ _ _ _ _ Ho3), (final_bind _ _ _ _ _ Ho3), Hf3.
    done. }
  assert (models.Key <$> tag.ToTags (tag.mkSchema t i m) ≡ₚ rest) as Hkeys.
  { rewrite keys_ToTags. apply NoDup_Permutation; [apply NoDup_fst_map_to_list|done|].
    intros k. rewrite list_elem_of_fmap. split.
    - intros ([k' v] & -> & Hin). apply elem_of_map_to_list in Hin. by apply Hm in Hin as [_ ?].
    - intros Hk. assert (k ∈ kvs.*1) as ([k' v] & -> & Hin)%list_elem_of_fmap.
      { rewrite <- Hperm. apply elem_of_app. by right. }
      exists (k', v). split; [done|]. apply elem_of_map_to_list. by apply Hm. }
  assert (m = ∅ <-> rest = []) as Hempty.
  { split.
    - intros He. rewrite He in Hkeys. unfold tag.ToTags in Hkeys. simpl in Hkeys.
      rewrite map_to_list_empty in Hkeys. by apply Permutation_nil_l in Hkeys.
    - intros ->. apply map_eq. intros k. rewrite lookup_empty.
      destruct (m !! k) as [v|] eqn:Hk; [|done].
      apply Hm in Hk as [_ Hk]. by apply elem_of_nil in Hk. }
  exists (tag.ToTags (tag.mkSchema t i m)). split; [done|]. split.
  { intros k v. rewrite elem_of_ToTags. apply Hm. }
  split; [done|]. split.
  - rewrite Hf, withTags_lookup. destruct (decide (m = ∅)) as [He|He].
    + split; [intros _; by apply Hempty|done].
    + split; [done|]. intros Hr. by apply Hempty in Hr.
  - intros Hr. apply Hempty in Hr. rewrite Hf, Hr. split.
    + unfold tag.ToTags. simpl. by rewrite map_to_list_empty.
    + by apply withTags_absent.
Qed.

Lemma record_lives_as_long_as_its_tags_witness :
  exists tags : models.Tags,
    outcome (run tag.table
               (err1 <- tag.forEach (insertTag "service" "s1")
                          [("name", "web"); ("environment_id", "e1")];;
                err2 <- tag.forEach (tag.Delete "service" "s1") ["environment_id"; "name"];;
                tags <- tag.SelectByTypeAndID "service" "s1";;
                Ret (err1, err2, tags)) ∅)
      = Returned (None, None, Ok tags) /\ tags = [].
Proof.
  destruct (record_lives_as_long_as_its_tags ∅ "service" "s1"
              [("name", "web"); ("environment_id", "e1")] ["environment_id"; "name"] [])
    as (tags & Ho & _ & _ & _ & Hall).
  - done.
  - done.
  - reflexivity.
  - by apply (bool_decide_unpack _).
  - simpl. apply perm_swap.
  - exists tags. split; [exact Ho|]. apply Hall. reflexivity.
Defined.

(** C3.  Delete of a key of an entity that has no record at all: the read
    of the record fails with "dynamo: no item found" and Delete returns that
    error, where SelectByTypeAndID on the same table turns it into an empty
    result. *)
Theorem Delete_without_record_returns_the_read_error :
  run tag.table (tag.Delete "task" "t1" "name") ∅
    = (Returned (Some tag.ErrNotFound), ∅, [Ev (tag.GetOne "task" "t1") (Err tag.ErrNotFound)])
  /\ outcome (run tag.table (tag.SelectByTypeAndID "task" "t1") ∅) = Returned (Ok []).
Proof. split; reflexivity. Qed.

(** C9 as stated fails for Insert and for SelectByType: with an empty
    EntityType the conditional put, and the query by type, are sent to the
    table, and the error Insert returns is the table's. *)
Lemma Insert_with_empty_type_reaches_the_table :
  let r := run tag.table (tag.Insert (models.mkTag "" "e1" "name" "prod")) ∅ in
  let r' := run tag.table (tag.SelectByType "") ∅ in
  requests (trace r) = [req (tag.PutIfNotExists (tag.mkSchema "" "e1" {["name" := "prod"]}))]
  /\ outcome r = Returned (Some tag.invalidKey)
  /\ requests (trace r') = [req (tag.GetAll "")].
Proof. repeat split; reflexivity. Qed.

(** C9, amended.  Delete and SelectByTypeAndID, which read the record
    through selectByTypeAndID, fail on an empty entityType or entityID with
    the validation error of that function, whatever the table is, and send
    it no request. *)
Theorem empty_key_fails_before_the_read
    {W : Type} (h : Handler tag.tableE W) (w : W) (t i k : string) :
  t = "" \/ i = "" ->
  let missing := if bool_decide (t = "") then "EntityType" else "EntityID" in
  let err := Errorf ("Failed to select tags: " +:+ missing +:+ " is required") in
  run h (tag.Delete t i k) w = (Returned (Some err), w, []) /\
  run h (tag.SelectByTypeAndID t i) w = (Returned (Err err), w, []).
Proof.
  intros Hempty. unfold tag.Delete, tag.SelectByTypeAndID, tag.selectByTypeAndID.
  destruct (bool_decide (t = "")) eqn:Ht.
  - split; reflexivity.
  - destruct Hempty as [-> | ->]; [done|].
    split; reflexivity.
Qed.

Lemma empty_key_fails_before_the_read_witness :
  run tag.table (tag.Delete "task" "" "name") ∅
    = (Returned (Some (Errorf "Failed to select tags: EntityID is required")), ∅, []) /\
  run tag.table (tag.SelectByTypeAndID "task" "") ∅
    = (Returned (Err (Errorf "Failed to select tags: EntityID is required")), ∅, []).
Proof.
  apply (empty_key_fails_before_the_read tag.table ∅ "task" "" "name"). right. reflexivity.
Defined.


(* ===================================================================== *)
(** * Waiting *)
(* ===================================================================== *)

Section WaitFacts.
Import ecsbackend.
Context {X : Type} (e : awsE X) (check : X -> option (bool * option error)).
Hypothesis provider_call : forall x, isSleep (Ev e x) = false.

Lemma providerCalls_app (t1 t2 : list (Event awsE)) :
  providerCalls (t1 ++ t2) = providerCalls t1 ++ providerCalls t2.
Proof. apply List.filter_app. Qed.

Lemma providerCalls_answered (xs : list X) : providerCalls (answered e xs) = answered e xs.
Proof.
  induction xs as [|x xs IH]; [reflexivity|].
  unfold providerCalls, answered in *. simpl. rewrite IH. by rewrite provider_call.
Qed.

(** A wait on the manager's clock whose check is one provider call: the
    provider calls of the run are that call, answered as [polled] says when
    the wait returns, and as [crashed] says when its check panics. *)
Lemma Wait_polled {W : Type} (h : Handler awsE W) (wt : waitutils.Waiter awsE)
    (k : X -> M (bool * option error)) (reason : string) :
  waitutils.Check wt = Do e k ->
  waitutils.Clock wt = Sleep ->
  (forall x, k x = match check x with Some r => Ret r | None => Panic reason end) ->
  forall (budget : nat) (w : W),
  exists xs : list X,
    providerCalls (trace (run h (waitutils.loop wt budget) w)) = answered e xs /\
    ((exists o : option error,
        polled check (waitutils.timedOut wt) budget xs o /\
        outcome (run h (waitutils.loop wt budget) w) = Returned o) \/
     (crashed check budget xs /\
      outcome (run h (waitutils.loop wt budget) w) = Panicked reason)).
Proof.
  intros Hcheck Hclock Hk budget. induction budget as [|budget IH]; intros w.
  - exists []. split; [reflexivity|]. left.
    exists (Some (waitutils.timedOut wt)). split; [constructor|reflexivity].
  - simpl. rewrite Hcheck, Hclock. simpl.
    destruct (h X e w) as [x w1]. rewrite Hk. simpl.
    destruct (check x) as [[done [err|]]|] eqn:Hx; simpl.
    + exists [x]. split; [unfold providerCalls, answered; simpl; by rewrite provider_call|].
      left. exists (Some err). split; [by econstructor|reflexivity].
    + destruct done; simpl.
      * exists [x]. split; [unfold providerCalls, answered; simpl; by rewrite provider_call|].
        left. exists None. split; [by constructor|reflexivity].
      * destruct (h unit (Sleep (waitutils.Delay wt)) w1) as [[] w2].
        destruct (IH w2) as (xs & Ht & Hrun).
        destruct (run h (waitutils.loop wt budget) w2) as [[o' w3] t3].
        exists (x :: xs). split.
        { unfold providerCalls, answered in *. simpl in *.
          rewrite provider_call. simpl. by rewrite Ht. }
        destruct Hrun as [(o & Hp & Ho)|[Hc Ho]].
        -- left. exists o. split; [by constructor|exact Ho].
        -- right. split; [by constructor|exact Ho].
    + exists [x]. split; [unfold providerCalls, answered; simpl; by rewrite provider_call|].
      right. split; [by constructor|reflexivity].
Qed.

Lemma polled_length (timeout : error) (n : nat) (xs : list X) (o : option error) :
  polled check timeout n xs o -> (length xs <= n)%nat.
Proof. induction 1; simpl; lia. Qed.

Lemma polled_Some (timeout : error) (n : nat) (xs : list X) :
  polled check timeout n xs None -> (1 <= length xs)%nat.
Proof. inversion 1; simpl; lia. Qed.

(** When every reply makes the check say "done", one call is made. *)
Lemma polled_all_done (timeout : error) (n : nat) (xs : list X) (o : option error) :
  polled check timeout (S n) xs o ->
  Forall (fun x => check x = Some (true, None)) xs ->
  o = None /\ exists x, xs = [x].
Proof.
  intros Hp Hall. inversion Hp as [|? x Hx|? x done err Hx|? x xs' o' Hx Hp']; subst.
  - split; [done|]. by exists x.
  - apply Forall_inv in Hall. congruence.
  - apply Forall_inv in Hall. congruence.
Qed.

(** A wait that succeeded: every reply but the last said "not done". *)
Lemma polled_succeeded (timeout : error) (n : nat) (xs : list X) :
  polled check timeout n xs None ->
  exists (retried : list X) (x : X),
    xs = retried ++ [x] /\ check x = Some (true, None) /\
    Forall (fun x => check x = Some (false, None)) retried.
Proof.
  remember None as o eqn:Ho. induction 1 as [|n x Hx|n x done err Hx|n x xs o Hx Hp IH].
  - discriminate.
  - exists [], x. by split.
  - discriminate.
  - destruct (IH Ho) as (retried & y & -> & Hy & Hall). subst o.
    exists (x :: retried), y. split; [done|]. split; [done|]. by constructor.
Qed.

Lemma crashed_length (n : nat) (xs : list X) :
  crashed check n xs -> (1 <= length xs <= n)%nat.
Proof. induction 1; simpl; lia. Qed.

(** A wait whose check panicked: every reply but the last said "not done",
    and the check has no result for the last one. *)
Lemma crashed_retried (n : nat) (xs : list X) :
  crashed check n xs ->
  exists (retried : list X) (x : X),
    xs = retried ++ [x] /\ check x = None /\
    Forall (fun x => check x = Some (false, None)) retried.
Proof.
  induction 1 as [n x Hx|n x xs Hx Hc IH].
  - exists [], x. by split.
  - destruct IH as (retried & y & -> & Hy & Hall).
    exists (x :: retried), y. split; [done|]. split; [done|]. by constructor.
Qed.

(** A check that has a result for every reply never panics. *)
Lemma crashed_total (n : nat) (xs : list X) :
  (forall x, is_Some (check x)) -> crashed check n xs -> False.
Proof.
  intros Htotal. induction 1 as [n x Hx|n x xs Hx Hc IH]; [|done].
  destruct (Htotal x) as [r Hr]. congruence.
Qed.
End WaitFacts.

Lemma startsWith_app_r {A : Type} (l rest : list A) : startsWith l (l ++ rest).
Proof. induction l as [|a l IH]; simpl; by constructor. Qed.

Lemma startsWith_app {A : Type} (l0 l full : list A) :
  startsWith l full -> startsWith (l0 ++ l) (l0 ++ full).
Proof. intros Hl. induction l0 as [|a l0 IH]; simpl; [done|by constructor]. Qed.

Lemma startsWith_refl {A : Type} (l : list A) : startsWith l l.
Proof. induction l as [|a l IH]; by constructor. Qed.

Lemma startsWith_rest {A : Type} (l full : list A) :
  startsWith l full <-> exists rest, l ++ rest = full.
Proof.
  split.
  - induction 1 as [full|a l full _ [rest IH]]; [by exists full|].
    exists rest. simpl. by rewrite IH.
  - intros [rest <-]. apply startsWith_app_r.
Qed.

(** Rewriting the provider calls and the requests of a record of calls. *)
Lemma providerCalls_cons (ev : Event ecsbackend.awsE) (tr : list (Event ecsbackend.awsE)) :
  isSleep ev = false -> providerCalls (ev :: tr) = ev :: providerCalls tr.
Proof. intros Hev. unfold providerCalls. simpl. by rewrite Hev. Qed.

Lemma providerCalls_sleep (ev : Event ecsbackend.awsE) (tr : list (Event ecsbackend.awsE)) :
  isSleep ev = true -> providerCalls (ev :: tr) = providerCalls tr.
Proof. intros Hev. unfold providerCalls. simpl. by rewrite Hev. Qed.

Lemma providerCalls_nil : providerCalls [] = [].
Proof. reflexivity. Qed.

Lemma requests_cons {E : Type -> Type} (ev : Event E) (tr : list (Event E)) :
  requests (ev :: tr) = request ev :: requests tr.
Proof. reflexivity. Qed.

Lemma requests_nil {E : Type -> Type} : requests ([] : list (Event E)) = [].
Proof. reflexivity. Qed.

Lemma requests_answered {X : Type} (e : ecsbackend.awsE X) (xs : list X) :
  requests (answered e xs) = repeat (req e) (length xs).
Proof. induction xs as [|x xs IH]; [reflexivity|]. simpl. f_equal. exact IH. Qed.

Create Rewrite HintDb calls.
#[local] Hint Rewrite providerCalls_cons providerCalls_sleep using reflexivity : calls.
#[local] Hint Rewrite providerCalls_app providerCalls_nil
  @requests_cons @requests_nil @requests_app @requests_answered : calls.

(* ===================================================================== *)
(** * The environment manager *)
(* ===================================================================== *)

(** The program is at a test "if err != nil and err is not tolerated":
    split into the run that returns the error and the run that goes on. *)
Ltac fatal_or_go :=
  match goal with
  | |- satisfies _ (match ?c with Some _ => _ | None => _ end) _ _ =>
      destruct c as [?|] eqn:?
  end.

Ltac split_all H :=
  repeat first [ apply Forall_cons_iff in H as [? H] | apply List.Forall_app in H as [? H] ].

Ltac polls_known :=
  autorewrite with calls;
  repeat match goal with
    | Ht : providerCalls _ = answered _ _ |- _ => rewrite Ht
    end;
  autorewrite with calls; rewrite ?app_nil_r.

(** A run that ended with an error after a prefix of the calls of
    DeleteEnvironment. *)
Ltac in_order :=
  split; [simpl; lia|]; split; [simpl; lia|];
  polls_known; unfold delete_calls, request, req; cbv zeta;
  cbn [app repeat ev_call ev_type];
  repeat first [ apply startsWith_nil | apply startsWith_cons
               | apply startsWith_refl | apply startsWith_app_r | apply startsWith_app ].

Ltac stopped polls sg attempts :=
  apply satisfies_Ret; split;
  [ exists polls, sg, attempts; in_order | split; [intros [=] | intros ? [=]] ].

(** A run that returned an error although every reply was tolerated:
    there is none. *)
Ltac refuted :=
  apply satisfies_Ret; let Hall := fresh "Hall" in
  intros Hall; split_all Hall; cbn [tolerated snd fst] in *;
  repeat match goal with
    | Hf : match ?r with Some _ => _ | None => _ end = Some _ |- _ =>
        destruct r; [|discriminate Hf]
    end;
  repeat match goal with
    | Hb : ?b = true, Hf : (if ?b then _ else _) = _ |- _ => rewrite Hb in Hf
    end;
  congruence.

Section EnvironmentManager.
Import ecsbackend.
Context `{!id.Codec} `{!config.Config} `{!ecsbackend.Helpers}.
Context {W : Type} (h : Handler awsE W).

Lemma Forall_providerCalls (P : Event awsE -> Prop) (tr : list (Event awsE)) :
  Forall P tr -> Forall P (providerCalls tr).
Proof.
  induction 1 as [|ev tr Hev _ IH]; [constructor|].
  unfold providerCalls in *. simpl. destruct (negb (isSleep ev)); [by constructor|done].
Qed.

Lemma Forall_answered {X : Type} (P : Event awsE -> Prop) (e : awsE X) (xs : list X) :
  Forall P (answered e xs) -> Forall (fun x => P (Ev e x)) xs.
Proof.
  induction xs as [|x xs IH]; [constructor|].
  unfold answered. simpl. intros Hall.
  apply Forall_cons_iff in Hall as [Hx Hall]. constructor; [done|by apply IH].
Qed.

(** The wait for the scaling group polls DescribeAutoScalingGroup; it
    panics on a reply with neither a group nor an error. *)
Lemma waitForAutoScalingGroupInactive_polled (ecsEnvironmentID : string) (w : W) :
  satisfies h (waitForAutoScalingGroupInactive ecsEnvironmentID) w (fun o _ tr =>
    exists xs : list (option autoscaling.Group * option error),
      providerCalls tr
        = answered (DescribeAutoScalingGroup (id.AutoScalingGroupName ecsEnvironmentID)) xs /\
      ((exists (err : option error) (timeout : error),
          polled groupInactive timeout 50 xs err /\ o = Returned err) \/
       (crashed groupInactive 50 xs /\ o = Panicked "nil pointer dereference: group"))).
Proof.
  unfold satisfies, waitForAutoScalingGroupInactive, waitutils.Wait.
  match goal with |- context [waitutils.loop ?wt _] => set (waiter := wt) end.
  edestruct (Wait_polled (DescribeAutoScalingGroup (id.AutoScalingGroupName ecsEnvironmentID))
               groupInactive ltac:(reflexivity) h waiter)
    as (xs & Ht & Hrun).
  - reflexivity.
  - reflexivity.
  - intros [g [err|]]; unfold groupInactive; simpl;
      [destruct (ContainsErrMsg err "not found")|destruct g]; reflexivity.
  - exists xs. split; [exact Ht|].
    destruct Hrun as [(err & Hp & Ho)|[Hc Ho]].
    + left. exists err. eexists. split; [exact Hp|exact Ho].
    + right. split; [exact Hc|exact Ho].
Qed.

(** The wait for the security group retries DeleteSecurityGroup. *)
Lemma waitForSecurityGroupDeleted_polled (securityGroup : ec2.SecurityGroup) (w : W) :
  satisfies h (waitForSecurityGroupDeleted securityGroup) w (fun o _ tr =>
    exists (xs : list (option error)) (err : option error) (timeout : error),
      polled groupDeleted timeout 50 xs err /\ o = Returned err /\
      providerCalls tr = answered (DeleteSecurityGroup securityGroup) xs).
Proof.
  unfold satisfies, waitForSecurityGroupDeleted, waitutils.Wait.
  match goal with |- context [waitutils.loop ?wt _] => set (waiter := wt) end.
  pose proof (fun k => Wait_polled (DeleteSecurityGroup securityGroup)
                          groupDeleted ltac:(reflexivity) h waiter k "") as Hwait.
  edestruct Hwait as (xs & Ht & [(err & Hp & Ho)|[Hc _]]).
  - reflexivity.
  - reflexivity.
  - intros [err|]; reflexivity.
  - exists xs, err. eexists. split; [exact Hp|]. split; [exact Ho|exact Ht].
  - exfalso. eapply (crashed_total groupDeleted); [|exact Hc]. by intros [err|]; eexists.
Qed.

Lemma tolerated_poll_ends (timeout : error) (name : string)
    (xs : list (option autoscaling.Group * option error)) (err : option error)
    (tr : list (Event awsE)) :
  polled groupInactive timeout 50 xs err ->
  providerCalls tr = answered (DescribeAutoScalingGroup name) xs ->
  Forall (fun ev => tolerated ev = true) tr ->
  err = None.
Proof.
  intros Hp Ht Hall. apply Forall_providerCalls in Hall. rewrite Ht in Hall.
  apply Forall_answered in Hall.
  eapply (polled_all_done groupInactive); [exact Hp|].
  eapply Forall_impl; [exact Hall|]. intros [g [e|]]; simpl; [|done].
  unfold groupInactive. simpl. by intros ->.
Qed.

(** The reply on which the poll panics has no error, so it is not a
    tolerated one. *)
Lemma tolerated_poll_crash (name : string)
    (xs : list (option autoscaling.Group * option error)) (tr : list (Event awsE)) :
  crashed groupInactive 50 xs ->
  providerCalls tr = answered (DescribeAutoScalingGroup name) xs ->
  Forall (fun ev => tolerated ev = true) tr ->
  False.
Proof.
  intros Hc Ht Hall. apply Forall_providerCalls in Hall. rewrite Ht in Hall.
  apply Forall_answered in Hall.
  apply crashed_retried in Hc as (retried & [g [e|]] & -> & Hx & _).
  - unfold groupInactive in Hx. simpl in Hx. discriminate Hx.
  - apply List.Forall_app in Hall as [_ Hall]. apply Forall_inv in Hall.
    simpl in Hall. discriminate Hall.
Qed.

Lemma tolerated_delete_ends (timeout : error) (securityGroup : ec2.SecurityGroup)
    (xs : list (option error)) (err : option error) (tr : list (Event awsE)) :
  polled groupDeleted timeout 50 xs err ->
  providerCalls tr = answered (DeleteSecurityGroup securityGroup) xs ->
  Forall (fun ev => tolerated ev = true) tr ->
  err = None.
Proof.
  intros Hp Ht Hall. apply Forall_providerCalls in Hall. rewrite Ht in Hall.
  apply Forall_answered in Hall.
  eapply (polled_all_done groupDeleted); [exact Hp|].
  eapply Forall_impl; [exact Hall|]. intros [e|]; simpl; done.
Qed.

Lemma DeleteEnvironment_tolerates (environmentID : string) (w : W) :
  satisfies h (DeleteEnvironment environmentID) w (fun o _ tr =>
    Forall (fun ev => tolerated ev = true) tr -> o = Returned None).
Proof.
  unfold DeleteEnvironment. cbv zeta. cbn [bind call].
  apply satisfies_Do; intros r1 w1 _. fatal_or_go; [refuted|].
  apply satisfies_Do; intros r2 w2 _. fatal_or_go; [refuted|].
  apply satisfies_Do; intros r3 w3 _. fatal_or_go; [refuted|].
  apply satisfies_Do; intros r4 w4 _. fatal_or_go; [refuted|].
  apply satisfies_bind.
  eapply satisfies_mono; [apply waitForAutoScalingGroupInactive_polled|].
  intros o5 w5 t5 (xs & Ht5 & [(err5 & timeout5 & Hp5 & ->)|[Hc5 ->]]).
  2:{ intros Hall; split_all Hall.
      by pose proof (tolerated_poll_crash _ _ _ Hc5 Ht5 ltac:(eassumption)). }
  destruct err5 as [err5|].
  { apply satisfies_Ret; intros Hall; split_all Hall.
    by pose proof (tolerated_poll_ends _ _ _ _ _ Hp5 Ht5 ltac:(eassumption)). }
  cbn [bind call]. apply satisfies_Do; intros [sg [e6|]] w6 _; [refuted|].
  destruct sg as [sg|]; cbn [bind call].
  - apply satisfies_bind.
    eapply satisfies_mono; [apply waitForSecurityGroupDeleted_polled|].
    intros o7 w7 t7 (ys & err7 & timeout7 & Hp7 & -> & Ht7).
    destruct err7 as [err7|].
    { apply satisfies_Ret; intros Hall; split_all Hall.
      by pose proof (tolerated_delete_ends _ _ _ _ _ Hp7 Ht7 ltac:(eassumption)). }
    cbn [bind call]. apply satisfies_Do; intros r8 w8 _. fatal_or_go; [refuted|].
    by apply satisfies_Ret.
  - apply satisfies_Do; intros r8 w8 _. fatal_or_go; [refuted|].
    by apply satisfies_Ret.
Qed.

(** The order of the provider calls of DeleteEnvironment, for every run;
    the replies of a run that returned nil; and the replies of a run that
    panicked, which happens in the polls of the scaling group and nowhere
    else. *)
Lemma DeleteEnvironment_calls (environmentID : string) (w : W) :
  satisfies h (DeleteEnvironment environmentID) w (fun o _ tr =>
    (exists polls securityGroup attempts,
        (polls <= 50)%nat /\ (attempts <= 50)%nat /\
        startsWith (requests (providerCalls tr))
          (delete_calls environmentID polls securityGroup attempts)) /\
    (o = Returned None ->
     exists r1 r2 r3 r4 xs securityGroup ys r5 timeout1 timeout2,
       providerCalls tr = delete_events environmentID r1 r2 r3 r4 xs securityGroup ys r5 /\
       polled groupInactive timeout1 50 xs None /\
       (is_Some securityGroup -> polled groupDeleted timeout2 50 ys None)) /\
    (forall reason, o = Panicked reason ->
     exists r1 r2 r3 r4 xs,
       providerCalls tr = delete_events_to_poll environmentID r1 r2 r3 r4 xs /\
       crashed groupInactive 50 xs)).
Proof.
  unfold DeleteEnvironment. cbv zeta. cbn [bind call].
  apply satisfies_Do; intros r1 w1 _.
  fatal_or_go; [stopped 0%nat (@None ec2.SecurityGroup) 0%nat|].
  apply satisfies_Do; intros r2 w2 _.
  fatal_or_go; [stopped 0%nat (@None ec2.SecurityGroup) 0%nat|].
  apply satisfies_Do; intros r3 w3 _.
  fatal_or_go; [stopped 0%nat (@None ec2.SecurityGroup) 0%nat|].
  apply satisfies_Do; intros r4 w4 _.
  fatal_or_go; [stopped 0%nat (@None ec2.SecurityGroup) 0%nat|].
  apply satisfies_bind.
  eapply satisfies_mono; [apply waitForAutoScalingGroupInactive_polled|].
  intros o5 w5 t5 (xs & Ht5 & [(err5 & timeout5 & Hp5 & ->)|[Hc5 ->]]).
  2:{ pose proof (crashed_length _ _ _ Hc5) as Hlen5. split.
      - exists (length xs), (@None ec2.SecurityGroup), 0%nat. in_order.
      - split; [intros [=]|]. intros _ _. exists r1, r2, r3, r4, xs.
        split; [polls_known; reflexivity|exact Hc5]. }
  pose proof (polled_length _ _ _ _ _ Hp5) as Hlen5.
  destruct err5 as [err5|]; [stopped (length xs) (@None ec2.SecurityGroup) 0%nat|].
  cbn [bind call]. apply satisfies_Do; intros [sg [e6|]] w6 _;
    [stopped (length xs) (@None ec2.SecurityGroup) 0%nat|].
  destruct sg as [sg|]; cbn [bind call].
  - apply satisfies_bind.
    eapply satisfies_mono; [apply waitForSecurityGroupDeleted_polled|].
    intros o7 w7 t7 (ys & err7 & timeout7 & Hp7 & -> & Ht7).
    pose proof (polled_length _ _ _ _ _ Hp7) as Hlen7.
    destruct err7 as [err7|]; [stopped (length xs) (Some sg) (length ys)|].
    cbn [bind call]. apply satisfies_Do; intros r8 w8 _.
    fatal_or_go; [stopped (length xs) (Some sg) (length ys)|].
    apply satisfies_Ret. split; [|split].
    + exists (length xs), (Some sg), (length ys). in_order.
    + intros _. exists r1, r2, r3, r4, xs, (Some sg), ys, r8, timeout5, timeout7.
      split; [polls_known; reflexivity|]. by split.
    + intros ? [=].
  - apply satisfies_Do; intros r8 w8 _.
    fatal_or_go; [stopped (length xs) (@None ec2.SecurityGroup) 0%nat|].
    apply satisfies_Ret. split; [|split].
    + exists (length xs), (@None ec2.SecurityGroup), 0%nat. in_order.
    + intros _. exists r1, r2, r3, r4, xs, (@None ec2.SecurityGroup), [], r8, timeout5, timeout5.
      split; [polls_known; reflexivity|]. split; [done|]. by intros [? [=]].
    + intros ? [=].
Qed.

Lemma satisfies_any {R : Type} (p : M R) (w : W) : satisfies h p w (fun _ _ _ => True).
Proof. done. Qed.

(** The calls of CreateEnvironment for a recognized operating system. *)
Lemma CreateEnvironment_calls
    (environmentName instanceSize operatingSystem amiID : string) (minClusterCount : Z)
    (userDataTemplate : string) (w : W) :
  ecsbackend.ToLower operatingSystem = "linux" \/ ecsbackend.ToLower operatingSystem = "windows" ->
  satisfies h (CreateEnvironment environmentName instanceSize operatingSystem amiID
                 minClusterCount userDataTemplate) w (fun o _ tr =>
    exists groupID userData,
      let script := create_calls environmentName instanceSize
                      (chosenAMI operatingSystem amiID) userData minClusterCount groupID in
      inOrder script (requests tr) /\
      (forall model, o = Returned (Ok model) -> startsWith script (requests tr))).
Proof.
  intros Hos. unfold CreateEnvironment.
  assert (exists template, osDefaults operatingSystem
            = Some (template,
                    if bool_decide (ecsbackend.ToLower operatingSystem = "linux")
                    then config.AWSLinuxServiceAMI else config.AWSWindowsServiceAMI))
    as [template ->].
  { unfold osDefaults. destruct Hos as [Hos|Hos]; rewrite Hos; by eexists. }
  cbv zeta.
  assert ((if bool_decide (amiID ≠ "") then amiID
           else if bool_decide (ecsbackend.ToLower operatingSystem = "linux")
                then config.AWSLinuxServiceAMI else config.AWSWindowsServiceAMI)
          = chosenAMI operatingSystem amiID) as ->.
  { unfold chosenAMI. destruct (decide (amiID = "")) as [->|Hami]; [done|].
    by rewrite bool_decide_eq_true_2, bool_decide_eq_false_2. }
  destruct (renderUserData _ _) as [userData|err].
  2:{ apply satisfies_Ret. exists None, "". split; [left; constructor|]. intros ? [=]. }
  cbn [bind call].
  apply satisfies_Do; intros [cluster [e1|]] w1 _.
  { apply satisfies_Ret. exists None, userData. split; [left; by repeat constructor|].
    intros ? [=]. }
  apply satisfies_Do; intros [groupID [e2|]] w2 _.
  { apply satisfies_Ret. exists None, userData. split; [left; by repeat constructor|].
    intros ? [=]. }
  apply satisfies_Do; intros [] w3 _.
  apply satisfies_Do; intros [e4|] w4 _.
  { apply satisfies_Ret. exists groupID, userData. split; [left; by repeat constructor|].
    intros ? [=]. }
  apply satisfies_Do; intros [e5|] w5 _.
  { apply satisfies_Ret. exists groupID, userData. split; [left; by repeat constructor|].
    intros ? [=]. }
  assert ((if bool_decide (minClusterCount > 0)%Z then minClusterCount else 0%Z)
          = Z.max minClusterCount 0) as ->.
  { case_bool_decide; lia. }
  apply satisfies_Do; intros [e6|] w6 _.
  { apply satisfies_Ret. exists groupID, userData. split; [left; by repeat constructor|].
    intros ? [=]. }
  eapply satisfies_mono; [apply satisfies_any|]. intros o w7 tr _.
  exists groupID, userData.
  split; [right|intros _ _]; by repeat constructor.
Qed.

(** An operating system that is not recognized: no call is made. *)
Lemma CreateEnvironment_unrecognized
    (environmentName instanceSize operatingSystem amiID : string) (minClusterCount : Z)
    (userDataTemplate : string) (w : W) :
  ecsbackend.ToLower operatingSystem ≠ "linux" -> ecsbackend.ToLower operatingSystem ≠ "windows" ->
  run h (CreateEnvironment environmentName instanceSize operatingSystem amiID
           minClusterCount userDataTemplate) w
  = (Returned (Err (Errorf ("Operating system '" +:+ operatingSystem +:+ "' is not recognized"))),
     w, []).
Proof.
  intros Hl Hw. unfold CreateEnvironment, osDefaults.
  by rewrite !bool_decide_eq_false_2.
Qed.

(** Every run of CreateEnvironmentLink: a lookup of a security group
    failed; or ingress was authorized between the two groups in one
    direction and the answer was not taken for success; or it was, and
    ingress was authorized in the other direction too. *)
Lemma CreateEnvironmentLink_runs (sourceEnvironmentID destEnvironmentID : string) (w : W) :
  satisfies h (CreateEnvironmentLink sourceEnvironmentID destEnvironmentID) w (fun o _ tr =>
    let sourceName := id.SecurityGroupName (id.ECSEnvironmentID sourceEnvironmentID) in
    let destName := id.SecurityGroupName (id.ECSEnvironmentID destEnvironmentID) in
    (exists err, o = Returned (Some err) /\
       Forall (fun q => q = req (DescribeSecurityGroup sourceName)
                        \/ q = req (DescribeSecurityGroup destName)) (requests tr)) \/
    (exists sourceGroup destGroup,
       let lookups := [Ev (DescribeSecurityGroup sourceName) (Some sourceGroup, None);
                       Ev (DescribeSecurityGroup destName) (Some destGroup, None)] in
       let there := AuthorizeSecurityGroupIngressFromGroup
                      (ec2.GroupId sourceGroup) (ec2.GroupId destGroup) in
       let back := AuthorizeSecurityGroupIngressFromGroup
                     (ec2.GroupId destGroup) (ec2.GroupId sourceGroup) in
       (exists r1, authorized r1 = false /\
          tr = lookups ++ [Ev there r1] /\ o = Returned r1) \/
       (exists r1 r2, authorized r1 = true /\
          tr = lookups ++ [Ev there r1; Ev back r2] /\
          o = Returned (if authorized r2 then None else r2)))).
Proof.
  unfold CreateEnvironmentLink, getEnvironmentSecurityGroup. cbv zeta. cbn [bind call].
  apply satisfies_Do; intros [sourceGroup [e1|]] w1 _.
  { apply satisfies_Ret. left. exists e1. split; [done|]. repeat constructor. }
  destruct sourceGroup as [sourceGroup|].
  2:{ apply satisfies_Ret. left. eexists. split; [done|]. repeat constructor. }
  cbn [bind call].
  apply satisfies_Do; intros [destGroup [e2|]] w2 _.
  { apply satisfies_Ret. left. exists e2. split; [done|]. repeat constructor; by right. }
  destruct destGroup as [destGroup|].
  2:{ apply satisfies_Ret. left. eexists. split; [done|]. repeat constructor; by right. }
  cbn [bind call].
  apply satisfies_Do; intros r1 w3 _.
  destruct (authorized r1) eqn:Hr1.
  - assert (match r1 with
            | Some err => if ContainsErrCode err "InvalidPermission.Duplicate"
                          then None else Some err
            | None => None
            end = None) as ->.
    { destruct r1 as [e|]; [|done]. simpl in Hr1. by rewrite Hr1. }
    apply satisfies_Do; intros r2 w4 _.
    assert (satisfies h
              match match r2 with
                    | Some err => if ContainsErrCode err "InvalidPermission.Duplicate"
                                  then None else Some err
                    | None => None
                    end with
              | Some err => Ret (Some err)
              | None => Ret None
              end w4
              (fun o _ tr => o = Returned (if authorized r2 then None else r2) /\ tr = []))
      as Hlast.
    { destruct r2 as [e|]; [|by apply satisfies_Ret].
      simpl. destruct (ContainsErrCode e _); by apply satisfies_Ret. }
    eapply satisfies_mono; [exact Hlast|]. intros o w5 tr [-> ->].
    right. exists sourceGroup, destGroup. right. by exists r1, r2.
  - destruct r1 as [e|]; [|done]. simpl in Hr1. rewrite Hr1.
    apply satisfies_Ret. right. exists sourceGroup, destGroup. left. by exists (Some e).
Qed.

(** Every run of updateEnvironmentMinCount. *)
Lemma updateEnvironmentMinCount_runs (model : models.Environment) (minClusterCount : Z) (w : W) :
  satisfies h (updateEnvironmentMinCount model minClusterCount) w (fun o _ tr =>
    let name := id.AutoScalingGroupName (id.ECSEnvironmentID (models.EnvironmentID model)) in
    let described := fun reply => Ev (DescribeAutoScalingGroup name) reply in
    let setMax := UpdateAutoScalingGroupMaxSize name minClusterCount in
    let setMin := UpdateAutoScalingGroupMinSize name minClusterCount in
    (exists asg err, tr = [described (asg, Some err)] /\ o = Returned (Some err)) \/
    (tr = [described (None, None)] /\ exists reason, o = Panicked reason) \/
    (exists asg, (autoscaling.MaxSize asg < minClusterCount)%Z /\
       ((exists err, tr = [described (Some asg, None); Ev setMax (Some err)]
                     /\ o = Returned (Some err)) \/
        (exists r, tr = [described (Some asg, None); Ev setMax None; Ev setMin r]
                   /\ o = Returned r))) \/
    (exists asg, (minClusterCount <= autoscaling.MaxSize asg)%Z /\
       exists r, tr = [described (Some asg, None); Ev setMin r] /\ o = Returned r)).
Proof.
  unfold updateEnvironmentMinCount, describeAutoscalingGroup. cbv zeta. cbn [bind call].
  apply satisfies_Do; intros [asg [e1|]] w1 _.
  { apply satisfies_Ret. left. by exists asg, e1. }
  destruct asg as [asg|]; cbn [bind call].
  2:{ apply satisfies_Panic. right. left. split; [done|]. by eexists. }
  case_bool_decide as Hmax; cbn [bind call].
  - apply satisfies_Do; intros [e2|] w2 _.
    { apply satisfies_Ret. right. right. left. exists asg. split; [done|]. left. by exists e2. }
    apply satisfies_Do; intros r3 w3 _. apply satisfies_Ret.
    right. right. left. exists asg. split; [done|]. right. by exists r3.
  - apply satisfies_Do; intros r3 w3 _. apply satisfies_Ret.
    right. right. right. exists asg. split; [lia|]. by exists r3.
Qed.

(** The model populateModel returns. *)
Lemma populateModel_fields (cluster : option ecs.Cluster) (w : W) :
  satisfies h (populateModel cluster) w (fun o _ _ =>
    forall model, o = Returned (Ok model) ->
      describedOnly model /\
      exists c, cluster = Some c /\
                models.EnvironmentID model = id.L0EnvironmentID (ecs.ClusterName c)).
Proof.
  unfold populateModel. destruct cluster as [cluster|]; [|by apply satisfies_Panic].
  cbv zeta.
  assert (forall (count : Z) (size ami : string) (w' : W)
                 (Q : Outcome (result models.Environment) -> W -> list (Event awsE) -> Prop),
            (forall o w'' tr,
               (forall model, o = Returned (Ok model) ->
                  describedOnly model /\
                  models.EnvironmentID model = id.L0EnvironmentID (ecs.ClusterName cluster)) ->
               Q o w'' tr) ->
            satisfies h
              (r <- call (DescribeSecurityGroup (id.SecurityGroupName (ecs.ClusterName cluster)));;
               (let '(securityGroup, err) := r in
                match err with
                | Some err => Ret (Err err)
                | None =>
                    Ret (Ok (models.mkEnvironment (id.L0EnvironmentID (ecs.ClusterName cluster))
                               "" count size
                               match securityGroup with
                               | Some securityGroup => pstring (ec2.GroupId securityGroup)
                               | None => ""
                               end "" ami []))
                end)) w' Q) as Hfinish.
  { intros count size ami w' Q HQ. cbn [bind call].
    apply satisfies_Do; intros [sg [err|]] w1 _; apply satisfies_Ret; apply HQ.
    - intros model [=].
    - intros model [= <-]. by repeat split. }
  unfold describeAutoscalingGroup. cbn [bind call].
  apply satisfies_Do; intros [asg [e1|]] w1 _; cbn [bind call].
  - destruct (ContainsErrMsg e1 "not found"); [|apply satisfies_Ret; intros model [=]].
    apply Hfinish. intros o w2 tr Hm model Ho. destruct (Hm model Ho). eauto.
  - destruct asg as [asg|].
    2:{ apply Hfinish. intros o w2 tr Hm model Ho. destruct (Hm model Ho). eauto. }
    destruct (autoscaling.LaunchConfigurationName asg) as [name|].
    2:{ apply Hfinish. intros o w2 tr Hm model Ho. destruct (Hm model Ho). eauto. }
    apply satisfies_Do; intros [launchConfig [e2|]] w2 _.
    + destruct (ContainsErrMsg e2 "not found"); [|apply satisfies_Ret; intros model [=]].
      destruct launchConfig; apply Hfinish; intros o w3 tr Hm model Ho;
        destruct (Hm model Ho); eauto.
    + destruct launchConfig; apply Hfinish; intros o w3 tr Hm model Ho;
        destruct (Hm model Ho); eauto.
Qed.

Lemma GetEnvironment_fields (environmentID : string) (w : W) :
  satisfies h (GetEnvironment environmentID) w (fun o _ _ =>
    forall model, o = Returned (Ok model) -> describedOnly model).
Proof.
  unfold GetEnvironment. cbv zeta. cbn [bind call].
  apply satisfies_Do; intros [cluster [e1|]] w1 _.
  - destruct (_ || _); apply satisfies_Ret; intros model [=].
  - eapply satisfies_mono; [apply populateModel_fields|].
    intros o w2 tr Hm model Ho. by destruct (Hm model Ho).
Qed.

Lemma ListEnvironments_fields (w : W) :
  satisfies h ListEnvironments w (fun o _ _ =>
    forall environments, o = Returned (Ok environments) -> Forall idOnly environments).
Proof.
  unfold ListEnvironments. cbn [bind call].
  apply satisfies_Do; intros [clusters [e1|]] w1 _; apply satisfies_Ret.
  - intros environments [=].
  - intros environments [= <-]. induction clusters as [|cluster clusters IH]; [constructor|].
    simpl. destruct (String.prefix _ _); [|exact IH].
    constructor; [reflexivity|exact IH].
Qed.
End EnvironmentManager.

(** C10.  A model returned by GetEnvironment has EnvironmentName and
    OperatingSystem empty and Links nil; a model returned by
    ListEnvironments has every field but EnvironmentID at its zero value. *)
Theorem returned_models_leave_fields_unset `{!id.Codec} `{!ecsbackend.Helpers}
    {W : Type} (h : Handler ecsbackend.awsE W) (w : W) :
  (forall (environmentID : string) (model : models.Environment),
     outcome (run h (ecsbackend.GetEnvironment environmentID) w) = Returned (Ok model) ->
     models.EnvironmentName model = "" /\ models.OperatingSystem model = "" /\
     models.Links model = []) /\
  (forall environments : list models.Environment,
     outcome (run h ecsbackend.ListEnvironments w) = Returned (Ok environments) ->
     Forall (fun model =>
               model = models.mkEnvironment (models.EnvironmentID model) "" 0 "" "" "" "" [])
       environments).
Proof.
  split.
  - intros environmentID. apply (GetEnvironment_fields h environmentID w).
  - apply (ListEnvironments_fields h w).
Qed.

Lemma returned_models_leave_fields_unset_witness :
  let got := models.mkEnvironment "prod1a2b3" "" 2 "m3.medium" "sg-l0-test-prod1a2b3-env"
               "" "ami-linux" [] in
  let listed := [models.mkEnvironment "dev1a2b3" "" 0 "" "" "" "" [];
                 models.mkEnvironment "prod1a2b3" "" 0 "" "" "" "" []] in
  outcome (run account.handler (ecsbackend.GetEnvironment account.prodID) account.prodAndDev)
    = Returned (Ok got) /\
  outcome (run account.handler ecsbackend.ListEnvironments account.prodAndDev)
    = Returned (Ok listed) /\
  (models.EnvironmentName got = "" /\ models.OperatingSystem got = "" /\
   models.Links got = []) /\
  Forall (fun model =>
            model = models.mkEnvironment (models.EnvironmentID model) "" 0 "" "" "" "" [])
    listed.
Proof.
  destruct (@returned_models_leave_fields_unset account.codec account.helpers _
              account.handler account.prodAndDev) as [Hget Hlist].
  split; [reflexivity|]. split; [reflexivity|]. split.
  - apply (Hget account.prodID). reflexivity.
  - apply Hlist. reflexivity.
Defined.

(** The calls of updateEnvironmentMinCount never leave the group with a
    minimum above its maximum: for a group whose bounds were min <= max,
    with that max the one the description reports, min <= max holds after
    each call. *)
Lemma updateEnvironmentMinCount_bounds `{!id.Codec} `{!ecsbackend.Helpers}
    {W : Type} (h : Handler ecsbackend.awsE W) (w : W)
    (model : models.Environment) (minClusterCount : Z) (lo hi : Z) :
  let r := run h (ecsbackend.updateEnvironmentMinCount model minClusterCount) w in
  (lo <= hi)%Z -> firstReportedMaxSize (trace r) = Some hi ->
  Forall (fun bounds => (bounds.1 <= bounds.2)%Z) (boundsAfterEach (lo, hi) (trace r)).
Proof.
  intros r Hle Hhi.
  pose proof (updateEnvironmentMinCount_runs h model minClusterCount w) as Hruns.
  unfold satisfies in Hruns. fold r in Hruns. cbv zeta in Hruns.
  destruct Hruns as [(asg & err & Htr & _)|[(Htr & _)|[(asg & Hlt & Hc)|(asg & Hge & r' & Htr & _)]]].
  - rewrite Htr. repeat constructor. done.
  - rewrite Htr. repeat constructor. done.
  - destruct Hc as [(err & Htr & _)|(r' & Htr & _)]; rewrite Htr in *;
      simpl in Hhi; injection Hhi as <-.
    + repeat constructor; simpl; lia.
    + destruct r'; repeat constructor; simpl; lia.
  - rewrite Htr in *. simpl in Hhi. injection Hhi as <-.
    destruct r'; repeat constructor; simpl; lia.
Qed.



(** C6 as stated fails for a negative count: the scaling group is
    requested with the minimum -1 and the maximum 0, not with both zero. *)
Lemma CreateEnvironment_negative_count_keeps_the_minimum :
  let r := run account.handler
             (ecsbackend.CreateEnvironment "prod" "m3.medium" "linux" "" (-1) "")
             account.fresh in
  requests (trace r)
    = [req (ecsbackend.CreateCluster "l0-test-prod1a2b3");
       req (ecsbackend.CreateSecurityGroup "l0-test-prod1a2b3-env"
              "Auto-generated Layer0 Environment Security Group" "vpc-1");
       req (ecsbackend.Sleep 2000000000);
       req (ecsbackend.AuthorizeSecurityGroupIngressFromGroup
              (Some "sg-l0-test-prod1a2b3-env") (Some "sg-l0-test-prod1a2b3-env"));
       req (ecsbackend.CreateLaunchConfiguration "l0-test-prod1a2b3" "ami-linux" "ecs-role"
              "m3.medium" "key" "#!/bin/bash"
              [Some "sg-l0-test-prod1a2b3-env"; Some "sg-agent"]);
       req (ecsbackend.CreateAutoScalingGroup "l0-test-prod1a2b3" "l0-test-prod1a2b3"
              "subnet-1,subnet-2" (-1) 0)].
Proof. reflexivity. Qed.

(** C6, amended.  An operating system whose lower-case form, as
    strings.ToLower gives it, is neither "linux" nor "windows" fails before
    any call.  For a recognized one the
    calls are, in this order: create cluster, create security group, sleep
    two seconds, authorize ingress from the group into itself, create launch
    configuration, create scaling group; a run that fails stops inside this
    sequence, a run that returns a model made all six calls (and then
    the describe calls of populateModel).  The launch configuration gets
    the AMI given, or with none given the default AMI of the operating
    system, for "linux" the default Linux AMI; the scaling group gets the
    requested count as minimum, whatever its sign, and as maximum the count
    when it is positive and zero otherwise.  For an operating system
    written in ASCII the lower-case form is the text with A-Z replaced by
    a-z; strings.ToLower is otherwise left open, so the statement holds
    whatever it makes of other text. *)
Theorem CreateEnvironment_call_order `{!id.Codec} `{!config.Config} `{!ecsbackend.Helpers}
    {W : Type} (h : Handler ecsbackend.awsE W) (w : W)
    (environmentName instanceSize operatingSystem amiID : string) (minClusterCount : Z)
    (userDataTemplate : string) :
  let r := run h (ecsbackend.CreateEnvironment environmentName instanceSize operatingSystem
                    amiID minClusterCount userDataTemplate) w in
  (ecsbackend.ToLower operatingSystem ≠ "linux" -> ecsbackend.ToLower operatingSystem ≠ "windows" ->
   r = (Returned (Err (Errorf ("Operating system '" +:+ operatingSystem +:+
                               "' is not recognized"))), w, [])) /\
  (ecsbackend.ToLower operatingSystem = "linux" \/ ecsbackend.ToLower operatingSystem = "windows" ->
   exists groupID userData,
     let script := create_calls environmentName instanceSize
                     (chosenAMI operatingSystem amiID) userData minClusterCount groupID in
     inOrder script (requests (trace r)) /\
     (forall model, outcome r = Returned (Ok model) -> startsWith script (requests (trace r)))) /\
  (ecsbackend.ToLower operatingSystem = "linux" ->
   chosenAMI operatingSystem "" = config.AWSLinuxServiceAMI) /\
  (isASCII operatingSystem = true ->
   ecsbackend.ToLower operatingSystem = asciiToLower operatingSystem).
Proof.
  intros r. split; [|split; [|split]].
  - apply CreateEnvironment_unrecognized.
  - intros Hos. by apply (CreateEnvironment_calls h _ _ _ _ _ _ w).
  - intros Hos. unfold chosenAMI. by rewrite Hos.
  - apply ecsbackend.ToLower_ASCII.
Qed.

Lemma CreateEnvironment_call_order_witness :
  let r := run account.handler
             (ecsbackend.CreateEnvironment "prod" "m3.medium" "Linux" "" 2 "")
             account.fresh in
  (exists model, outcome r = Returned (Ok model)) /\
  exists groupID userData,
    startsWith (create_calls "prod" "m3.medium" "ami-linux" userData 2 groupID)
      (requests (trace r)).
Proof.
  split; [by eexists|].
  destruct (@CreateEnvironment_call_order account.codec account.settings account.helpers _
              account.handler account.fresh "prod" "m3.medium" "Linux" "" 2%Z "")
    as (_ & Hcalls & _).
  destruct Hcalls as (groupID & userData & _ & Hall); [by left|].
  exists groupID, userData. eapply Hall. reflexivity.
Defined.

Section LinkOnAccount.
Import account.
Context `{!id.Codec}.

(** On the account, linking two environments whose security groups exist
    succeeds and leaves the two ingress rules, whether they were there
    before or not. *)
Lemma CreateEnvironmentLink_on_account (a : Account) (source dest : string) :
  let gs := groupIdOf (id.SecurityGroupName (id.ECSEnvironmentID source)) in
  let gd := groupIdOf (id.SecurityGroupName (id.ECSEnvironmentID dest)) in
  gs ∈ securityGroups a -> gd ∈ securityGroups a ->
  satisfies handler (@ecsbackend.CreateEnvironmentLink _ helpers source dest) a (fun o a' _ =>
    o = Returned None /\ a' = withIngress a ({[ (gs, gd); (gd, gs) ]} ∪ ingress a)).
Proof.
  intros gs gd Hs Hd.
  unfold ecsbackend.CreateEnvironmentLink, ecsbackend.getEnvironmentSecurityGroup.
  cbv zeta. cbn [bind call].
  apply satisfies_Do; intros x1 a1 Hx. cbn [handler] in Hx.
  rewrite bool_decide_eq_true_2 in Hx by exact Hs. injection Hx as <- <-. cbn [bind call].
  apply satisfies_Do; intros x2 a2 Hx. cbn [handler] in Hx.
  rewrite bool_decide_eq_true_2 in Hx by exact Hd. injection Hx as <- <-. cbn [bind call].
  apply satisfies_Do; intros x3 a3 Hx. cbn [handler ec2.GroupId] in Hx. fold gs gd in Hx.
  assert (x3 = None \/ x3 = Some duplicateRule) as Hx3
    by (case_bool_decide; injection Hx as <- <-; auto).
  assert (ingress a3 = {[(gs, gd)]} ∪ ingress a /\ a3 = withIngress a (ingress a3)) as [Hi3 Ha3].
  { case_bool_decide; injection Hx as <- <-; simpl.
    - split; [set_solver|]. by destruct a.
    - done. }
  clear Hx. destruct Hx3 as [-> | ->]; cbn [ec2.GroupId].
  all: change (ecsbackend.ContainsErrCode duplicateRule "InvalidPermission.Duplicate") with true;
    cbv iota.
  all: apply satisfies_Do; intros x4 a4 Hx; cbn [handler] in Hx; fold gs gd in Hx.
  all: assert (x4 = None \/ x4 = Some duplicateRule) as Hx4
    by (case_bool_decide; injection Hx as <- <-; auto).
  all: assert (a4 = withIngress a ({[ (gs, gd); (gd, gs) ]} ∪ ingress a)) as Ha4
    by (rewrite Ha3 in Hx; case_bool_decide; injection Hx as <- <-;
        unfold withIngress; simpl; f_equal; set_solver).
  all: clear Hx; destruct Hx4 as [-> | ->].
  all: change (ecsbackend.ContainsErrCode duplicateRule "InvalidPermission.Duplicate") with true;
    cbv iota.
  all: by apply satisfies_Ret.
Qed.
End LinkOnAccount.



(** What the account answers when it is asked for a step of the run. *)
Ltac reply Hx :=
  cbn [account.handler] in Hx; unfold account.setBounds in Hx;
  cbn [account.clusters account.securityGroups account.ingress account.launchConfigurations
       account.scalingGroups ec2.GroupId fst snd] in Hx;
  rewrite ?lookup_insert_eq, ?lookup_delete_eq in Hx;
  repeat match goal with
    | Hl : ?m !! ?k = _ |- _ => rewrite Hl in Hx
    end;
  cbn [fst snd] in Hx;
  repeat match type of Hx with
    | context [bool_decide ?P] =>
        first [ rewrite (bool_decide_eq_true_2 P) in Hx by (lia || set_solver)
              | rewrite (bool_decide_eq_false_2 P) in Hx by set_solver ]
    end;
  injection Hx as <- <-.

Section DeleteOnAccount.
Import account.
Context `{!id.Codec}.

Lemma waitForAutoScalingGroupInactive_on_account (a : Account) (e : string) :
  scalingGroups a !! id.AutoScalingGroupName e = None ->
  satisfies handler (@ecsbackend.waitForAutoScalingGroupInactive _ helpers e) a
    (fun o a' _ => o = Returned None /\ a' = a).
Proof.
  intros Hasg. unfold ecsbackend.waitForAutoScalingGroupInactive, waitutils.Wait.
  cbn [waitutils.Retries].
  change 50%nat with (S 49). cbn [waitutils.loop waitutils.Check bind call].
  apply satisfies_Do; intros x a' Hx. cbn [handler] in Hx. rewrite Hasg in Hx.
  injection Hx as <- <-. by apply satisfies_Ret.
Qed.

Lemma waitForSecurityGroupDeleted_on_account (a : Account) (g : string) :
  g ∈ securityGroups a ->
  satisfies handler
    (ecsbackend.waitForSecurityGroupDeleted (ec2.mkSecurityGroup (Some g))) a
    (fun o a' _ => o = Returned None /\
       a' = mkAccount (clusters a) (securityGroups a ∖ {[g]})
              (filter (fun r => r.1 ≠ g) (ingress a))
              (launchConfigurations a) (scalingGroups a)).
Proof.
  intros Hg. unfold ecsbackend.waitForSecurityGroupDeleted, waitutils.Wait.
  cbn [waitutils.Retries].
  change 50%nat with (S 49). cbn [waitutils.loop waitutils.Check bind call].
  apply satisfies_Do; intros x a' Hx. cbn [handler ec2.GroupId] in Hx.
  rewrite bool_decide_eq_true_2 in Hx by done.
  injection Hx as <- <-. by apply satisfies_Ret.
Qed.

Lemma missing_is_tolerated :
  @ecsbackend.ContainsErrMsg helpers asgMissing "name not found" = true /\
  @ecsbackend.ContainsErrMsg helpers asgMissing "not found" = true /\
  @ecsbackend.ContainsErrMsg helpers lcMissing "name not found" = true /\
  @ecsbackend.ContainsErrCode helpers clusterMissing "ClusterNotFoundException" = true.
Proof. by repeat split. Qed.

(** On the account, DeleteEnvironment returns nil and leaves none of the
    environment's resources, whichever of them were there. *)
Lemma DeleteEnvironment_on_account (a : Account) (environmentID : string) :
  let e := id.ECSEnvironmentID environmentID in
  (forall lc lo hi,
     scalingGroups a !! id.AutoScalingGroupName e = Some (lc, lo, hi) -> (0 <= hi)%Z) ->
  satisfies handler (@ecsbackend.DeleteEnvironment _ helpers environmentID) a (fun o a' _ =>
    o = Returned None /\ environmentGone a' environmentID).
Proof.
  intros e Hhi. unfold ecsbackend.DeleteEnvironment. cbv zeta. fold e. cbn [bind call].
  destruct missing_is_tolerated as (Hm1 & Hm2 & Hm3 & Hm4).
  destruct (scalingGroups a !! id.AutoScalingGroupName e) as [[[lc lo] hi]|] eqn:Hasg.
  1: specialize (Hhi lc lo hi eq_refl).
  all: apply satisfies_Do; intros x1 a1 Hx; reply Hx; rewrite ?Hm1; cbn [orb].
  all: apply satisfies_Do; intros x2 a2 Hx; reply Hx; rewrite ?Hm1; cbn [orb].
  all: apply satisfies_Do; intros x3 a3 Hx; reply Hx; rewrite ?Hm1; cbn [orb].
  all: destruct (launchConfigurations a !! id.LaunchConfigurationName e)
         as [[size image]|] eqn:Hlc.
  all: apply satisfies_Do; intros x4 a4 Hx; reply Hx; rewrite ?Hm3; cbn [orb].
  all: apply satisfies_bind;
    (eapply satisfies_mono;
     [apply waitForAutoScalingGroupInactive_on_account;
      cbn [scalingGroups]; first [apply lookup_delete_eq | assumption]|]);
    intros o5 a5 t5 [-> ->]; cbn [bind call].
  all: destruct (decide (groupIdOf (id.SecurityGroupName e) ∈ securityGroups a)) as [Hsg|Hsg].
  all: apply satisfies_Do; intros x6 a6 Hx; reply Hx; cbn [bind call].
  all: try (apply satisfies_bind;
    (eapply satisfies_mono;
     [apply waitForSecurityGroupDeleted_on_account; exact Hsg|]);
    intros o7 a7 t7 [-> ->]; cbn [bind call clusters securityGroups ingress
                                   launchConfigurations scalingGroups]).
  all: destruct (decide (e ∈ clusters a)) as [Hcl|Hcl].
  all: apply satisfies_Do; intros x8 a8 Hx; reply Hx; rewrite ?Hm4.
  all: apply satisfies_Ret; split; [reflexivity|].
  all: unfold environmentGone;
    cbn [clusters securityGroups ingress launchConfigurations scalingGroups]; fold e.
  all: repeat split; first [apply lookup_delete_eq | assumption | set_solver].
Qed.

(** On the task provider's collaborators of the examples, Delete returns
    nil and leaves no tags of the task, whatever StopTask answers. *)
Lemma Delete_on_tasks (t : Tasks) (taskID : string) :
  satisfies tasks (aws.Delete taskID) t (fun o t' _ =>
    o = Returned None /\ taskID ∉ known t').
Proof.
  unfold aws.Delete, aws.stopTask. cbn [bind call].
  destruct (decide (taskID ∈ known t)) as [Hin|Hin].
  - apply satisfies_Do; intros x1 t1 Hx. cbn [tasks] in Hx.
    rewrite bool_decide_eq_true_2 in Hx by done. injection Hx as <- <-.
    apply satisfies_Do; intros x2 t2 Hx. cbn [tasks] in Hx.
    rewrite bool_decide_eq_true_2 in Hx by done. injection Hx as <- <-.
    cbn [aws.Validate taskHelpers aws.Task bind call].
    apply satisfies_Do; intros x3 t3 Hx. cbn [tasks] in Hx. injection Hx as <- <-.
    assert (forall b : bool, (if b then Ret None else Ret None) = (Ret None : aws.M (option error)))
      as Hif by (by intros []).
    rewrite Hif. cbn [bind call].
    apply satisfies_Do; intros x4 t4 Hx. cbn [tasks] in Hx. injection Hx as <- <-.
    apply satisfies_Ret. split; [done|]. simpl. set_solver.
  - apply satisfies_Do; intros x1 t1 Hx. cbn [tasks] in Hx.
    rewrite bool_decide_eq_false_2 in Hx by done. injection Hx as <- <-.
    by apply satisfies_Ret.
Qed.
End DeleteOnAccount.

(* ===================================================================== *)
(** * The task provider *)
(* ===================================================================== *)

Ltac no_failed_lookup H :=
  repeat (apply Exists_cons in H as [H|H]; [simpl in H; discriminate H|]);
  by apply Exists_nil in H.

Section TaskProviderFacts.
Context `{!aws.Helpers} {W : Type} (h : Handler aws.taskE W).

(** stopTask returns the error of Validate and nothing else: whatever the
    ECS API answers to StopTask, the result is nil. *)
Lemma stopTask_discards_the_reply (clusterName taskARN : string) (w : W) :
  satisfies h (aws.stopTask clusterName taskARN) w (fun o _ tr =>
    o = Returned (aws.Validate (aws.mkStopTaskInput (Some clusterName) (Some taskARN)))).
Proof.
  unfold aws.stopTask.
  destruct (aws.Validate _) as [err|]; [by apply satisfies_Ret|].
  cbn [bind call]. apply satisfies_Do; intros r w1 _.
  by destruct r as [[code message| |]|]; [destruct (Contains message _)| | |];
    apply satisfies_Ret.
Qed.

(** A failed lookup ends Delete with nil before anything is stopped or
    deleted. *)
Lemma Delete_after_failed_lookup (taskID : string) (w : W) :
  satisfies h (aws.Delete taskID) w (fun o _ tr =>
    Exists (fun ev => lookupFailed ev = true) tr ->
    o = Returned None /\ Forall (fun ev => actsOnTask ev = false) tr).
Proof.
  unfold aws.Delete, aws.stopTask. cbn [bind call].
  apply satisfies_Do; intros [environmentID [err|]] w1 _.
  { apply satisfies_Ret. intros _. split; [done|]. by repeat constructor. }
  apply satisfies_Do; intros [taskARN [err|]] w2 _.
  { apply satisfies_Ret. intros _. split; [done|]. by repeat constructor. }
  destruct (aws.Validate _) as [verr|]; cbn [bind call].
  { apply satisfies_Ret. intros Hex. exfalso. no_failed_lookup Hex. }
  apply satisfies_Do; intros r3 w3 _.
  assert (forall b : bool, (if b then Ret None else Ret None) = (Ret None : aws.M (option error)))
    as Hif by (by intros []).
  rewrite Hif. cbn [bind call].
  apply satisfies_Do; intros [e4|] w4 _;
    apply satisfies_Ret; intros Hex; exfalso; no_failed_lookup Hex.
Qed.

(** Every run of Delete has one of four shapes: a lookup failed and the
    result is nil; the input was invalid; or StopTask was called and then,
    whatever it answered, the tags were deleted, and the result of Delete
    is the result of deleting the tags. *)
Lemma Delete_runs (taskID : string) (w : W) :
  satisfies h (aws.Delete taskID) w (fun o _ tr =>
    (exists x err,
        tr = [Ev (aws.lookupEntityEnvironmentID "task" taskID) (x, Some err)]
        /\ o = Returned None) \/
    (exists environmentID x err,
        tr = [Ev (aws.lookupEntityEnvironmentID "task" taskID) (environmentID, None);
              Ev (aws.lookupTaskARN taskID) (x, Some err)]
        /\ o = Returned None) \/
    (exists environmentID taskARN,
        let input := aws.mkStopTaskInput
                       (Some (aws.addLayer0Prefix aws.Instance environmentID)) (Some taskARN) in
        let lookups := [Ev (aws.lookupEntityEnvironmentID "task" taskID) (environmentID, None);
                        Ev (aws.lookupTaskARN taskID) (taskARN, None)] in
        (exists invalid, aws.Validate input = Some invalid /\
                         tr = lookups /\ o = Returned (Some invalid)) \/
        (exists stopped deleted, aws.Validate input = None /\
           tr = lookups ++ [Ev (aws.StopTask input) stopped;
                            Ev (aws.deleteEntityTags "task" taskID) deleted]
           /\ o = Returned deleted))).
Proof.
  unfold aws.Delete, aws.stopTask. cbn [bind call].
  apply satisfies_Do; intros [environmentID [err|]] w1 _.
  { apply satisfies_Ret. left. by exists environmentID, err. }
  apply satisfies_Do; intros [taskARN [err|]] w2 _.
  { apply satisfies_Ret. right. left. by exists environmentID, taskARN, err. }
  destruct (aws.Validate _) as [verr|] eqn:Hv; cbn [bind call].
  { apply satisfies_Ret. right. right. exists environmentID, taskARN. left. by exists verr. }
  apply satisfies_Do; intros r3 w3 _.
  assert (forall b : bool, (if b then Ret None else Ret None) = (Ret None : aws.M (option error)))
    as Hif by (by intros []).
  rewrite Hif. cbn [bind call].
  apply satisfies_Do; intros r4 w4 _.
  assert (satisfies h (match r4 with Some err => Ret (Some err) | None => Ret None end) w4
            (fun o _ tr => o = Returned r4 /\ tr = [])) as Hlast
    by (destruct r4; by apply satisfies_Ret).
  eapply satisfies_mono; [exact Hlast|]. intros o w5 tr [-> ->].
  right. right. exists environmentID, taskARN. right. by exists r3, r4.
Qed.
End TaskProviderFacts.

(** C4.  StopTask fails with an error that is not "task was not found":
    Delete returns nil, and the tags of the task are deleted. *)
Theorem StopTask_error_is_dropped :
  let denied := AwsError "AccessDeniedException" "not authorized to perform ecs:StopTask" in
  let r := run account.tasks (aws.Delete "t1") (account.mkTasks {["t1"]} (Some denied)) in
  outcome r = Returned None /\
  trace r =
    [Ev (aws.lookupEntityEnvironmentID "task" "t1") ("env1", None);
     Ev (aws.lookupTaskARN "t1") ("arn:t1", None);
     Ev (aws.StopTask (aws.mkStopTaskInput (Some "l0-test-env1") (Some "arn:t1"))) (Some denied);
     Ev (aws.deleteEntityTags "task" "t1") None] /\
  account.known (final r) = ∅.
Proof. repeat split; reflexivity. Qed.

(* ===================================================================== *)
(** * Further properties of the tag store, the environment manager and
      the task provider *)
(* ===================================================================== *)

Section TagStoreMore.
Import tag.
Implicit Types (tbl : Table) (t i k v : string) (m : gmap string string).

Lemma tagsOf_insert tbl t i m : tagsOf (<[(t, i) := m]> tbl) t i = m.
Proof. unfold tagsOf. by rewrite (lookup_insert_eq tbl). Qed.

Lemma Insert_on_table tbl t i k v :
  t ≠ "" -> i ≠ "" ->
  let r := run table (Insert (models.mkTag t i k v)) tbl in
  outcome r = Returned None /\
  final r = <[(t, i) := <[k := v]> (tagsOf tbl t i)]> tbl.
Proof.
  intros Ht Hi. pose proof (validKey_true t i Ht Hi) as Hv.
  unfold Insert, tagsOf. simpl. rewrite Hv.
  destruct (tbl !! (t, i)) as [m|] eqn:Hm; simpl.
  - unfold insertKey. simpl.
    erewrite run_bind_returned by (apply run_selectByTypeAndID; done). simpl.
    rewrite Hm. simpl. rewrite Hv. done.
  - done.
Qed.

Lemma SelectByTypeAndID_on_table tbl t i :
  t ≠ "" -> i ≠ "" ->
  run table (SelectByTypeAndID t i) tbl
  = (Returned (Ok (ToTags (mkSchema t i (tagsOf tbl t i)))), tbl,
     [Ev (GetOne t i) (match tbl !! (t, i) with
                       | Some m => Ok (mkSchema t i m)
                       | None => Err ErrNotFound
                       end)]).
Proof.
  intros Ht Hi. unfold SelectByTypeAndID, tagsOf.
  erewrite run_bind_returned by (apply run_selectByTypeAndID; done).
  destruct (tbl !! (t, i)) as [m|]; simpl; [done|].
  unfold ToTags. simpl. by rewrite map_to_list_empty.
Qed.
End TagStoreMore.

(** X1.  Insert on a key that is valid returns nil; afterwards the record
    of the entity holds the tag, with the value given also when the key had
    one before, next to the entity's other tags, the records of the other
    entities are as before, and SelectByTypeAndID returns these tags. *)
Theorem Insert_sets_the_tag_and_keeps_the_others
    (tbl : tag.Table) (t i k v : string) :
  t ≠ "" -> i ≠ "" ->
  let r := run tag.table (tag.Insert (models.mkTag t i k v)) tbl in
  outcome r = Returned None /\
  final r = <[(t, i) := <[k := v]> (tagsOf tbl t i)]> tbl /\
  outcome (run tag.table (tag.SelectByTypeAndID t i) (final r))
    = Returned (Ok (tag.ToTags (tag.mkSchema t i (<[k := v]> (tagsOf tbl t i))))).
Proof.
  intros Ht Hi r. destruct (Insert_on_table tbl t i k v Ht Hi) as [Ho Hf].
  fold r in Ho, Hf. split; [exact Ho|]. split; [exact Hf|].
  rewrite Hf, SelectByTypeAndID_on_table by done.
  unfold outcome. cbn [fst]. by rewrite tagsOf_insert.
Qed.

Lemma Insert_sets_the_tag_and_keeps_the_others_witness :
  let tbl : tag.Table := {[ ("service", "svc1") := {[ "name" := "web"; "environment_id" := "env1" ]} ]} in
  let r := run tag.table (tag.Insert (models.mkTag "service" "svc1" "name" "api")) tbl in
  outcome r = Returned None /\
  final r = <[("service", "svc1") := <["name" := "api"]> (tagsOf tbl "service" "svc1")]> tbl /\
  outcome (run tag.table (tag.SelectByTypeAndID "service" "svc1") (final r))
    = Returned (Ok (tag.ToTags (tag.mkSchema "service" "svc1"
                                  (<["name" := "api"]> (tagsOf tbl "service" "svc1"))))).
Proof.
  intros tbl. apply (Insert_sets_the_tag_and_keeps_the_others tbl "service" "svc1" "name" "api");
    discriminate.
Defined.

Section TagStoreRoundTrip.
Import tag.
Implicit Types (tbl : Table) (t i k v : string) (m : gmap string string).

Lemma Delete_on_table tbl t i k m :
  t ≠ "" -> i ≠ "" -> tbl !! (t, i) = Some m -> is_Some (m !! k) ->
  let r := run table (Delete t i k) tbl in
  outcome r = Returned None /\
  final r = if decide (delete k m = ∅) then delete (t, i) tbl
            else <[(t, i) := delete k m]> tbl.
Proof.
  intros Ht Hi Hm [v0 Hk]. pose proof (validKey_true t i Ht Hi) as Hv. unfold Delete.
  erewrite run_bind_returned by (apply run_selectByTypeAndID; done).
  rewrite Hm. simpl. rewrite Hk.
  destruct (decide (delete k m = ∅)) as [He|He].
  - rewrite He, bool_decide_eq_false_2 by (rewrite map_size_empty; lia). simpl.
    by rewrite Hv.
  - rewrite bool_decide_eq_true_2.
    2:{ apply map_size_non_empty_iff in He. lia. }
    simpl. by rewrite Hv.
Qed.
End TagStoreRoundTrip.

(** X2.  Insert of a tag whose key the entity does not have, followed by
    Delete of that key, leaves the table as it was: both return nil, and a
    record that Insert created is removed again.  (A record that was stored
    with no tags at all would be removed as well, hence the premise.) *)
Theorem Insert_then_Delete_restores_the_table (tbl : tag.Table) (t i k v : string) :
  t ≠ "" -> i ≠ "" ->
  tbl !! (t, i) ≠ Some ∅ ->
  tagsOf tbl t i !! k = None ->
  let inserted := run tag.table (tag.Insert (models.mkTag t i k v)) tbl in
  let deleted := run tag.table (tag.Delete t i k) (final inserted) in
  outcome inserted = Returned None /\ outcome deleted = Returned None /\
  final deleted = tbl.
Proof.
  intros Ht Hi Hne Hk inserted deleted.
  destruct (Insert_on_table tbl t i k v Ht Hi) as [Ho Hf]. fold inserted in Ho, Hf.
  split; [exact Ho|].
  destruct (Delete_on_table (final inserted) t i k (<[k := v]> (tagsOf tbl t i)) Ht Hi)
    as [Ho' Hf'].
  { rewrite Hf. apply (lookup_insert_eq tbl). }
  { rewrite lookup_insert_eq. by eexists. }
  fold deleted in Ho', Hf'. split; [exact Ho'|].
  rewrite Hf', Hf, delete_insert_eq, (delete_id _ _ Hk).
  unfold tagsOf in *. destruct (tbl !! (t, i)) as [m|] eqn:Hm; simpl in *.
  - rewrite decide_False by congruence.
    rewrite (insert_insert_eq tbl). by apply insert_id.
  - rewrite decide_True by done. rewrite (delete_insert_eq tbl). by apply delete_id.
Qed.

Lemma Insert_then_Delete_restores_the_table_witness :
  let tbl : tag.Table := {[ ("service", "svc1") := {[ "name" := "web" ]} ]} in
  let inserted := run tag.table (tag.Insert (models.mkTag "service" "svc1" "load_balancer_id" "lb1")) tbl in
  let deleted := run tag.table (tag.Delete "service" "svc1" "load_balancer_id") (final inserted) in
  outcome inserted = Returned None /\ outcome deleted = Returned None /\
  final deleted = tbl.
Proof.
  intros tbl.
  apply (Insert_then_Delete_restores_the_table tbl "service" "svc1" "load_balancer_id" "lb1").
  - discriminate.
  - discriminate.
  - vm_compute. discriminate.
  - vm_compute. reflexivity.
Defined.

Section TagStoreScans.
Import tag.
Implicit Types (tbl : Table) (t i k v : string) (m : gmap string string).

Lemma lookup_foldr_delete (tbl0 : gmap (string * string) (gmap string string))
    (keys : list (string * string)) (key : string * string) :
  foldr delete tbl0 keys !! key = if decide (key ∈ keys) then None else tbl0 !! key.
Proof.
  induction keys as [|k0 keys IH]; cbn [foldr].
  - rewrite decide_False; [done|]. apply not_elem_of_nil.
  - destruct (decide (k0 = key)) as [->|Hne].
    + rewrite decide_True by left. apply lookup_delete_eq.
    + rewrite lookup_delete_ne by done. rewrite IH.
      destruct (decide (key ∈ keys)) as [Hin|Hin].
      * rewrite decide_True; [done|]. by right.
      * rewrite decide_False; [done|]. intros [->|?]%elem_of_cons; done.
Qed.

Lemma keysOf_items tbl : keysOf (items tbl) = (map_to_list tbl).*1.
Proof. unfold keysOf, items. rewrite <- list_fmap_compose. by apply list_fmap_ext; intros ? [[] ?]. Qed.

Lemma Clear_on_table tbl :
  run table Clear tbl
  = (Returned None, ∅,
     [Ev (ScanAll false) (Ok (items tbl)); Ev (BatchWriteDelete (keysOf (items tbl))) None]).
Proof.
  unfold Clear. simpl. f_equal. f_equal.
  apply map_eq; intros key. rewrite lookup_foldr_delete.
  transitivity (@None (gmap string string)); [|symmetry; apply lookup_empty].
  destruct (decide (key ∈ keysOf (items tbl))) as [Hin|Hin]; [done|].
  destruct (tbl !! key) as [m|] eqn:Hm; [|done]. exfalso. apply Hin.
  rewrite keysOf_items. apply list_elem_of_fmap. exists (key, m). split; [done|].
  by apply elem_of_map_to_list.
Qed.
End TagStoreScans.

(** X3.  Clear scans the table and, when the scan succeeds, sends one batch
    delete with the keys of all the records scanned and returns its result;
    when the scan fails it returns that error and deletes nothing.  On the
    table this leaves no record, and SelectAll then returns no tag. *)
Theorem Clear_removes_every_record :
  (forall (W : Type) (h : Handler tag.tableE W) (w : W),
     let r := run h tag.Clear w in
     (exists err, trace r = [Ev (tag.ScanAll false) (Err err)] /\ outcome r = Returned (Some err)) \/
     (exists schemas reply,
        trace r = [Ev (tag.ScanAll false) (Ok schemas);
                   Ev (tag.BatchWriteDelete (tag.keysOf schemas)) reply] /\
        outcome r = Returned reply)) /\
  (forall tbl : tag.Table,
     let r := run tag.table tag.Clear tbl in
     outcome r = Returned None /\ final r = ∅ /\
     outcome (run tag.table tag.SelectAll (final r)) = Returned (Ok [])).
Proof.
  split.
  - intros W h w. unfold tag.Clear. simpl.
    destruct (h _ (tag.ScanAll false) w) as [[schemas|err] w1]; simpl.
    + right. destruct (h _ (tag.BatchWriteDelete (tag.keysOf schemas)) w1) as [reply w2].
      by exists schemas, reply.
    + left. by exists err.
  - intros tbl r. subst r. rewrite Clear_on_table. by repeat split.
Qed.

Section TagStoreSelects.
Import tag.
Implicit Types (tbl : Table) (t i k v : string) (m : gmap string string).

Lemma SelectAll_on_table tbl :
  outcome (run table SelectAll tbl) = Returned (Ok (concatTags (items tbl))).
Proof. reflexivity. Qed.

Lemma SelectByType_on_table tbl t :
  outcome (run table (SelectByType t) tbl)
  = Returned (Ok (concatTags (filter (fun s => EntityType s = t) (items tbl)))).
Proof. reflexivity. Qed.

Lemma ToTags_type (s : DynamoTagSchema) (tg : models.Tag) :
  tg ∈ ToTags s -> models.EntityType tg = EntityType s /\ models.EntityID tg = EntityID s.
Proof.
  unfold ToTags. intros ([k v] & -> & _)%list_elem_of_fmap. done.
Qed.

Lemma filter_keeps_all {A : Type} (P : A -> Prop) `{!forall a, Decision (P a)} (l : list A) :
  Forall P l -> filter P l = l.
Proof.
  induction 1 as [|a l Ha _ IH]; [done|].
  rewrite filter_cons, decide_True by done. by rewrite IH.
Qed.

Lemma filter_drops_all {A : Type} (P : A -> Prop) `{!forall a, Decision (P a)} (l : list A) :
  Forall (fun a => ~ P a) l -> filter P l = [].
Proof.
  induction 1 as [|a l Ha _ IH]; [done|].
  by rewrite filter_cons, decide_False.
Qed.

Lemma filter_concatTags (P : DynamoTagSchema -> Prop) (Q : models.Tag -> Prop)
    `{!forall s, Decision (P s)} `{!forall tg, Decision (Q tg)} (l : list DynamoTagSchema) :
  (forall s tg, tg ∈ ToTags s -> (Q tg <-> P s)) ->
  filter Q (concatTags l : list models.Tag) = concatTags (filter P l).
Proof.
  intros HPQ. unfold concatTags. induction l as [|s l IH]; [done|].
  rewrite fmap_cons. cbn [concat]. rewrite filter_app, IH, filter_cons.
  destruct (decide (P s)) as [Hs|Hs].
  - rewrite fmap_cons. cbn [concat]. f_equal. apply filter_keeps_all.
    apply Forall_forall. intros tg Htg. by apply (HPQ s).
  - rewrite filter_drops_all; [done|].
    apply Forall_forall. intros tg Htg. by rewrite (HPQ s).
Qed.

Lemma elem_of_concatTags tbl (tg : models.Tag) :
  tg ∈ concatTags (items tbl) <-> stored tbl tg.
Proof.
  unfold concatTags, items, stored, tagsOf. rewrite list_elem_of_In, in_concat.
  setoid_rewrite <- list_elem_of_In. split.
  - intros (tags & (s & -> & ([[t i] m] & -> & Hin)%list_elem_of_fmap)%list_elem_of_fmap & Htg).
    apply elem_of_map_to_list in Hin. cbn [fst snd] in Htg.
    unfold ToTags in Htg. apply list_elem_of_fmap in Htg as ([k v] & -> & Hkv).
    cbn [models.EntityType models.EntityID models.Key models.Value
         EntityType EntityID Tags fst snd] in *.
    apply elem_of_map_to_list in Hkv.
    by replace (tbl !! (t, i)) with (Some m) by (symmetry; exact Hin).
  - destruct tg as [t i k v].
    cbn [models.EntityType models.EntityID models.Key models.Value]. intros Hkv.
    destruct (tbl !! (t, i)) as [m|] eqn:Hm; cbv [from_option id] in Hkv;
      [|by rewrite lookup_empty in Hkv].
    exists (ToTags (mkSchema t i m)). split.
    + apply list_elem_of_fmap. exists (mkSchema t i m). split; [done|].
      apply list_elem_of_fmap. exists ((t, i), m). split; [done|].
      by apply elem_of_map_to_list.
    + by apply elem_of_ToTags.
Qed.

Lemma filter_items_one (l : list ((string * string) * gmap string string)) t i :
  NoDup l.*1 ->
  filter (fun s => EntityType s = t /\ EntityID s = i)
         ((fun kv => mkSchema kv.1.1 kv.1.2 kv.2) <$> l)
  = match (list_to_map l : gmap (string * string) (gmap string string)) !! (t, i) with
    | Some m => [mkSchema t i m]
    | None => []
    end.
Proof.
  induction l as [|[[t0 i0] m0] l IH]; intros Hnd.
  - reflexivity.
  - rewrite fmap_cons in Hnd. apply NoDup_cons in Hnd as [Hk Hnd].
    rewrite fmap_cons, filter_cons. cbn [fst snd EntityType EntityID list_to_map foldr].
    rewrite IH by done.
    destruct (decide (t0 = t /\ i0 = i)) as [[-> ->]|Hne].
    + rewrite lookup_insert_eq. by rewrite (not_elem_of_list_to_map_1 l (t, i)).
    + rewrite lookup_insert_ne; [done|]. intros [= -> ->]. by apply Hne.
Qed.

Lemma SelectByTypeAndID_filter tbl t i :
  filter (fun tg => models.EntityType tg = t /\ models.EntityID tg = i)
         (concatTags (items tbl) : list models.Tag)
  = ToTags (mkSchema t i (tagsOf tbl t i)).
Proof.
  rewrite (filter_concatTags (fun s => EntityType s = t /\ EntityID s = i)
             (fun tg => models.EntityType tg = t /\ models.EntityID tg = i) (items tbl)).
  2:{ intros s tg (Ht & Hi)%ToTags_type. by rewrite Ht, Hi. }
  unfold items, tagsOf, Table in *.
  rewrite filter_items_one by apply NoDup_fst_map_to_list.
  rewrite list_to_map_to_list.
  destruct (tbl !! (t, i)) as [m|]; cbn.
  - apply app_nil_r.
  - unfold ToTags. cbn. by rewrite map_to_list_empty.
Qed.
End TagStoreSelects.

(** X4.  On the table the three selects agree: SelectAll returns the tags
    stored, SelectByType those of them with the entity type asked for, and
    SelectByTypeAndID those with the entity type and ID asked for (up to
    the order of the tags). *)
Theorem selects_agree (tbl : tag.Table) (t i : string) :
  t ≠ "" -> i ≠ "" ->
  exists all byType byID : list models.Tag,
    outcome (run tag.table tag.SelectAll tbl) = Returned (Ok all) /\
    outcome (run tag.table (tag.SelectByType t) tbl) = Returned (Ok byType) /\
    outcome (run tag.table (tag.SelectByTypeAndID t i) tbl) = Returned (Ok byID) /\
    (forall tg, tg ∈ all <-> stored tbl tg) /\
    byType ≡ₚ filter (fun tg => models.EntityType tg = t) all /\
    byID ≡ₚ filter (fun tg => models.EntityType tg = t /\ models.EntityID tg = i) all.
Proof.
  intros Ht Hi. eexists _, _, _.
  split; [apply SelectAll_on_table|]. split; [apply SelectByType_on_table|].
  split; [by rewrite SelectByTypeAndID_on_table|].
  split; [apply elem_of_concatTags|]. split.
  - rewrite (filter_concatTags (fun s => tag.EntityType s = t)
               (fun tg => models.EntityType tg = t) (tag.items tbl)); [done|].
    intros s tg (Hty & _)%ToTags_type. by rewrite Hty.
  - by rewrite SelectByTypeAndID_filter.
Qed.

Lemma selects_agree_witness :
  let tbl : tag.Table :=
    {[ ("service", "svc1") := {[ "name" := "web"; "environment_id" := "env1" ]};
       ("service", "svc2") := {[ "name" := "api" ]};
       ("task", "t1") := {[ "name" := "job" ]} ]} in
  exists all byType byID : list models.Tag,
    outcome (run tag.table tag.SelectAll tbl) = Returned (Ok all) /\
    outcome (run tag.table (tag.SelectByType "service") tbl) = Returned (Ok byType) /\
    outcome (run tag.table (tag.SelectByTypeAndID "service" "svc1") tbl) = Returned (Ok byID) /\
    (forall tg, tg ∈ all <-> stored tbl tg) /\
    byType ≡ₚ filter (fun tg => models.EntityType tg = "service") all /\
    byID ≡ₚ filter (fun tg => models.EntityType tg = "service" /\ models.EntityID tg = "svc1") all.
Proof.
  intros tbl. apply (selects_agree tbl "service" "svc1"); discriminate.
Defined.



(** X6.  ToTags returns one tag for each key of the schema's map and no
    other: each tag carries the schema's entity type and ID, a key of the
    map and the value at that key, and no key occurs twice. *)
Theorem ToTags_has_one_tag_per_key (s : tag.DynamoTagSchema) :
  length (tag.ToTags s) = size (tag.Tags s) /\
  NoDup (models.Key <$> tag.ToTags s) /\
  forall tg : models.Tag,
    tg ∈ tag.ToTags s <->
    models.EntityType tg = tag.EntityType s /\ models.EntityID tg = tag.EntityID s /\
    tag.Tags s !! models.Key tg = Some (models.Value tg).
Proof.
  destruct s as [t i m]. split; [|split].
  - unfold tag.ToTags. by rewrite length_fmap, length_map_to_list.
  - rewrite keys_ToTags. apply NoDup_fst_map_to_list.
  - intros [t' i' k v]. cbn [models.EntityType models.EntityID models.Key models.Value
                             tag.EntityType tag.EntityID tag.Tags]. split.
    + intros Hin. destruct (ToTags_type _ _ Hin) as [Ht Hi]. cbn in Ht, Hi. subst t' i'.
      split; [done|]. split; [done|]. exact (proj1 (elem_of_ToTags t i m k v) Hin).
    + intros (-> & -> & Hk). exact (proj2 (elem_of_ToTags t i m k v) Hk).
Qed.

(** X7.  Every run of Insert: the conditional put is accepted and nothing
    else is sent; or it fails with an error other than
    ConditionalCheckFailedException, which is returned as it is; or the
    record exists, and then the record is read and, only if the read
    succeeds, updated with the tags read and the new tag set, the result
    being that of the last request. *)
Theorem Insert_updates_only_after_a_conflict
    {W : Type} (h : Handler tag.tableE W) (w : W) (t i k v : string) :
  let put := tag.PutIfNotExists (tag.mkSchema t i {[ k := v ]}) in
  let r := run h (tag.Insert (models.mkTag t i k v)) w in
  (trace r = [Ev put None] /\ outcome r = Returned None) \/
  (exists err, conflict err = false /\
     trace r = [Ev put (Some err)] /\ outcome r = Returned (Some err)) \/
  (exists busy, conflict busy = true /\
     ((exists err, (t = "" \/ i = "") /\
         trace r = [Ev put (Some busy)] /\ outcome r = Returned (Some err)) \/
      (exists err,
         trace r = [Ev put (Some busy); Ev (tag.GetOne t i) (Err err)] /\
         outcome r = Returned (Some err)) \/
      (exists found reply,
         trace r = [Ev put (Some busy); Ev (tag.GetOne t i) (Ok found);
                    Ev (tag.UpdateSetTags t i (<[k := v]> (tag.Tags found))) reply] /\
         outcome r = Returned reply))).
Proof.
  intros put r. subst r.
  enough (satisfies h (tag.Insert (models.mkTag t i k v)) w
           (fun o _ tr =>
              (tr = [Ev put None] /\ o = Returned None) \/
              (exists err, conflict err = false /\
                 tr = [Ev put (Some err)] /\ o = Returned (Some err)) \/
              (exists busy, conflict busy = true /\
                 ((exists err, (t = "" \/ i = "") /\
                     tr = [Ev put (Some busy)] /\ o = Returned (Some err)) \/
                  (exists err,
                     tr = [Ev put (Some busy); Ev (tag.GetOne t i) (Err err)] /\
                     o = Returned (Some err)) \/
                  (exists found reply,
                     tr = [Ev put (Some busy); Ev (tag.GetOne t i) (Ok found);
                           Ev (tag.UpdateSetTags t i (<[k := v]> (tag.Tags found))) reply] /\
                     o = Returned reply))))) as Hruns by exact Hruns.
  unfold tag.Insert.
  cbn [bind call models.EntityType models.EntityID models.Key models.Value]. fold put.
  apply satisfies_Do; intros [err|] w1 _; [|apply satisfies_Ret; by left].
  destruct (conflict err) eqn:Hc.
  - destruct err as [code message| |]; try discriminate Hc. cbn in Hc. rewrite Hc.
    apply bool_decide_eq_true in Hc as ->.
    unfold tag.insertKey, tag.selectByTypeAndID.
    cbn [bind call models.EntityType models.EntityID models.Key models.Value].
    case_bool_decide.
    { apply satisfies_Ret. right. right. exists (AwsError "ConditionalCheckFailedException" message).
      split; [reflexivity|].
      left. eexists. split; [by left|done]. }
    case_bool_decide.
    { apply satisfies_Ret. right. right. exists (AwsError "ConditionalCheckFailedException" message).
      split; [reflexivity|].
      left. eexists. split; [by right|done]. }
    cbn [bind call]. apply satisfies_Do; intros [found|e] w2 _; cbn [bind call].
    + apply satisfies_Do; intros reply w3 _. apply satisfies_Ret.
      right. right. exists (AwsError "ConditionalCheckFailedException" message).
      split; [reflexivity|]. right. right. by exists found, reply.
    + apply satisfies_Ret. right. right. exists (AwsError "ConditionalCheckFailedException" message).
      split; [reflexivity|]. right. left. by exists e.
  - assert (satisfies h
              match err with
              | AwsError code message =>
                  if bool_decide (code = "ConditionalCheckFailedException")
                  then tag.insertKey (models.mkTag t i k v)
                  else Ret (Some (AwsError code message))
              | _ => Ret (Some err)
              end w1 (fun o _ tr => o = Returned (Some err) /\ tr = [])) as Hlast.
    { destruct err as [code message| |]; [|by apply satisfies_Ret..].
      cbn in Hc. rewrite Hc. by apply satisfies_Ret. }
    eapply satisfies_mono; [exact Hlast|]. intros o w2 tr [-> ->].
    right. left. by exists err.
Qed.

Section EnvironmentReads.
Import ecsbackend.
Context `{!id.Codec} `{!ecsbackend.Helpers}.
Context {W : Type} (h : Handler awsE W).

(** populateModel only describes, at most three times, and the model it
    returns is made of what was described. *)
Lemma populateModel_reads (cluster : ecs.Cluster) (w : W) :
  satisfies h (populateModel (Some cluster)) w (fun o _ tr =>
    Forall (fun ev => isDescribe ev = true) tr /\ (length tr <= 3)%nat /\
    firstReply describedCluster tr = None /\
    forall model, o = Returned (Ok model) ->
      model = models.mkEnvironment
        (id.L0EnvironmentID (ecs.ClusterName cluster)) ""
        match firstReply describedGroup tr with
        | Some group => Z.of_nat (length (autoscaling.Instances group))
        | None => 0
        end
        match firstReply describedLaunchConfiguration tr with
        | Some launchConfig => autoscaling.InstanceType launchConfig
        | None => ""
        end
        match firstReply describedSecurityGroup tr with
        | Some securityGroup => pstring (ec2.GroupId securityGroup)
        | None => ""
        end
        ""
        match firstReply describedLaunchConfiguration tr with
        | Some launchConfig => autoscaling.ImageId launchConfig
        | None => ""
        end
        []).
Proof.
  unfold populateModel. cbv zeta. unfold describeAutoscalingGroup. cbn [bind call].
  apply satisfies_Do; intros [asg [e1|]] w1 _; cbn [bind call].
  - destruct (ContainsErrMsg e1 "not found").
    + apply satisfies_Do; intros [sg [e3|]] w3 _; apply satisfies_Ret;
        (split; [by repeat constructor|]); (split; [simpl; lia|]); (split; [done|]);
        intros model [=]; subst model. by destruct sg.
    + apply satisfies_Ret. split; [by repeat constructor|]. split; [simpl; lia|].
      split; [done|]. intros model [=].
  - destruct asg as [asg|].
    2:{ apply satisfies_Do; intros [sg [e3|]] w3 _; apply satisfies_Ret;
        (split; [by repeat constructor|]); (split; [simpl; lia|]); (split; [done|]);
        intros model [=]; subst model. by destruct sg. }
    destruct (autoscaling.LaunchConfigurationName asg) as [name|].
    2:{ apply satisfies_Do; intros [sg [e3|]] w3 _; apply satisfies_Ret;
        (split; [by repeat constructor|]); (split; [simpl; lia|]); (split; [done|]);
        intros model [=]; subst model. by destruct sg. }
    apply satisfies_Do; intros [launchConfig [e2|]] w2 _.
    + destruct (ContainsErrMsg e2 "not found").
      * destruct launchConfig;
          (apply satisfies_Do; intros [sg [e3|]] w3 _; apply satisfies_Ret;
           (split; [by repeat constructor|]); (split; [simpl; lia|]); (split; [done|]);
           intros model [=]; subst model; by destruct sg).
      * apply satisfies_Ret. split; [by repeat constructor|]. split; [simpl; lia|].
        split; [done|]. intros model [=].
    + destruct launchConfig;
        (apply satisfies_Do; intros [sg [e3|]] w3 _; apply satisfies_Ret;
         (split; [by repeat constructor|]); (split; [simpl; lia|]); (split; [done|]);
         intros model [=]; subst model; by destruct sg).
Qed.
End EnvironmentReads.

Section EnvironmentReadsMore.
Import ecsbackend.
Context `{!id.Codec} `{!ecsbackend.Helpers}.
Context {W : Type} (h : Handler awsE W).

Lemma GetEnvironment_reads (environmentID : string) (w : W) :
  satisfies h (GetEnvironment environmentID) w (fun o _ tr =>
    Forall (fun ev => isDescribe ev = true) tr /\ (length tr <= 4)%nat /\
    forall model, o = Returned (Ok model) ->
      exists cluster,
        firstReply describedCluster tr = Some cluster /\
        model = models.mkEnvironment
          (id.L0EnvironmentID (ecs.ClusterName cluster)) ""
          match firstReply describedGroup tr with
          | Some group => Z.of_nat (length (autoscaling.Instances group))
          | None => 0
          end
          match firstReply describedLaunchConfiguration tr with
          | Some launchConfig => autoscaling.InstanceType launchConfig
          | None => ""
          end
          match firstReply describedSecurityGroup tr with
          | Some securityGroup => pstring (ec2.GroupId securityGroup)
          | None => ""
          end
          ""
          match firstReply describedLaunchConfiguration tr with
          | Some launchConfig => autoscaling.ImageId launchConfig
          | None => ""
          end
          []).
Proof.
  unfold GetEnvironment. cbv zeta. cbn [bind call].
  apply satisfies_Do; intros [cluster [e1|]] w1 _.
  - destruct (_ || _); apply satisfies_Ret; (split; [by repeat constructor|]);
      (split; [simpl; lia|]); intros model [=].
  - destruct cluster as [cluster|].
    + eapply satisfies_mono; [apply populateModel_reads|].
      intros o w2 tr (Hall & Hlen & Hnone & Hmodel).
      split; [by constructor|]. split; [simpl; lia|].
      intros model Ho. exists cluster. split; [done|]. by apply Hmodel.
    + apply satisfies_Panic. split; [by repeat constructor|]. split; [simpl; lia|].
      intros model [=].
Qed.
End EnvironmentReadsMore.

(** X8.  GetEnvironment and ListEnvironments only describe: no call they
    make creates, changes or removes anything.  GetEnvironment makes at
    most four calls, ListEnvironments exactly one, however many clusters
    are listed. *)
Theorem reads_only_describe `{!id.Codec} `{!ecsbackend.Helpers}
    {W : Type} (h : Handler ecsbackend.awsE W) (w : W) :
  (forall environmentID : string,
     let r := run h (ecsbackend.GetEnvironment environmentID) w in
     Forall (fun ev => isDescribe ev = true) (trace r) /\ (length (trace r) <= 4)%nat) /\
  (exists reply, trace (run h ecsbackend.ListEnvironments w)
                 = [Ev ecsbackend.Helper_DescribeClusters reply]).
Proof.
  split.
  - intros environmentID r. destruct (GetEnvironment_reads h environmentID w) as (Hall & Hlen & _).
    by split.
  - unfold ecsbackend.ListEnvironments. cbn.
    destruct (h _ ecsbackend.Helper_DescribeClusters w) as [[clusters [err|]] w1];
      by eexists.
Qed.

(** X9.  A model that GetEnvironment returns is made of what the provider
    described in that call: the ID is the logical ID of the cluster's name,
    ClusterCount is the number of instances of the scaling group,
    InstanceSize and AMIID are those of the group's launch configuration,
    SecurityGroupID is the ID of the security group; what was not found
    (the scaling group, the launch configuration, the security group)
    leaves its fields zero or empty. *)
Theorem GetEnvironment_reports_what_was_described `{!id.Codec} `{!ecsbackend.Helpers}
    {W : Type} (h : Handler ecsbackend.awsE W) (w : W) (environmentID : string)
    (model : models.Environment) :
  let r := run h (ecsbackend.GetEnvironment environmentID) w in
  outcome r = Returned (Ok model) ->
  exists cluster,
    firstReply describedCluster (trace r) = Some cluster /\
    model = models.mkEnvironment
      (id.L0EnvironmentID (ecs.ClusterName cluster)) ""
      match firstReply describedGroup (trace r) with
      | Some group => Z.of_nat (length (autoscaling.Instances group))
      | None => 0
      end
      match firstReply describedLaunchConfiguration (trace r) with
      | Some launchConfig => autoscaling.InstanceType launchConfig
      | None => ""
      end
      match firstReply describedSecurityGroup (trace r) with
      | Some securityGroup => ecsbackend.pstring (ec2.GroupId securityGroup)
      | None => ""
      end
      ""
      match firstReply describedLaunchConfiguration (trace r) with
      | Some launchConfig => autoscaling.ImageId launchConfig
      | None => ""
      end
      [].
Proof.
  intros r Ho. destruct (GetEnvironment_reads h environmentID w) as (_ & _ & Hmodel).
  by apply Hmodel.
Qed.

Lemma GetEnvironment_reports_what_was_described_witness :
  let r := run account.handler (ecsbackend.GetEnvironment account.prodID) account.prod in
  exists cluster,
    firstReply describedCluster (trace r) = Some cluster /\
    models.mkEnvironment account.prodID "" 2 "m3.medium" "sg-l0-test-prod1a2b3-env" ""
      "ami-linux" []
    = models.mkEnvironment
      (id.L0EnvironmentID (ecs.ClusterName cluster)) ""
      match firstReply describedGroup (trace r) with
      | Some group => Z.of_nat (length (autoscaling.Instances group))
      | None => 0
      end
      match firstReply describedLaunchConfiguration (trace r) with
      | Some launchConfig => autoscaling.InstanceType launchConfig
      | None => ""
      end
      match firstReply describedSecurityGroup (trace r) with
      | Some securityGroup => ecsbackend.pstring (ec2.GroupId securityGroup)
      | None => ""
      end
      ""
      match firstReply describedLaunchConfiguration (trace r) with
      | Some launchConfig => autoscaling.ImageId launchConfig
      | None => ""
      end
      [].
Proof.
  intros r.
  apply (GetEnvironment_reports_what_was_described account.handler account.prod account.prodID).
  vm_compute. reflexivity.
Defined.

(** X10.  When DescribeCluster fails, GetEnvironment makes no further call;
    an error with the code ClusterNotFoundException or the message "cluster
    not found" is replaced by the error InvalidEnvironmentID whose message
    names the logical ID asked for, any other error is returned as it is.
    UpdateEnvironment then fails in the same way, before any call that
    changes the scaling group. *)
Theorem missing_cluster_is_an_invalid_environment `{!id.Codec} `{!ecsbackend.Helpers}
    {W : Type} (h : Handler ecsbackend.awsE W) (w w1 : W) (environmentID : string)
    (cluster : option ecs.Cluster) (err : error) (minClusterCount : Z) :
  let describe := ecsbackend.DescribeCluster (id.ECSEnvironmentID environmentID) in
  h _ describe w = ((cluster, Some err), w1) ->
  let failure :=
    if ecsbackend.ContainsErrCode err "ClusterNotFoundException"
       || ecsbackend.ContainsErrMsg err "cluster not found"
    then ServerError InvalidEnvironmentID
           ("Environment with id '" +:+ environmentID +:+ "' was not found")
    else err in
  run h (ecsbackend.GetEnvironment environmentID) w
    = (Returned (Err failure), w1, [Ev describe (cluster, Some err)]) /\
  run h (ecsbackend.UpdateEnvironment environmentID minClusterCount) w
    = (Returned (Err failure), w1, [Ev describe (cluster, Some err)]).
Proof.
  intros describe Hh failure.
  assert (run h (ecsbackend.GetEnvironment environmentID) w
          = (Returned (Err failure), w1, [Ev describe (cluster, Some err)])) as Hget.
  { unfold ecsbackend.GetEnvironment. cbv zeta. cbn [bind call run]. fold describe.
    rewrite Hh. subst failure.
    by destruct (_ || _). }
  split; [exact Hget|].
  unfold ecsbackend.UpdateEnvironment.
  by rewrite (run_bind_returned _ _ _ _ _ _ _ Hget).
Qed.

Lemma missing_cluster_is_an_invalid_environment_witness :
  let describe := ecsbackend.DescribeCluster "l0-test-ghost" in
  let failure := ServerError InvalidEnvironmentID "Environment with id 'ghost' was not found" in
  run account.handler (ecsbackend.GetEnvironment "ghost") account.prod
    = (Returned (Err failure), account.prod, [Ev describe (None, Some account.clusterMissing)]) /\
  run account.handler (ecsbackend.UpdateEnvironment "ghost" 3) account.prod
    = (Returned (Err failure), account.prod, [Ev describe (None, Some account.clusterMissing)]).
Proof.
  assert (account.handler _ (ecsbackend.DescribeCluster (id.ECSEnvironmentID "ghost"))
            account.prod = ((None, Some account.clusterMissing), account.prod)) as Hreply.
  { vm_compute. reflexivity. }
  exact (missing_cluster_is_an_invalid_environment account.handler account.prod account.prod
           "ghost" None account.clusterMissing 3 Hreply).
Defined.

Ltac no_missing_group H :=
  repeat (apply Exists_cons in H as [H|H]; [cbn in H; discriminate H|]);
  by apply Exists_nil in H.



Section ReadsOnAccount.
Import account.
Context `{!id.Codec}.

(** On the account populateModel succeeds and changes nothing. *)
Lemma populateModel_on_account (a : Account) (cluster : ecs.Cluster) :
  satisfies handler (@ecsbackend.populateModel _ helpers (Some cluster)) a (fun o a' _ =>
    a' = a /\
    exists model, o = Returned (Ok model) /\
      models.EnvironmentID model = id.L0EnvironmentID (ecs.ClusterName cluster)).
Proof.
  unfold ecsbackend.populateModel. cbv zeta. unfold ecsbackend.describeAutoscalingGroup.
  cbn [bind call].
  destruct missing_is_tolerated as (_ & Hm2 & _ & _).
  assert (@ecsbackend.ContainsErrMsg helpers lcMissing "not found" = true) as Hm5 by done.
  set (e := ecs.ClusterName cluster).
  destruct (scalingGroups a !! id.AutoScalingGroupName e) as [[[lc lo] hi]|] eqn:Hasg.
  all: apply satisfies_Do; intros x1 a1 Hx; reply Hx; rewrite ?Hm2; cbn [bind call].
  1: cbn [autoscaling.LaunchConfigurationName];
     destruct (launchConfigurations a !! lc) as [[size image]|] eqn:Hlc;
     apply satisfies_Do; intros x2 a2 Hx; reply Hx; rewrite ?Hm5; cbn [bind call].
  all: destruct (decide (groupIdOf (id.SecurityGroupName e) ∈ securityGroups a)) as [Hsg|Hsg].
  all: apply satisfies_Do; intros x3 a3 Hx; reply Hx.
  all: apply satisfies_Ret; split; [reflexivity|]; by eexists.
Qed.

Lemma GetEnvironment_on_account (a : Account) (environmentID : string) :
  id.ECSEnvironmentID environmentID ∈ clusters a ->
  satisfies handler (@ecsbackend.GetEnvironment _ helpers environmentID) a (fun o a' _ =>
    a' = a /\
    exists model, o = Returned (Ok model) /\
      models.EnvironmentID model = id.L0EnvironmentID (id.ECSEnvironmentID environmentID)).
Proof.
  intros Hcl. unfold ecsbackend.GetEnvironment. cbv zeta. cbn [bind call].
  apply satisfies_Do; intros x1 a1 Hx; reply Hx.
  apply populateModel_on_account.
Qed.

Lemma UpdateEnvironment_on_account (a : Account) (environmentID lc : string) (lo hi n : Z) :
  let e := id.ECSEnvironmentID environmentID in
  id.ECSEnvironmentID (id.L0EnvironmentID e) = e ->
  e ∈ clusters a ->
  scalingGroups a !! id.AutoScalingGroupName e = Some (lc, lo, hi) ->
  (lo <= hi)%Z -> (0 <= n)%Z ->
  satisfies handler (@ecsbackend.UpdateEnvironment _ helpers environmentID n) a (fun o a' _ =>
    (exists model, o = Returned (Ok model)) /\
    a' = withBounds a (id.AutoScalingGroupName e) lc n (Z.max hi n)).
Proof.
  intros e Hround Hcl Hasg Hlohi Hn. unfold ecsbackend.UpdateEnvironment.
  apply satisfies_bind.
  eapply satisfies_mono; [by apply GetEnvironment_on_account|].
  intros o a1 t1 (-> & model & -> & Hid).
  unfold ecsbackend.updateEnvironmentMinCount, ecsbackend.describeAutoscalingGroup.
  cbv zeta. rewrite Hid. fold e. rewrite Hround. cbn [bind call].
  apply satisfies_Do; intros x1 a1 Hx; reply Hx. cbn [bind call autoscaling.MaxSize].
  case_bool_decide as Hmax; cbn [bind call].
  - apply satisfies_Do; intros x2 a2 Hx; reply Hx. cbn [bind call].
    apply satisfies_Do; intros x3 a3 Hx; reply Hx.
    apply satisfies_Ret. split; [by eexists|].
    unfold withBounds. cbn [clusters securityGroups ingress launchConfigurations scalingGroups].
    rewrite insert_insert_eq. by rewrite Z.max_r by lia.
  - apply satisfies_Do; intros x3 a3 Hx; reply Hx.
    apply satisfies_Ret. split; [by eexists|].
    unfold withBounds. by rewrite Z.max_l by lia.
Qed.
End ReadsOnAccount.

(** X12.  On the account, for an environment whose cluster and scaling
    group exist and a new minimum that is not negative, UpdateEnvironment
    succeeds, sets the minimum of the group to the new value and raises
    the maximum to it when the maximum was lower; the maximum is never
    lowered and nothing else on the account changes.  (The group is found
    through the logical ID of the model, so the codec has to map that ID
    back to the name of the cluster.) *)
Theorem UpdateEnvironment_sets_the_minimum `{!id.Codec}
    (a : account.Account) (environmentID lc : string) (lo hi n : Z) :
  let e := id.ECSEnvironmentID environmentID in
  id.ECSEnvironmentID (id.L0EnvironmentID e) = e ->
  e ∈ account.clusters a ->
  account.scalingGroups a !! id.AutoScalingGroupName e = Some (lc, lo, hi) ->
  (lo <= hi)%Z -> (0 <= n)%Z ->
  let r := run account.handler
             (@ecsbackend.UpdateEnvironment _ account.helpers environmentID n) a in
  (exists model, outcome r = Returned (Ok model)) /\
  final r = account.withBounds a (id.AutoScalingGroupName e) lc n (Z.max hi n).
Proof.
  intros e Hround Hcl Hasg Hlohi Hn.
  exact (UpdateEnvironment_on_account a environmentID lc lo hi n Hround Hcl Hasg Hlohi Hn).
Qed.

Lemma UpdateEnvironment_sets_the_minimum_witness :
  let r := run account.handler (ecsbackend.UpdateEnvironment account.prodID 5) account.prod in
  (exists model, outcome r = Returned (Ok model)) /\
  final r = account.withBounds account.prod "l0-test-prod1a2b3" "l0-test-prod1a2b3" 5 5.
Proof.
  assert (id.ECSEnvironmentID account.prodID ∈ account.clusters account.prod) as Hcl.
  { apply (bool_decide_unpack _). vm_compute. exact I. }
  assert (account.scalingGroups account.prod
            !! id.AutoScalingGroupName (id.ECSEnvironmentID account.prodID)
          = Some ("l0-test-prod1a2b3", 2, 2)%Z) as Hasg.
  { vm_compute. reflexivity. }
  exact (UpdateEnvironment_sets_the_minimum account.prod account.prodID "l0-test-prod1a2b3"
           2 2 5 eq_refl Hcl Hasg ltac:(lia) ltac:(lia)).
Defined.

Section WaitSleeps.
Import ecsbackend.
Context {X : Type} (e : awsE X) (check : X -> option (bool * option error)).
Hypothesis provider_call : forall x, isSleep (Ev e x) = false.

Lemma isSleep_false_slept (x : X) (tr : list (Event awsE)) : slept (Ev e x :: tr) = slept tr.
Proof.
  specialize (provider_call x). unfold isSleep in provider_call. cbn in *.
  by destruct e.
Qed.

(** A wait sleeps for its delay after every check that says "again", and
    at no other time. *)
Lemma Wait_slept {W : Type} (h : Handler awsE W) (wt : waitutils.Waiter awsE)
    (k : X -> M (bool * option error)) (reason : string) :
  waitutils.Check wt = Do e k ->
  waitutils.Clock wt = Sleep ->
  (forall x, k x = match check x with Some r => Ret r | None => Panic reason end) ->
  forall (budget : nat) (w : W),
  exists xs : list X,
    providerCalls (trace (run h (waitutils.loop wt budget) w)) = answered e xs /\
    slept (trace (run h (waitutils.loop wt budget) w))
      = (waitutils.Delay wt * Z.of_nat (length (List.filter (fun x => again (check x)) xs)))%Z /\
    ((exists o : option error,
        polled check (waitutils.timedOut wt) budget xs o /\
        outcome (run h (waitutils.loop wt budget) w) = Returned o) \/
     (crashed check budget xs /\
      outcome (run h (waitutils.loop wt budget) w) = Panicked reason)).
Proof.
  intros Hcheck Hclock Hk budget. induction budget as [|budget IH]; intros w.
  - exists []. split; [reflexivity|]. split; [cbn; lia|]. left.
    exists (Some (waitutils.timedOut wt)). split; [constructor|reflexivity].
  - cbn [waitutils.loop]. rewrite Hcheck, Hclock. cbn [bind call run].
    destruct (h X e w) as [x w1]. rewrite Hk.
    destruct (check x) as [[done [err|]]|] eqn:Hx; cbn [bind call run fst snd].
    + exists [x]. split; [unfold providerCalls, answered; cbn; by rewrite provider_call|]. split.
      { unfold trace. cbn [snd]. rewrite isSleep_false_slept. cbn [List.filter].
        rewrite Hx. destruct done; cbn; lia. }
      left. exists (Some err). split; [by econstructor|reflexivity].
    + destruct done; cbn [bind call run].
      * exists [x]. split; [unfold providerCalls, answered; cbn; by rewrite provider_call|]. split.
        { unfold trace. cbn [snd]. rewrite isSleep_false_slept. cbn [List.filter].
          rewrite Hx. cbn. lia. }
        left. exists None. split; [by constructor|reflexivity].
      * destruct (h unit (Sleep (waitutils.Delay wt)) w1) as [[] w2].
        destruct (IH w2) as (xs & Ht & Hs & Hrun).
        destruct (run h (waitutils.loop wt budget) w2) as [[o' w3] t3].
        exists (x :: xs). split.
        { unfold providerCalls, answered in *. cbn in *.
          rewrite provider_call. cbn. by rewrite Ht. }
        split.
        { unfold trace in *. cbn [snd] in *. rewrite isSleep_false_slept.
          cbn [slept ev_call List.filter]. rewrite Hx. cbn [again length]. rewrite Hs. lia. }
        destruct Hrun as [(o & Hp & Ho)|[Hc Ho]].
        -- left. exists o. split; [by constructor|exact Ho].
        -- right. split; [by constructor|exact Ho].
    + exists [x]. split; [unfold providerCalls, answered; cbn; by rewrite provider_call|]. split.
      { unfold trace. cbn [snd]. rewrite isSleep_false_slept. cbn [List.filter].
        rewrite Hx. cbn. lia. }
      right. split; [by constructor|reflexivity].
Qed.

(** How a wait can end with an error: the last check failed with it, or
    the budget ran out after as many checks that all said "again". *)
Lemma polled_failed_or_timed_out (timeout : error) (n : nat) (xs : list X) (err : error) :
  polled check timeout n xs (Some err) ->
  (exists (retried : list X) (x : X) (done : bool),
     xs = retried ++ [x] /\ check x = Some (done, Some err) /\
     Forall (fun x => again (check x) = true) retried /\ (length retried < n)%nat) \/
  (err = timeout /\ length xs = n /\ Forall (fun x => again (check x) = true) xs).
Proof.
  remember (Some err) as o eqn:Ho.
  induction 1 as [|n x Hx|n x done err' Hx|n x xs o Hx Hp IH].
  - right. injection Ho as <-. by repeat split.
  - discriminate.
  - injection Ho as <-. left. exists [], x, done.
    repeat split; [done|constructor|simpl; lia].
  - destruct (IH Ho) as [(retried & y & done & -> & Hy & Hall & Hlen)|(-> & <- & Hall)].
    + left. exists (x :: retried), y, done. split; [done|]. split; [done|].
      split; [constructor; [by rewrite Hx|done]|simpl; lia].
    + right. split; [done|]. split; [done|]. constructor; [by rewrite Hx|done].
Qed.

Lemma polled_succeeded_again (timeout : error) (n : nat) (xs : list X) :
  polled check timeout n xs None ->
  exists (retried : list X) (x : X),
    xs = retried ++ [x] /\ check x = Some (true, None) /\
    Forall (fun x => again (check x) = true) retried /\ (length retried < n)%nat.
Proof.
  remember None as o eqn:Ho. induction 1 as [|n x Hx|n x done err Hx|n x xs o Hx Hp IH].
  - discriminate.
  - exists [], x. repeat split; [done|constructor|simpl; lia].
  - discriminate.
  - destruct (IH Ho) as (retried & y & -> & Hy & Hall & Hlen). subst o.
    exists (x :: retried), y. split; [done|]. split; [done|].
    split; [constructor; [by rewrite Hx|done]|simpl; lia].
Qed.

(** How a wait panics: in the check of its last reply, after checks that
    all said "again". *)
Lemma crashed_again (n : nat) (xs : list X) :
  crashed check n xs ->
  exists (retried : list X) (x : X),
    xs = retried ++ [x] /\ check x = None /\
    Forall (fun x => again (check x) = true) retried /\ (length retried < n)%nat.
Proof.
  induction 1 as [n x Hx|n x xs Hx Hc IH].
  - exists [], x. repeat split; [done|constructor|simpl; lia].
  - destruct IH as (retried & y & -> & Hy & Hall & Hlen).
    exists (x :: retried), y. split; [done|]. split; [done|].
    split; [constructor; [by rewrite Hx|done]|simpl; lia].
Qed.

Lemma filter_again_all (xs : list X) :
  Forall (fun x => again (check x) = true) xs ->
  length (List.filter (fun x => again (check x)) xs) = length xs.
Proof. induction 1 as [|x xs Hx _ IH]; cbn; [done|]. rewrite Hx. cbn. by rewrite IH. Qed.

Lemma filter_again_last (retried : list X) (x : X) :
  Forall (fun x => again (check x) = true) retried -> again (check x) = false ->
  length (List.filter (fun x => again (check x)) (retried ++ [x])) = length retried.
Proof.
  intros Hall Hx. rewrite List.filter_app, length_app, (filter_again_all _ Hall).
  cbn. rewrite Hx. cbn. lia.
Qed.
End WaitSleeps.

(** X13.  waitForSecurityGroupDeleted attempts DeleteSecurityGroup until an
    attempt succeeds, sleeping ten seconds after each attempt that failed:
    it returns nil after fewer than fifty failed attempts followed by one
    that succeeded, or gives up with an error after exactly fifty attempts
    that all failed, having slept no more than 500 seconds.  No error of
    the provider ends the wait early. *)
Theorem waitForSecurityGroupDeleted_retries_fifty_times
    {W : Type} (h : Handler ecsbackend.awsE W) (w : W) (securityGroup : ec2.SecurityGroup) :
  let r := run h (ecsbackend.waitForSecurityGroupDeleted securityGroup) w in
  exists replies : list (option error),
    providerCalls (trace r) = answered (ecsbackend.DeleteSecurityGroup securityGroup) replies /\
    ((exists failed,
        replies = failed ++ [None] /\ Forall is_Some failed /\ (length failed < 50)%nat /\
        outcome r = Returned None /\
        slept (trace r) = (10 * time.Second * Z.of_nat (length failed))%Z) \/
     (Forall is_Some replies /\ length replies = 50%nat /\
      (exists err, outcome r = Returned (Some err)) /\
      (slept (trace r) <= 500 * time.Second)%Z)).
Proof.
  intros r. subst r. unfold ecsbackend.waitForSecurityGroupDeleted, waitutils.Wait.
  match goal with |- context [waitutils.loop ?wt _] => set (waiter := wt) end.
  assert (forall y, again (groupDeleted y) = true -> is_Some y) as Hagain.
  { intros [err|]; [by eexists|discriminate]. }
  pose proof (fun k => Wait_slept (ecsbackend.DeleteSecurityGroup securityGroup)
                         groupDeleted ltac:(reflexivity) h waiter k "") as Hwait.
  edestruct Hwait as (ys & Ht & Hs & [(o & Hp & Ho)|[Hc _]]).
  - reflexivity.
  - reflexivity.
  - intros [err|]; reflexivity.
  - exists ys. split; [exact Ht|]. cbn [waitutils.Retries waiter] in *. rewrite Ho, Hs.
    cbn [waitutils.Delay waiter]. destruct o as [err|].
    + right. apply (polled_failed_or_timed_out groupDeleted) in Hp
        as [(retried & y & done & -> & Hy & Hall & Hlt)|(-> & Hlen & Hall)].
      { by destruct y. }
      split; [eapply Forall_impl; [exact Hall|exact Hagain]|]. split; [exact Hlen|].
      split; [by eexists|]. rewrite (filter_again_all _ _ Hall), Hlen. unfold time.Second. lia.
    + left. apply (polled_succeeded_again groupDeleted) in Hp
        as (retried & y & -> & Hy & Hall & Hlen).
      destruct y as [err|]; [discriminate Hy|].
      exists retried. split; [done|].
      split; [eapply Forall_impl; [exact Hall|exact Hagain]|]. split; [exact Hlen|].
      split; [done|]. rewrite (filter_again_last _ _ _ Hall) by done. lia.
  - exfalso. eapply (crashed_total groupDeleted); [|exact Hc]. by intros [err|]; eexists.
Qed.

(** X14.  waitForAutoScalingGroupInactive describes the scaling group until
    a reply carries an error, sleeping ten seconds after each reply that
    carries a group and no error.  The first reply with an error ends the
    wait, with nil when its message contains "not found" and with that
    error otherwise.  The first reply with neither a group nor an error
    makes the wait panic, since its check reads the status of the group; no
    call and no sleep follows.  After fifty replies with a group and
    without an error the wait gives up with an error, having slept no more
    than 500 seconds. *)
Theorem waitForAutoScalingGroupInactive_ends_at_the_first_error
    `{!id.Codec} `{!ecsbackend.Helpers}
    {W : Type} (h : Handler ecsbackend.awsE W) (w : W) (ecsEnvironmentID : string) :
  let r := run h (ecsbackend.waitForAutoScalingGroupInactive ecsEnvironmentID) w in
  let listing (reply : option autoscaling.Group * option error) :=
    is_Some reply.1 /\ reply.2 = None in
  exists replies : list (option autoscaling.Group * option error),
    providerCalls (trace r)
      = answered (ecsbackend.DescribeAutoScalingGroup
                    (id.AutoScalingGroupName ecsEnvironmentID)) replies /\
    ((exists listed group err,
        replies = listed ++ [(group, Some err)] /\
        Forall listing listed /\ (length listed < 50)%nat /\
        outcome r = Returned (if ecsbackend.ContainsErrMsg err "not found"
                              then None else Some err) /\
        slept (trace r) = (10 * time.Second * Z.of_nat (length listed))%Z) \/
     (exists listed reason,
        replies = listed ++ [(None, None)] /\
        Forall listing listed /\ (length listed < 50)%nat /\
        outcome r = Panicked reason /\
        slept (trace r) = (10 * time.Second * Z.of_nat (length listed))%Z) \/
     (Forall listing replies /\ length replies = 50%nat /\
      (exists err, outcome r = Returned (Some err)) /\
      (slept (trace r) <= 500 * time.Second)%Z)).
Proof.
  intros r listing. subst r listing.
  unfold ecsbackend.waitForAutoScalingGroupInactive, waitutils.Wait.
  match goal with |- context [waitutils.loop ?wt _] => set (waiter := wt) end.
  assert (forall y, again (groupInactive y) = true -> is_Some y.1 /\ y.2 = None) as Hagain.
  { intros [g [err|]]; unfold groupInactive; cbn.
    - by destruct (ecsbackend.ContainsErrMsg err "not found").
    - destruct g; [by eauto|discriminate]. }
  edestruct (Wait_slept (ecsbackend.DescribeAutoScalingGroup
                           (id.AutoScalingGroupName ecsEnvironmentID))
               groupInactive ltac:(reflexivity) h waiter)
    as (xs & Ht & Hs & [(o & Hp & Ho)|[Hc Ho]]).
  - reflexivity.
  - reflexivity.
  - intros [g [err|]]; unfold groupInactive; simpl;
      [destruct (ecsbackend.ContainsErrMsg err "not found")|destruct g]; reflexivity.
  - exists xs. split; [exact Ht|]. cbn [waitutils.Retries waiter] in *. rewrite Ho, Hs.
    cbn [waitutils.Delay waiter]. destruct o as [err|].
    + apply (polled_failed_or_timed_out groupInactive) in Hp
        as [(retried & [g y] & done & -> & Hy & Hall & Hlt)|(-> & Hlen & Hall)].
      * left. unfold groupInactive in Hy. cbn in Hy.
        destruct y as [e|]; [|by destruct g].
        destruct (ecsbackend.ContainsErrMsg e "not found") eqn:Hnf; [discriminate Hy|].
        injection Hy as <- <-.
        exists retried, g, e. split; [done|].
        split; [eapply Forall_impl; [exact Hall|exact Hagain]|].
        split; [exact Hlt|]. rewrite Hnf. split; [done|].
        rewrite (filter_again_last _ _ _ Hall).
        2:{ unfold groupInactive. cbn. by rewrite Hnf. }
        lia.
      * right. right.
        split; [eapply Forall_impl; [exact Hall|exact Hagain]|]. split; [exact Hlen|].
        split; [by eexists|]. rewrite (filter_again_all _ _ Hall), Hlen. unfold time.Second. lia.
    + left. apply (polled_succeeded_again groupInactive) in Hp
        as (retried & [g y] & -> & Hy & Hall & Hlen).
      unfold groupInactive in Hy. cbn in Hy. destruct y as [e|]; [|by destruct g].
      destruct (ecsbackend.ContainsErrMsg e "not found") eqn:Hnf; [|discriminate Hy].
      exists retried, g, e. split; [done|].
      split; [eapply Forall_impl; [exact Hall|exact Hagain]|]. split; [exact Hlen|].
      rewrite Hnf. split; [done|].
      rewrite (filter_again_last _ _ _ Hall).
      2:{ unfold groupInactive. cbn. by rewrite Hnf. }
      lia.
  - exists xs. split; [exact Ht|]. cbn [waitutils.Retries waiter] in *. rewrite Ho, Hs.
    cbn [waitutils.Delay waiter]. right. left.
    apply (crashed_again groupInactive) in Hc as (retried & [g y] & -> & Hy & Hall & Hlen).
    unfold groupInactive in Hy. cbn in Hy.
    destruct y as [e|]; [discriminate Hy|]. destruct g as [g|]; [discriminate Hy|].
    exists retried. eexists. split; [done|].
    split; [eapply Forall_impl; [exact Hall|exact Hagain]|]. split; [exact Hlen|].
    split; [reflexivity|].
    rewrite (filter_again_last _ _ _ Hall) by done. lia.
Qed.

Section CallsOnly.
Context {E : Type -> Type} (P : Event E -> Prop).

Lemma callsOnly_Ret {R : Type} (r : R) : callsOnly P (Ret r : Prog E R).
Proof. intros W h w. constructor. Qed.

Lemma callsOnly_Panic {R : Type} (reason : string) : callsOnly P (Panic reason : Prog E R).
Proof. intros W h w. constructor. Qed.

Lemma callsOnly_Do {R X : Type} (e : E X) (k : X -> Prog E R) :
  (forall x, P (Ev e x)) -> (forall x, callsOnly P (k x)) -> callsOnly P (Do e k).
Proof.
  intros He Hk W h w. cbn. destruct (h X e w) as [x w1].
  specialize (Hk x W h w1). destruct (run h (k x) w1) as [[o w2] tr].
  by constructor.
Qed.

Lemma callsOnly_bind {A R : Type} (p : Prog E A) (f : A -> Prog E R) :
  callsOnly P p -> (forall a, callsOnly P (f a)) -> callsOnly P (bind p f).
Proof.
  intros Hp Hf W h w. rewrite run_bind. specialize (Hp W h w).
  destruct (run h p w) as [[[a|reason] w1] t1]; [|exact Hp].
  specialize (Hf a W h w1). destruct (run h (f a) w1) as [[o w2] t2].
  apply List.Forall_app. by split.
Qed.

Lemma callsOnly_loop (wt : waitutils.Waiter E) (budget : nat) :
  callsOnly P (waitutils.Check wt) ->
  (forall d, P (Ev (waitutils.Clock wt d) tt)) ->
  callsOnly P (waitutils.loop wt budget).
Proof.
  intros Hcheck Hclock. induction budget as [|budget IH]; [apply callsOnly_Ret|].
  cbn [waitutils.loop]. apply callsOnly_bind; [exact Hcheck|].
  intros [done [err|]]; cbn [fst snd]; [apply callsOnly_Ret|].
  destruct done; [apply callsOnly_Ret|].
  apply callsOnly_Do; [by intros []|]. intros _. exact IH.
Qed.
End CallsOnly.

Ltac calls_only :=
  repeat first
    [ apply callsOnly_Ret
    | apply callsOnly_Panic
    | apply callsOnly_loop; [|intros; by repeat split]
    | apply callsOnly_bind; [|intros ?]
    | apply callsOnly_Do; [intros; by repeat split|intros ?]
    | progress cbn [bind call waitutils.Check waitutils.Clock]
    | match goal with
      | |- callsOnly _ (match ?c with _ => _ end) => destruct c
      end ].

(** X15.  Each operation of the environment manager keeps to its own kind
    of calls, whatever the providers answer.  CreateEnvironment never
    removes or resizes anything, also not when a later step fails, so what
    it created before the failure stays; DeleteEnvironment and
    UpdateEnvironment never create anything; UpdateEnvironment never
    removes anything; CreateEnvironmentLink and the two reads never remove
    or resize anything. *)
Theorem operations_keep_to_their_calls `{!id.Codec} `{!config.Config} `{!ecsbackend.Helpers} :
  (forall environmentName instanceSize operatingSystem amiID minClusterCount userDataTemplate,
     callsOnly (fun ev => isDelete ev = false /\ isResize ev = false)
       (ecsbackend.CreateEnvironment environmentName instanceSize operatingSystem amiID
          minClusterCount userDataTemplate)) /\
  (forall environmentID,
     callsOnly (fun ev => isCreate ev = false) (ecsbackend.DeleteEnvironment environmentID)) /\
  (forall environmentID minClusterCount,
     callsOnly (fun ev => isCreate ev = false /\ isDelete ev = false)
       (ecsbackend.UpdateEnvironment environmentID minClusterCount)) /\
  (forall sourceEnvironmentID destEnvironmentID,
     callsOnly (fun ev => isDelete ev = false /\ isResize ev = false)
       (ecsbackend.CreateEnvironmentLink sourceEnvironmentID destEnvironmentID)).
Proof.
  split; [|split; [|split]].
  - intros. unfold ecsbackend.CreateEnvironment, ecsbackend.populateModel,
      ecsbackend.describeAutoscalingGroup. cbv zeta. calls_only.
  - intros. unfold ecsbackend.DeleteEnvironment, ecsbackend.waitForAutoScalingGroupInactive,
      ecsbackend.waitForSecurityGroupDeleted, waitutils.Wait. cbv zeta. calls_only.
  - intros. unfold ecsbackend.UpdateEnvironment, ecsbackend.GetEnvironment,
      ecsbackend.updateEnvironmentMinCount, ecsbackend.populateModel,
      ecsbackend.describeAutoscalingGroup. cbv zeta. calls_only.
  - intros. unfold ecsbackend.CreateEnvironmentLink, ecsbackend.getEnvironmentSecurityGroup.
    cbv zeta. calls_only.
Qed.

Lemma satisfies_and {E : Type -> Type} {R W : Type} (h : Handler E W) (p : Prog E R) (w : W)
    (Q1 Q2 : Outcome R -> W -> list (Event E) -> Prop) :
  satisfies h p w Q1 -> satisfies h p w Q2 ->
  satisfies h p w (fun o w1 tr => Q1 o w1 tr /\ Q2 o w1 tr).
Proof. unfold satisfies. auto. Qed.

Lemma callsOnly_satisfies {E : Type -> Type} {R W : Type} (P : Event E -> Prop)
    (h : Handler E W) (p : Prog E R) (w : W) :
  callsOnly P p -> satisfies h p w (fun _ _ tr => Forall P tr).
Proof. intros Hp. apply Hp. Qed.

Lemma never_and_once {A : Type} (f : A -> bool) (l : list A) :
  Forall (fun a => f a = false) l -> Exists (fun a => f a = true) l -> False.
Proof.
  intros Hall Hex. induction Hex as [a l Ha|a l _ IH].
  - apply Forall_inv in Hall. congruence.
  - apply IH. by apply Forall_inv_tail in Hall.
Qed.

Ltac cluster_kept :=
  apply satisfies_Ret; left;
  repeat first [ apply List.Forall_app; split | assumption | constructor ].

Section ClusterLast.
Import ecsbackend.
Context `{!id.Codec} `{!ecsbackend.Helpers}.
Context {W : Type} (h : Handler awsE W).

Lemma waits_keep_the_cluster (ecsEnvironmentID : string) (securityGroup : ec2.SecurityGroup) :
  callsOnly (fun ev => isDeleteCluster ev = false)
    (waitForAutoScalingGroupInactive ecsEnvironmentID) /\
  callsOnly (fun ev => isDeleteCluster ev = false)
    (waitForSecurityGroupDeleted securityGroup).
Proof.
  split; unfold waitForAutoScalingGroupInactive, waitForSecurityGroupDeleted, waitutils.Wait;
    calls_only.
Qed.

Lemma DeleteEnvironment_cluster_last (environmentID : string) (w : W) :
  satisfies h (DeleteEnvironment environmentID) w (fun o _ tr =>
    Forall (fun ev => isDeleteCluster ev = false) tr \/
    exists r1 r2 r3 r4 xs securityGroup ys r5 timeout1 timeout2,
      providerCalls tr = delete_events environmentID r1 r2 r3 r4 xs securityGroup ys r5 /\
      polled groupInactive timeout1 50 xs None /\
      (is_Some securityGroup -> polled groupDeleted timeout2 50 ys None)).
Proof.
  unfold DeleteEnvironment. cbv zeta. cbn [bind call].
  apply satisfies_Do; intros r1 w1 _. fatal_or_go; [cluster_kept|].
  apply satisfies_Do; intros r2 w2 _. fatal_or_go; [cluster_kept|].
  apply satisfies_Do; intros r3 w3 _. fatal_or_go; [cluster_kept|].
  apply satisfies_Do; intros r4 w4 _. fatal_or_go; [cluster_kept|].
  apply satisfies_bind.
  eapply satisfies_mono;
    [apply satisfies_and;
       [apply waitForAutoScalingGroupInactive_polled
       |apply callsOnly_satisfies, (waits_keep_the_cluster _ (ec2.mkSecurityGroup None))]|].
  intros o5 w5 t5 [(xs & Ht5 & [(err5 & timeout5 & Hp5 & ->)|[Hc5 ->]]) Hkept5].
  2:{ left. repeat first [ apply List.Forall_app; split | assumption | constructor ]. }
  destruct err5 as [err5|]; [cluster_kept|].
  cbn [bind call]. apply satisfies_Do; intros [sg [e6|]] w6 _; [cluster_kept|].
  destruct sg as [sg|]; cbn [bind call].
  - apply satisfies_bind.
    eapply satisfies_mono;
      [apply satisfies_and;
         [apply waitForSecurityGroupDeleted_polled
         |apply callsOnly_satisfies, (waits_keep_the_cluster "")]|].
    intros o7 w7 t7 [(ys & err7 & timeout7 & Hp7 & -> & Ht7) Hkept7].
    destruct err7 as [err7|]; [cluster_kept|].
    cbn [bind call]. apply satisfies_Do; intros r8 w8 _.
    fatal_or_go; apply satisfies_Ret; right;
      exists r1, r2, r3, r4, xs, (Some sg), ys, r8, timeout5, timeout7;
      (split; [polls_known; reflexivity|]); by split.
  - apply satisfies_Do; intros r8 w8 _.
    fatal_or_go; apply satisfies_Ret; right;
      exists r1, r2, r3, r4, xs, (@None ec2.SecurityGroup), [], r8, timeout5, timeout5;
      (split; [polls_known; reflexivity|]); (split; [done|]); by intros [? [=]].
Qed.
End ClusterLast.

(** X16.  DeleteEnvironment removes the cluster last, and only when the
    steps before it went through: if DeleteCluster was called at all, the
    four calls on the scaling group and the launch configuration were made,
    every poll of the scaling group but the last was answered with a group
    and no error, the last one with an error that says "not found", and the
    security group, if the provider reported one, was deleted by the last
    attempt made.  In particular no run in which a poll was answered with
    neither a group nor an error reaches DeleteCluster. *)
Theorem DeleteEnvironment_removes_the_cluster_last `{!id.Codec} `{!ecsbackend.Helpers}
    {W : Type} (h : Handler ecsbackend.awsE W) (w : W) (environmentID : string) :
  let r := run h (ecsbackend.DeleteEnvironment environmentID) w in
  Exists (fun ev => isDeleteCluster ev = true) (trace r) ->
  exists r1 r2 r3 r4 listed group gone securityGroup attempts r5,
    providerCalls (trace r)
      = delete_events environmentID r1 r2 r3 r4 (listed ++ [(group, Some gone)])
          securityGroup attempts r5 /\
    Forall (fun reply => is_Some reply.1 /\ reply.2 = None) listed /\
    ecsbackend.ContainsErrMsg gone "not found" = true /\
    (is_Some securityGroup ->
     exists failed, attempts = failed ++ [None] /\ Forall is_Some failed).
Proof.
  intros r Hex. subst r.
  destruct (DeleteEnvironment_cluster_last h environmentID w)
    as [Hkept|(r1 & r2 & r3 & r4 & xs & sg & ys & r5 & t1 & t2 & Hcalls & Hp1 & Hp2)].
  { exfalso. exact (never_and_once _ _ Hkept Hex). }
  apply (polled_succeeded_again groupInactive) in Hp1
    as (listed & [group y] & -> & Hy & Hall & _).
  unfold groupInactive in Hy. cbn in Hy. destruct y as [gone|]; [|by destruct group].
  destruct (ecsbackend.ContainsErrMsg gone "not found") eqn:Hnf; [|discriminate Hy].
  exists r1, r2, r3, r4, listed, group, gone, sg, ys, r5.
  split; [exact Hcalls|]. split.
  { eapply Forall_impl; [exact Hall|]. intros [g [e|]]; unfold groupInactive; cbn.
    - by destruct (ecsbackend.ContainsErrMsg e "not found").
    - destruct g; [by eauto|discriminate]. }
  split; [exact Hnf|]. intros Hsg.
  apply (polled_succeeded_again groupDeleted) in Hp2 as (failed & y & -> & Hy' & Hall' & _);
    [|exact Hsg].
  destruct y; [discriminate Hy'|]. exists failed. split; [done|].
  eapply Forall_impl; [exact Hall'|]. intros [e|]; [by eexists|discriminate].
Qed.

Lemma DeleteEnvironment_removes_the_cluster_last_witness :
  let r := run account.handler (ecsbackend.DeleteEnvironment account.prodID) account.prod in
  exists r1 r2 r3 r4 listed group gone securityGroup attempts r5,
    providerCalls (trace r)
      = delete_events account.prodID r1 r2 r3 r4 (listed ++ [(group, Some gone)])
          securityGroup attempts r5 /\
    Forall (fun reply => is_Some reply.1 /\ reply.2 = None) listed /\
    ecsbackend.ContainsErrMsg gone "not found" = true /\
    (is_Some securityGroup ->
     exists failed, attempts = failed ++ [None] /\ Forall is_Some failed).
Proof.
  apply (DeleteEnvironment_removes_the_cluster_last account.handler account.prod account.prodID).
  vm_compute. do 7 apply Exists_cons_tl. apply Exists_cons_hd. reflexivity.
Defined.

Section CreateRenders.
Import ecsbackend.
Context `{!id.Codec} `{!config.Config} `{!ecsbackend.Helpers}.
Context {W : Type} (h : Handler awsE W).

Lemma CreateEnvironment_renders
    (environmentName instanceSize operatingSystem amiID : string) (minClusterCount : Z)
    (userDataTemplate : string) (w : W) :
  ecsbackend.ToLower operatingSystem = "linux" \/ ecsbackend.ToLower operatingSystem = "windows" ->
  let e := id.ECSEnvironmentID (id.GenerateHashedEntityID environmentName) in
  satisfies h (CreateEnvironment environmentName instanceSize operatingSystem amiID
                 minClusterCount userDataTemplate) w (fun o w' tr =>
    match renderUserData e (chosenTemplate operatingSystem userDataTemplate) with
    | Err err => o = Returned (Err err) /\ w' = w /\ tr = []
    | Ok userData =>
        exists groupID,
          inOrder (create_calls environmentName instanceSize
                     (chosenAMI operatingSystem amiID) userData minClusterCount groupID)
                  (requests tr)
    end).
Proof.
  intros Hos e. unfold CreateEnvironment.
  assert (osDefaults operatingSystem
          = Some (if bool_decide (ecsbackend.ToLower operatingSystem = "linux")
                  then defaultLinuxUserDataTemplate else defaultWindowsUserDataTemplate,
                  if bool_decide (ecsbackend.ToLower operatingSystem = "linux")
                  then config.AWSLinuxServiceAMI else config.AWSWindowsServiceAMI)) as ->.
  { unfold osDefaults. destruct Hos as [Hos|Hos]; by rewrite Hos. }
  cbv zeta. fold e.
  assert ((if bool_decide (amiID ≠ "") then amiID
           else if bool_decide (ecsbackend.ToLower operatingSystem = "linux")
                then config.AWSLinuxServiceAMI else config.AWSWindowsServiceAMI)
          = chosenAMI operatingSystem amiID) as ->.
  { unfold chosenAMI. destruct (decide (amiID = "")) as [->|Hami]; [done|].
    by rewrite bool_decide_eq_true_2, bool_decide_eq_false_2. }
  change (if bool_decide (String.length userDataTemplate = 0%nat)
          then if bool_decide (ecsbackend.ToLower operatingSystem = "linux")
               then defaultLinuxUserDataTemplate else defaultWindowsUserDataTemplate
          else userDataTemplate)
    with (chosenTemplate operatingSystem userDataTemplate).
  destruct (renderUserData _ _) as [userData|err]; [|by apply satisfies_Ret].
  cbn [bind call].
  apply satisfies_Do; intros [cluster [e1|]] w1 _.
  { apply satisfies_Ret. exists None. left; by repeat constructor. }
  apply satisfies_Do; intros [groupID [e2|]] w2 _.
  { apply satisfies_Ret. exists None. left; by repeat constructor. }
  apply satisfies_Do; intros [] w3 _.
  apply satisfies_Do; intros [e4|] w4 _.
  { apply satisfies_Ret. exists groupID. left; by repeat constructor. }
  apply satisfies_Do; intros [e5|] w5 _.
  { apply satisfies_Ret. exists groupID. left; by repeat constructor. }
  assert ((if bool_decide (minClusterCount > 0)%Z then minClusterCount else 0%Z)
          = Z.max minClusterCount 0) as ->.
  { case_bool_decide; lia. }
  apply satisfies_Do; intros [e6|] w6 _.
  { apply satisfies_Ret. exists groupID. left; by repeat constructor. }
  eapply satisfies_mono; [apply satisfies_any|]. intros o w7 tr _.
  exists groupID. right; by repeat constructor.
Qed.
End CreateRenders.

(** X17.  CreateEnvironment renders the user data before it calls any
    provider: the template rendered is the one given, or the default one
    of the operating system when the one given is empty; when
    renderUserData fails, its error is returned and no call is made;
    otherwise the calls follow the order of creation, and the launch
    configuration is created with exactly the rendered user data and with
    the AMI given, or the default AMI of the operating system when none is
    given. *)
Theorem CreateEnvironment_renders_before_it_calls
    `{!id.Codec} `{!config.Config} `{!ecsbackend.Helpers}
    {W : Type} (h : Handler ecsbackend.awsE W) (w : W)
    (environmentName instanceSize operatingSystem amiID : string) (minClusterCount : Z)
    (userDataTemplate : string) :
  ecsbackend.ToLower operatingSystem = "linux" \/ ecsbackend.ToLower operatingSystem = "windows" ->
  let e := id.ECSEnvironmentID (id.GenerateHashedEntityID environmentName) in
  let r := run h (ecsbackend.CreateEnvironment environmentName instanceSize operatingSystem
                    amiID minClusterCount userDataTemplate) w in
  match ecsbackend.renderUserData e (chosenTemplate operatingSystem userDataTemplate) with
  | Err err => outcome r = Returned (Err err) /\ final r = w /\ trace r = []
  | Ok userData =>
      exists groupID,
        inOrder (create_calls environmentName instanceSize
                   (chosenAMI operatingSystem amiID) userData minClusterCount groupID)
                (requests (trace r))
  end.
Proof.
  intros Hos e r.
  exact (CreateEnvironment_renders h environmentName instanceSize operatingSystem amiID
           minClusterCount userDataTemplate w Hos).
Qed.

Lemma CreateEnvironment_renders_before_it_calls_witness :
  let r := run account.handler
             (@ecsbackend.CreateEnvironment account.codec account.settings strictHelpers
                "prod" "m3.medium" "Linux" "" 2 "echo {{ .ECSEnvironmentID") account.fresh in
  outcome r = Returned (Err (Errorf "Failed to parse user data: template: :1: unclosed action"))
  /\ final r = account.fresh /\ trace r = [].
Proof.
  exact (@CreateEnvironment_renders_before_it_calls account.codec account.settings strictHelpers
           _ account.handler account.fresh "prod" "m3.medium" "Linux" ""
           2 "echo {{ .ECSEnvironmentID" (or_introl eq_refl)).
Defined.

(** X18.  TaskProvider.Delete returns an error in two cases only: the
    input of StopTask is not valid, and then the task is not stopped and
    its tags are kept; or deleting the tags failed, after StopTask was
    called.  Both errors are returned as they are. *)
Theorem Delete_fails_only_on_validation_or_tags `{!aws.Helpers}
    {W : Type} (h : Handler aws.taskE W) (w : W) (taskID : string) (err : error) :
  let r := run h (aws.Delete taskID) w in
  outcome r = Returned (Some err) ->
  exists environmentID taskARN,
    let input := aws.mkStopTaskInput
                   (Some (aws.addLayer0Prefix aws.Instance environmentID)) (Some taskARN) in
    let lookups := [Ev (aws.lookupEntityEnvironmentID "task" taskID) (environmentID, None);
                    Ev (aws.lookupTaskARN taskID) (taskARN, None)] in
    (aws.Validate input = Some err /\ trace r = lookups) \/
    (exists stopped,
       aws.Validate input = None /\
       trace r = lookups ++ [Ev (aws.StopTask input) stopped;
                             Ev (aws.deleteEntityTags "task" taskID) (Some err)]).
Proof.
  intros r Ho. subst r.
  destruct (Delete_runs h taskID w)
    as [(x & e & _ & Ho')|[(environmentID & x & e & _ & Ho')
       |(environmentID & taskARN & [(invalid & Hv & Htr & Ho')
                                   |(stopped & deleted & Hv & Htr & Ho')])]];
    rewrite Ho' in Ho; try discriminate Ho; injection Ho as ->;
    exists environmentID, taskARN.
  - left. by split.
  - right. exists stopped. by split.
Qed.

Lemma Delete_fails_only_on_validation_or_tags_witness :
  let r := run readOnlyTags (aws.Delete "t1") tt in
  exists environmentID taskARN,
    let input := aws.mkStopTaskInput
                   (Some (aws.addLayer0Prefix aws.Instance environmentID)) (Some taskARN) in
    let lookups := [Ev (aws.lookupEntityEnvironmentID "task" "t1") (environmentID, None);
                    Ev (aws.lookupTaskARN "t1") (taskARN, None)] in
    (aws.Validate input = Some (Errorf "the tag store is read-only") /\ trace r = lookups) \/
    (exists stopped,
       aws.Validate input = None /\
       trace r = lookups ++ [Ev (aws.StopTask input) stopped;
                             Ev (aws.deleteEntityTags "task" "t1")
                                (Some (Errorf "the tag store is read-only"))]).
Proof.
  apply (Delete_fails_only_on_validation_or_tags readOnlyTags tt "t1").
  reflexivity.
Defined.

(** X19.  When TaskProvider.Delete calls StopTask, it does so once, after
    both lookups in the tag store succeeded, for the task ARN looked up on
    the cluster named by the instance prefix and the environment ID looked
    up; the tags of the task are deleted next whatever StopTask answered,
    and the result of Delete is the result of deleting the tags. *)
Theorem Delete_stops_before_it_deletes_the_tags `{!aws.Helpers}
    {W : Type} (h : Handler aws.taskE W) (w : W) (taskID : string) :
  let r := run h (aws.Delete taskID) w in
  Exists (fun ev => isStopTask ev = true) (trace r) ->
  exists environmentID taskARN stopped deleted,
    let input := aws.mkStopTaskInput
                   (Some (aws.addLayer0Prefix aws.Instance environmentID)) (Some taskARN) in
    trace r = [Ev (aws.lookupEntityEnvironmentID "task" taskID) (environmentID, None);
               Ev (aws.lookupTaskARN taskID) (taskARN, None);
               Ev (aws.StopTask input) stopped;
               Ev (aws.deleteEntityTags "task" taskID) deleted] /\
    outcome r = Returned deleted.
Proof.
  intros r Hex. subst r.
  destruct (Delete_runs h taskID w)
    as [(x & e & Htr & _)|[(environmentID & x & e & Htr & _)
       |(environmentID & taskARN & [(invalid & Hv & Htr & _)
                                   |(stopped & deleted & Hv & Htr & Ho')])]];
    rewrite Htr in Hex.
  - exfalso. no_failed_lookup Hex.
  - exfalso. no_failed_lookup Hex.
  - exfalso. no_failed_lookup Hex.
  - by exists environmentID, taskARN, stopped, deleted.
Qed.

Lemma Delete_stops_before_it_deletes_the_tags_witness :
  let r := run account.tasks (aws.Delete "t1") (account.mkTasks {["t1"]} None) in
  exists environmentID taskARN stopped deleted,
    let input := aws.mkStopTaskInput
                   (Some (aws.addLayer0Prefix aws.Instance environmentID)) (Some taskARN) in
    trace r = [Ev (aws.lookupEntityEnvironmentID "task" "t1") (environmentID, None);
               Ev (aws.lookupTaskARN "t1") (taskARN, None);
               Ev (aws.StopTask input) stopped;
               Ev (aws.deleteEntityTags "task" "t1") deleted] /\
    outcome r = Returned deleted.
Proof.
  apply (Delete_stops_before_it_deletes_the_tags account.tasks (account.mkTasks {["t1"]} None)
           "t1").
  vm_compute. do 2 apply Exists_cons_tl. apply Exists_cons_hd. reflexivity.
Defined.

Section CreateOnAccount.
Import account.
Context `{!id.Codec} `{!config.Config}.

(** populateModel on an account that has the scaling group, its launch
    configuration and the security group of the cluster. *)
Lemma populateModel_on_complete (a : Account) (n lc size image : string) (lo hi : Z) :
  scalingGroups a !! id.AutoScalingGroupName n = Some (lc, lo, hi) ->
  launchConfigurations a !! lc = Some (size, image) ->
  groupIdOf (id.SecurityGroupName n) ∈ securityGroups a ->
  run handler (@ecsbackend.populateModel _ helpers (Some (ecs.mkCluster n))) a
  = (Returned (Ok (models.mkEnvironment (id.L0EnvironmentID n) ""
                     (Z.of_nat (length (replicate (Z.to_nat lo) "i-0"))) size
                     (groupIdOf (id.SecurityGroupName n)) "" image [])),
     a,
     [Ev (ecsbackend.DescribeAutoScalingGroup (id.AutoScalingGroupName n))
         (Some (autoscaling.mkGroup (replicate (Z.to_nat lo) "i-0") (Some lc) hi None), None);
      Ev (ecsbackend.DescribeLaunchConfiguration lc)
         (Some (autoscaling.mkLaunchConfiguration size image), None);
      Ev (ecsbackend.DescribeSecurityGroup (id.SecurityGroupName n))
         (Some (ec2.mkSecurityGroup (Some (groupIdOf (id.SecurityGroupName n)))), None)]).
Proof.
  intros Hasg Hlc Hsg. unfold ecsbackend.populateModel, ecsbackend.describeAutoscalingGroup.
  cbv zeta. cbn [bind call run handler ecs.ClusterName]. rewrite Hasg.
  cbn [bind call run handler autoscaling.LaunchConfigurationName]. rewrite Hlc.
  cbn [bind call run handler]. rewrite bool_decide_eq_true_2 by done.
  reflexivity.
Qed.

Lemma CreateEnvironment_on_account (a : Account)
    (environmentName instanceSize operatingSystem amiID : string) (minClusterCount : Z)
    (userDataTemplate : string) :
  let e := id.ECSEnvironmentID (id.GenerateHashedEntityID environmentName) in
  let g := groupIdOf (id.SecurityGroupName e) in
  satisfies handler
    (@ecsbackend.CreateEnvironment _ _ helpers environmentName instanceSize operatingSystem
       amiID minClusterCount userDataTemplate) a (fun o a' _ =>
    forall model, o = Returned (Ok model) ->
      ((g ∉ securityGroups a) /\ ((g, g) ∉ ingress a) /\
       launchConfigurations a !! id.LaunchConfigurationName e = None /\
       scalingGroups a !! id.AutoScalingGroupName e = None /\ (0 <= minClusterCount)%Z) /\
      a' = withEnvironment a environmentName instanceSize
             (chosenAMI operatingSystem amiID) minClusterCount /\
      model = models.mkEnvironment (id.L0EnvironmentID e) ""
                (Z.of_nat (length (replicate (Z.to_nat minClusterCount) "i-0")))
                instanceSize g "" (chosenAMI operatingSystem amiID) []).
Proof.
  intros e g. unfold ecsbackend.CreateEnvironment.
  destruct (ecsbackend.osDefaults operatingSystem) as [[template ami]|] eqn:Hos;
    [|apply satisfies_Ret; intros model [=]].
  assert (ecsbackend.ToLower operatingSystem = "linux" \/ ecsbackend.ToLower operatingSystem = "windows") as Hrec.
  { unfold ecsbackend.osDefaults in Hos. repeat case_bool_decide; auto. discriminate. }
  assert (ami = if bool_decide (ecsbackend.ToLower operatingSystem = "linux")
                then config.AWSLinuxServiceAMI else config.AWSWindowsServiceAMI) as ->.
  { unfold ecsbackend.osDefaults in Hos. repeat case_bool_decide; congruence. }
  cbv zeta. fold e.
  assert ((if bool_decide (amiID ≠ "") then amiID
           else if bool_decide (ecsbackend.ToLower operatingSystem = "linux")
                then config.AWSLinuxServiceAMI else config.AWSWindowsServiceAMI)
          = chosenAMI operatingSystem amiID) as ->.
  { unfold chosenAMI. destruct (decide (amiID = "")) as [->|Hami]; [done|].
    by rewrite bool_decide_eq_true_2, bool_decide_eq_false_2. }
  destruct (ecsbackend.renderUserData _ _) as [userData|err];
    [|apply satisfies_Ret; intros model [=]].
  cbn [bind call].
  apply satisfies_Do; intros x1 a1 Hx; reply Hx.
  destruct (decide (g ∈ securityGroups a)) as [Hsg|Hsg].
  { apply satisfies_Do; intros x2 a2 Hx; reply Hx. apply satisfies_Ret; intros model [=]. }
  apply satisfies_Do; intros x2 a2 Hx; reply Hx.
  apply satisfies_Do; intros x3 a3 Hx; reply Hx.
  destruct (decide ((g, g) ∈ ingress a)) as [Hin|Hin].
  { apply satisfies_Do; intros x4 a4 Hx; reply Hx. apply satisfies_Ret; intros model [=]. }
  apply satisfies_Do; intros x4 a4 Hx; reply Hx.
  destruct (launchConfigurations a !! id.LaunchConfigurationName e) as [[s0 i0]|] eqn:Hlc.
  { apply satisfies_Do; intros x5 a5 Hx; reply Hx. apply satisfies_Ret; intros model [=]. }
  apply satisfies_Do; intros x5 a5 Hx; reply Hx.
  assert ((if bool_decide (minClusterCount > 0)%Z then minClusterCount else 0%Z)
          = Z.max minClusterCount 0) as ->.
  { destruct (bool_decide (minClusterCount > 0)%Z) eqn:Hb;
      [apply bool_decide_eq_true in Hb|apply bool_decide_eq_false in Hb]; lia. }
  destruct (scalingGroups a !! id.AutoScalingGroupName e) as [[[l0 lo0] hi0]|] eqn:Hasg.
  { apply satisfies_Do; intros x6 a6 Hx; reply Hx. apply satisfies_Ret; intros model [=]. }
  destruct (decide (0 <= minClusterCount)%Z) as [Hcount|Hcount].
  2:{ apply satisfies_Do; intros x6 a6 Hx. cbn [handler] in Hx.
      cbn [clusters securityGroups ingress launchConfigurations scalingGroups] in Hx.
      rewrite Hasg in Hx. rewrite bool_decide_eq_false_2 in Hx by lia.
      injection Hx as <- <-. apply satisfies_Ret; intros model [=]. }
  apply satisfies_Do; intros x6 a6 Hx. cbn [handler] in Hx.
  cbn [clusters securityGroups ingress launchConfigurations scalingGroups] in Hx.
  rewrite Hasg in Hx. rewrite bool_decide_eq_true_2 in Hx by lia.
  injection Hx as <- <-.
  unfold satisfies. erewrite populateModel_on_complete.
  - unfold outcome, final, trace. cbn [fst snd]. intros model [= <-].
    split; [done|]. split; reflexivity.
  - cbn [scalingGroups]. apply lookup_insert_eq.
  - cbn [launchConfigurations]. apply lookup_insert_eq.
  - cbn [securityGroups]. set_solver.
Qed.
End CreateOnAccount.

Section RoundTripsOnAccount.
Import account.
Context `{!id.Codec} `{!config.Config}.

Lemma GetEnvironment_on_created (a : Account) (environmentName size image : string) (count : Z) :
  let e := id.ECSEnvironmentID (id.GenerateHashedEntityID environmentName) in
  let a' := withEnvironment a environmentName size image count in
  let r := run handler (@ecsbackend.GetEnvironment _ helpers
                          (id.GenerateHashedEntityID environmentName)) a' in
  outcome r = Returned (Ok (models.mkEnvironment (id.L0EnvironmentID e) ""
                              (Z.of_nat (length (replicate (Z.to_nat count) "i-0"))) size
                              (groupIdOf (id.SecurityGroupName e)) "" image [])) /\
  final r = a'.
Proof.
  intros e a' r. subst r. unfold ecsbackend.GetEnvironment. cbv zeta. fold e.
  cbn [bind call run handler].
  rewrite bool_decide_eq_true_2 by (unfold a', withEnvironment; cbn [clusters]; set_solver).
  erewrite populateModel_on_complete.
  - done.
  - apply lookup_insert_eq.
  - apply lookup_insert_eq.
  - unfold a', withEnvironment. cbn [securityGroups]. set_solver.
Qed.

Lemma DeleteEnvironment_on_created (a : Account) (environmentName size image : string)
    (count : Z) :
  let e := id.ECSEnvironmentID (id.GenerateHashedEntityID environmentName) in
  let g := groupIdOf (id.SecurityGroupName e) in
  (0 <= count)%Z ->
  e ∉ clusters a -> g ∉ securityGroups a -> (forall rule, rule ∈ ingress a -> rule.1 ≠ g) ->
  launchConfigurations a !! id.LaunchConfigurationName e = None ->
  scalingGroups a !! id.AutoScalingGroupName e = None ->
  satisfies handler
    (@ecsbackend.DeleteEnvironment _ helpers (id.GenerateHashedEntityID environmentName))
    (withEnvironment a environmentName size image count)
    (fun o a' _ => o = Returned None /\ a' = a).
Proof.
  intros e g Hcount Hcl Hsg Hin Hlc Hasg.
  unfold ecsbackend.DeleteEnvironment, withEnvironment. cbv zeta. fold e. fold g.
  cbn [bind call].
  apply satisfies_Do; intros x1 a1 Hx; reply Hx. cbn [orb].
  apply satisfies_Do; intros x2 a2 Hx; reply Hx. cbn [orb].
  apply satisfies_Do; intros x3 a3 Hx; reply Hx. cbn [orb].
  apply satisfies_Do; intros x4 a4 Hx; reply Hx. cbn [orb].
  apply satisfies_bind.
  eapply satisfies_mono.
  { apply waitForAutoScalingGroupInactive_on_account. cbn [scalingGroups].
    apply lookup_delete_eq. }
  intros o5 a5 t5 [-> ->]. cbn [bind call].
  apply satisfies_Do; intros x6 a6 Hx; reply Hx. cbn [bind call].
  apply satisfies_bind.
  eapply satisfies_mono.
  { apply waitForSecurityGroupDeleted_on_account. cbn [securityGroups]. set_solver. }
  intros o7 a7 t7 [-> ->].
  cbn [bind call clusters securityGroups ingress launchConfigurations scalingGroups].
  apply satisfies_Do; intros x8 a8 Hx; reply Hx.
  apply satisfies_Ret. split; [reflexivity|].
  destruct a as [cl sg ing lcs asgs].
  cbn [clusters securityGroups ingress launchConfigurations scalingGroups] in *.
  f_equal.
  - set_solver.
  - set_solver.
  - apply set_eq. intros rule. rewrite elem_of_filter. split.
    + intros [Hne [->%elem_of_singleton|Hrule]%elem_of_union]; [done|exact Hrule].
    + intros Hrule. split; [by apply Hin|]. set_solver.
  - rewrite delete_insert_eq. by apply delete_id.
  - rewrite delete_insert_eq, !insert_insert_eq, delete_insert_eq. by apply delete_id.
Qed.
End RoundTripsOnAccount.

(** X20.  On the account, after CreateEnvironment returned a model,
    GetEnvironment for the ID generated from the environment's name
    returns that same model and changes nothing; the model has the
    instance size asked for, the AMI given (or the default AMI of the
    operating system when none was given) and the ID of the security group
    created for the environment. *)
Theorem GetEnvironment_returns_the_created_model `{!id.Codec} `{!config.Config}
    (a : account.Account)
    (environmentName instanceSize operatingSystem amiID : string) (minClusterCount : Z)
    (userDataTemplate : string) (model : models.Environment) :
  let environmentID := id.GenerateHashedEntityID environmentName in
  let created := run account.handler
                   (@ecsbackend.CreateEnvironment _ _ account.helpers environmentName
                      instanceSize operatingSystem amiID minClusterCount userDataTemplate) a in
  let read := run account.handler
                (@ecsbackend.GetEnvironment _ account.helpers environmentID) (final created) in
  outcome created = Returned (Ok model) ->
  outcome read = Returned (Ok model) /\ final read = final created /\
  models.EnvironmentID model = id.L0EnvironmentID (id.ECSEnvironmentID environmentID) /\
  models.InstanceSize model = instanceSize /\
  models.AMIID model = chosenAMI operatingSystem amiID /\
  models.SecurityGroupID model
    = account.groupIdOf (id.SecurityGroupName (id.ECSEnvironmentID environmentID)).
Proof.
  intros environmentID created read Ho. subst read.
  destruct (CreateEnvironment_on_account a environmentName instanceSize operatingSystem amiID
              minClusterCount userDataTemplate model Ho) as (_ & Hf & ->).
  fold created in Hf. rewrite Hf.
  destruct (GetEnvironment_on_created a environmentName instanceSize
              (chosenAMI operatingSystem amiID) minClusterCount) as [Hread Hsame].
  by repeat split.
Qed.

Lemma GetEnvironment_returns_the_created_model_witness :
  let model := models.mkEnvironment "prod1a2b3" "" 2 "m3.medium" "sg-l0-test-prod1a2b3-env" ""
                 "ami-linux" [] in
  let read := run account.handler (ecsbackend.GetEnvironment "prod1a2b3") account.prod in
  outcome read = Returned (Ok model) /\ final read = account.prod /\
  models.EnvironmentID model = "prod1a2b3" /\
  models.InstanceSize model = "m3.medium" /\
  models.AMIID model = "ami-linux" /\
  models.SecurityGroupID model = "sg-l0-test-prod1a2b3-env".
Proof.
  assert (outcome (run account.handler
                     (ecsbackend.CreateEnvironment "prod" "m3.medium" "linux" "" 2 "")
                     account.fresh)
          = Returned (Ok (models.mkEnvironment "prod1a2b3" "" 2 "m3.medium"
                            "sg-l0-test-prod1a2b3-env" "" "ami-linux" []))) as Hcreated.
  { vm_compute. reflexivity. }
  exact (GetEnvironment_returns_the_created_model account.fresh "prod" "m3.medium" "linux" ""
           2 "" _ Hcreated).
Defined.

(** X21.  On the account, DeleteEnvironment undoes CreateEnvironment: when
    CreateEnvironment returned a model for an environment whose cluster did
    not exist before and whose security group had no ingress rule left
    over, DeleteEnvironment for the generated ID returns nil and the
    account is again as it was before the environment was created. *)
Theorem DeleteEnvironment_undoes_CreateEnvironment `{!id.Codec} `{!config.Config}
    (a : account.Account)
    (environmentName instanceSize operatingSystem amiID : string) (minClusterCount : Z)
    (userDataTemplate : string) (model : models.Environment) :
  let environmentID := id.GenerateHashedEntityID environmentName in
  let e := id.ECSEnvironmentID environmentID in
  let created := run account.handler
                   (@ecsbackend.CreateEnvironment _ _ account.helpers environmentName
                      instanceSize operatingSystem amiID minClusterCount userDataTemplate) a in
  let deleted := run account.handler
                   (@ecsbackend.DeleteEnvironment _ account.helpers environmentID)
                   (final created) in
  outcome created = Returned (Ok model) ->
  e ∉ account.clusters a ->
  (forall rule, rule ∈ account.ingress a ->
                rule.1 ≠ account.groupIdOf (id.SecurityGroupName e)) ->
  outcome deleted = Returned None /\ final deleted = a.
Proof.
  intros environmentID e created deleted Ho Hcl Hrules. subst deleted.
  destruct (CreateEnvironment_on_account a environmentName instanceSize operatingSystem amiID
              minClusterCount userDataTemplate model Ho)
    as ((Hsg & _ & Hlc & Hasg & Hcount) & Hf & _).
  fold created in Hf. rewrite Hf.
  exact (DeleteEnvironment_on_created a environmentName instanceSize
           (chosenAMI operatingSystem amiID) minClusterCount Hcount Hcl Hsg Hrules Hlc Hasg).
Qed.

Lemma DeleteEnvironment_undoes_CreateEnvironment_witness :
  let deleted := run account.handler (ecsbackend.DeleteEnvironment "dev1a2b3")
                   account.prodAndDev in
  outcome deleted = Returned None /\ final deleted = account.prod.
Proof.
  assert (outcome (run account.handler
                     (ecsbackend.CreateEnvironment "dev" "m3.medium" "linux" "" 1 "")
                     account.prod)
          = Returned (Ok (models.mkEnvironment "dev1a2b3" "" 1 "m3.medium"
                            "sg-l0-test-dev1a2b3-env" "" "ami-linux" []))) as Hcreated.
  { vm_compute. reflexivity. }
  assert (id.ECSEnvironmentID (id.GenerateHashedEntityID "dev") ∉ account.clusters account.prod)
    as Hcl.
  { apply (bool_decide_unpack _). vm_compute. exact I. }
  assert (forall rule, rule ∈ account.ingress account.prod ->
            rule.1 ≠ account.groupIdOf
                       (id.SecurityGroupName
                          (id.ECSEnvironmentID (id.GenerateHashedEntityID "dev")))) as Hrules.
  { apply (bool_decide_unpack _). vm_compute. exact I. }
  exact (DeleteEnvironment_undoes_CreateEnvironment account.prod "dev" "m3.medium" "linux" ""
           1 "" _ Hcreated Hcl Hrules).
Defined.

(** X22.  ListEnvironments lists exactly the clusters whose name starts
    with the prefix of the Layer0 instance, in the order of the provider:
    its environments have the logical IDs of these clusters' names, one
    for each, and a cluster with another name is left out.  When the
    provider fails, its error is returned. *)
Theorem ListEnvironments_lists_the_prefixed_clusters `{!id.Codec}
    {W : Type} (h : Handler ecsbackend.awsE W) (w w1 : W)
    (clusters : list ecs.Cluster) (err : option error) :
  h _ ecsbackend.Helper_DescribeClusters w = ((clusters, err), w1) ->
  match err with
  | Some err => outcome (run h ecsbackend.ListEnvironments w) = Returned (Err err)
  | None =>
      exists environments,
        outcome (run h ecsbackend.ListEnvironments w) = Returned (Ok environments) /\
        models.EnvironmentID <$> environments
        = (fun cluster => id.L0EnvironmentID (ecs.ClusterName cluster))
            <$> filter (fun cluster => String.prefix id.PREFIX (ecs.ClusterName cluster) = true)
                       clusters
  end.
Proof.
  intros Hh. unfold ecsbackend.ListEnvironments. cbn [bind call run]. rewrite Hh.
  destruct err as [err|]; [reflexivity|].
  eexists. split; [reflexivity|].
  induction clusters as [|cluster clusters IH] in |- *; [reflexivity|].
  rewrite filter_cons. cbn [omap list_omap].
  destruct (String.prefix id.PREFIX (ecs.ClusterName cluster)) eqn:Hp.
  - rewrite decide_True by done. rewrite !fmap_cons. f_equal. exact IH.
  - rewrite decide_False by (by intros ?). exact IH.
Qed.

Lemma ListEnvironments_lists_the_prefixed_clusters_witness :
  let a := account.mkAccount {[ "l0-test-dev1a2b3"; "l0-other-prod" ]} ∅ ∅ ∅ ∅ in
  let clusters := ecs.mkCluster <$> elements (account.clusters a) in
  exists environments,
    outcome (run account.handler ecsbackend.ListEnvironments a) = Returned (Ok environments) /\
    models.EnvironmentID <$> environments
    = (fun cluster => id.L0EnvironmentID (ecs.ClusterName cluster))
        <$> filter (fun cluster => String.prefix id.PREFIX (ecs.ClusterName cluster) = true)
                   clusters.
Proof.
  intros a clusters.
  exact (ListEnvironments_lists_the_prefixed_clusters account.handler a a clusters None
           eq_refl).
Defined.

(** X23.  On the table, for a valid key of the record: the last Insert of
    a tag key wins, so that inserting the same tag twice is the same as
    inserting it once, and Inserts of different tag keys give the same
    table in either order. *)
Theorem Insert_last_write_wins_and_commutes (tbl : tag.Table) (t i k v v' k2 v2 : string) :
  t ≠ "" -> i ≠ "" ->
  let insert := fun key value tbl0 =>
    final (run tag.table (tag.Insert (models.mkTag t i key value)) tbl0) in
  insert k v' (insert k v tbl) = insert k v' tbl /\
  (k ≠ k2 -> insert k2 v2 (insert k v tbl) = insert k v (insert k2 v2 tbl)).
Proof.
  intros Ht Hi insert.
  assert (forall key value tbl0,
            insert key value tbl0 = <[(t, i) := <[key := value]> (tagsOf tbl0 t i)]> tbl0)
    as Hinsert.
  { intros key value tbl0. by destruct (Insert_on_table tbl0 t i key value Ht Hi). }
  rewrite !Hinsert, !tagsOf_insert. unfold tag.Table in *. split.
  - by rewrite !insert_insert_eq.
  - intros Hne. rewrite !insert_insert_eq. f_equal. by apply insert_insert_ne.
Qed.

Lemma Insert_last_write_wins_and_commutes_witness :
  let tbl : tag.Table := {[ ("service", "svc1") := {[ "name" := "web" ]} ]} in
  let insert := fun key value tbl0 =>
    final (run tag.table (tag.Insert (models.mkTag "service" "svc1" key value)) tbl0) in
  insert "name" "api" (insert "name" "web2" tbl) = insert "name" "api" tbl /\
  ("name" ≠ "environment_id" ->
   insert "environment_id" "env1" (insert "name" "web2" tbl)
   = insert "name" "web2" (insert "environment_id" "env1" tbl)).
Proof.
  intros tbl.
  apply (Insert_last_write_wins_and_commutes tbl "service" "svc1" "name" "web2" "api"
           "environment_id" "env1"); discriminate.
Defined.

Section MissingOnAccount.
Import account.
Context `{!id.Codec}.

Lemma UpdateEnvironment_without_group (a : Account) (environmentID : string) (n : Z) :
  let e := id.ECSEnvironmentID environmentID in
  id.ECSEnvironmentID (id.L0EnvironmentID e) = e ->
  e ∈ clusters a ->
  scalingGroups a !! id.AutoScalingGroupName e = None ->
  satisfies handler (@ecsbackend.UpdateEnvironment _ helpers environmentID n) a (fun o a' tr =>
    o = Returned (Err asgMissing) /\ a' = a /\ Forall (fun ev => isDescribe ev = true) tr).
Proof.
  intros e Hround Hcl Hasg. unfold ecsbackend.UpdateEnvironment.
  apply satisfies_bind.
  eapply satisfies_mono.
  { apply satisfies_and; [by apply GetEnvironment_on_account|apply GetEnvironment_reads]. }
  intros o a1 t1 [(-> & model & -> & Hid) (Hdesc & _)].
  unfold ecsbackend.updateEnvironmentMinCount, ecsbackend.describeAutoscalingGroup.
  cbv zeta. rewrite Hid. fold e. rewrite Hround. cbn [bind call].
  apply satisfies_Do; intros x1 a1 Hx; reply Hx. cbn [bind call].
  apply satisfies_Ret. split; [done|]. split; [done|].
  apply List.Forall_app. split; [exact Hdesc|]. by repeat constructor.
Qed.
End MissingOnAccount.

(** X24.  On the account, UpdateEnvironment for an environment whose
    cluster exists but whose scaling group does not: reading the
    environment succeeds (the missing group only leaves fields empty), but
    the update fails with the provider's error for the missing group;
    only describing calls were made and the account is unchanged. *)
Theorem UpdateEnvironment_needs_the_scaling_group `{!id.Codec}
    (a : account.Account) (environmentID : string) (minClusterCount : Z) :
  let e := id.ECSEnvironmentID environmentID in
  id.ECSEnvironmentID (id.L0EnvironmentID e) = e ->
  e ∈ account.clusters a ->
  account.scalingGroups a !! id.AutoScalingGroupName e = None ->
  let read := run account.handler (@ecsbackend.GetEnvironment _ account.helpers environmentID) a in
  let r := run account.handler
             (@ecsbackend.UpdateEnvironment _ account.helpers environmentID minClusterCount) a in
  (exists model, outcome read = Returned (Ok model)) /\
  outcome r = Returned (Err account.asgMissing) /\ final r = a /\
  Forall (fun ev => isDescribe ev = true) (trace r).
Proof.
  intros e Hround Hcl Hasg read r. split.
  - destruct (GetEnvironment_on_account a environmentID Hcl) as (_ & model & Ho & _).
    by exists model.
  - exact (UpdateEnvironment_without_group a environmentID minClusterCount Hround Hcl Hasg).
Qed.

Lemma UpdateEnvironment_needs_the_scaling_group_witness :
  let a := account.mkAccount {[ "l0-test-bare" ]} ∅ ∅ ∅ ∅ in
  let read := run account.handler (ecsbackend.GetEnvironment "bare") a in
  let r := run account.handler (ecsbackend.UpdateEnvironment "bare" 3) a in
  (exists model, outcome read = Returned (Ok model)) /\
  outcome r = Returned (Err account.asgMissing) /\ final r = a /\
  Forall (fun ev => isDescribe ev = true) (trace r).
Proof.
  intros a.
  assert (id.ECSEnvironmentID "bare" ∈ account.clusters a) as Hcl.
  { apply (bool_decide_unpack _). vm_compute. exact I. }
  exact (UpdateEnvironment_needs_the_scaling_group a "bare" 3 eq_refl Hcl eq_refl).
Defined.

(** X25.  On the account, once DeleteEnvironment has returned,
    GetEnvironment for the same ID fails with the error
    InvalidEnvironmentID that names the ID. *)
Theorem GetEnvironment_after_DeleteEnvironment `{!id.Codec}
    (a : account.Account) (environmentID : string) :
  (forall lc lo hi,
     account.scalingGroups a
       !! id.AutoScalingGroupName (id.ECSEnvironmentID environmentID) = Some (lc, lo, hi) ->
     (0 <= hi)%Z) ->
  let deleted := run account.handler
                   (@ecsbackend.DeleteEnvironment _ account.helpers environmentID) a in
  outcome deleted = Returned None /\
  outcome (run account.handler (@ecsbackend.GetEnvironment _ account.helpers environmentID)
             (final deleted))
  = Returned (Err (ServerError InvalidEnvironmentID
                     ("Environment with id '" +:+ environmentID +:+ "' was not found"))).
Proof.
  intros Hhi deleted.
  destruct (DeleteEnvironment_on_account a environmentID Hhi) as [Ho (_ & _ & _ & Hcl)].
  fold deleted in Ho, Hcl. split; [exact Ho|].
  unfold ecsbackend.GetEnvironment. cbv zeta. cbn [bind call run account.handler].
  by rewrite bool_decide_eq_false_2.
Qed.

Lemma GetEnvironment_after_DeleteEnvironment_witness :
  let deleted := run account.handler (ecsbackend.DeleteEnvironment account.prodID)
                   account.prod in
  outcome deleted = Returned None /\
  outcome (run account.handler (ecsbackend.GetEnvironment account.prodID) (final deleted))
  = Returned (Err (ServerError InvalidEnvironmentID
                     ("Environment with id '" +:+ account.prodID +:+ "' was not found"))).
Proof.
  apply (GetEnvironment_after_DeleteEnvironment account.prod account.prodID).
  intros lc lo hi Hl. vm_compute in Hl. injection Hl as _ _ <-. lia.
Defined.

Section UpdateRaisesMax.
Import ecsbackend.
Context `{!id.Codec} `{!ecsbackend.Helpers}.
Context {W : Type} (h : Handler awsE W).

Lemma GetEnvironment_resizes_nothing (environmentID : string) :
  callsOnly (fun ev => isResize ev = false) (GetEnvironment environmentID).
Proof.
  unfold GetEnvironment, populateModel, describeAutoscalingGroup. cbv zeta. calls_only.
Qed.

Lemma drop_own_length {A : Type} (l rest : list A) : drop (length l) (l ++ rest) = rest.
Proof. induction l as [|a l IH]; [done|exact IH]. Qed.

(** Calls that resize nothing leave the bounds as they are. *)
Lemma boundsAfterEach_reads (bounds : Z * Z) (reads rest : list (Event awsE)) :
  Forall (fun ev => isResize ev = false) reads ->
  boundsAfterEach bounds (reads ++ rest)
  = repeat bounds (length reads) ++ boundsAfterEach bounds rest.
Proof.
  induction 1 as [|ev reads Hev _ IH]; [done|].
  assert (resized bounds ev = bounds) as Hsame.
  { destruct ev as [X e x]. by destruct e. }
  cbn [app boundsAfterEach length repeat]. by rewrite Hsame, IH.
Qed.

Lemma Forall_repeat {A : Type} (P : A -> Prop) (a : A) (n : nat) : P a -> Forall P (repeat a n).
Proof. intros Ha. induction n as [|n IH]; by constructor. Qed.

(** UpdateEnvironment is GetEnvironment followed, when that returned a
    model, by updateEnvironmentMinCount on the model. *)
Lemma UpdateEnvironment_run (environmentID : string) (minClusterCount : Z) (w : W) :
  let r := run h (UpdateEnvironment environmentID minClusterCount) w in
  let get := run h (GetEnvironment environmentID) w in
  match outcome get with
  | Panicked reason => r = (Panicked reason, final get, trace get)
  | Returned (Err err) => r = (Returned (Err err), final get, trace get)
  | Returned (Ok model) =>
      let update := run h (updateEnvironmentMinCount model minClusterCount) (final get) in
      r = (match outcome update with
           | Panicked reason => Panicked reason
           | Returned (Some err) => Returned (Err err)
           | Returned None => Returned (Ok model)
           end, final update, trace get ++ trace update)
  end.
Proof.
  intros r get. subst r get. unfold UpdateEnvironment. rewrite run_bind.
  destruct (run h (GetEnvironment environmentID) w) as [[[[model|err]|reason] w1] t1];
    cbn [outcome final trace fst snd].
  - rewrite run_bind.
    destruct (run h (updateEnvironmentMinCount model minClusterCount) w1)
      as [[[[err|]|reason] w2] t2]; cbn [run outcome final trace fst snd];
      by rewrite ?app_nil_r.
  - cbn [run]. by rewrite app_nil_r.
  - reflexivity.
Qed.
End UpdateRaisesMax.

(** C8.  UpdateEnvironment first reads the environment with GetEnvironment,
    which resizes nothing; when that fails nothing more is called.
    Otherwise it describes the scaling group of the model once more and,
    when the new minimum exceeds the maximum this description reports,
    sets the maximum to the new minimum and then, if the provider accepted
    that, the minimum; when the new minimum does not exceed the reported
    maximum it sets only the minimum.  No other bound is set, and the model
    is returned only when the last of these calls was accepted.  So for a
    group whose bounds were min <= max before the call, with that max the
    one reported, min <= max holds after each provider call of the
    run. *)
Theorem UpdateEnvironment_raises_max_first `{!id.Codec} `{!ecsbackend.Helpers}
    {W : Type} (h : Handler ecsbackend.awsE W) (w : W)
    (environmentID : string) (minClusterCount : Z) :
  let r := run h (ecsbackend.UpdateEnvironment environmentID minClusterCount) w in
  let get := run h (ecsbackend.GetEnvironment environmentID) w in
  let update := drop (length (trace get)) (trace r) in
  trace r = trace get ++ update /\
  Forall (fun ev => isResize ev = false) (trace get) /\
  match outcome get with
  | Panicked reason => update = [] /\ outcome r = Panicked reason
  | Returned (Err err) => update = [] /\ outcome r = Returned (Err err)
  | Returned (Ok model) =>
      let name := id.AutoScalingGroupName (id.ECSEnvironmentID (models.EnvironmentID model)) in
      let described := fun reply => Ev (ecsbackend.DescribeAutoScalingGroup name) reply in
      let setMax := ecsbackend.UpdateAutoScalingGroupMaxSize name minClusterCount in
      let setMin := ecsbackend.UpdateAutoScalingGroupMinSize name minClusterCount in
      let ended := fun reply : option error =>
        outcome r = Returned (match reply with Some err => Err err | None => Ok model end) in
      (exists asg err, update = [described (asg, Some err)] /\ ended (Some err)) \/
      (update = [described (None, None)] /\ exists reason, outcome r = Panicked reason) \/
      (exists asg, (autoscaling.MaxSize asg < minClusterCount)%Z /\
         ((exists err, update = [described (Some asg, None); Ev setMax (Some err)]
                       /\ ended (Some err)) \/
          (exists reply, update = [described (Some asg, None); Ev setMax None; Ev setMin reply]
                         /\ ended reply))) \/
      (exists asg, (minClusterCount <= autoscaling.MaxSize asg)%Z /\
         exists reply, update = [described (Some asg, None); Ev setMin reply] /\ ended reply)
  end /\
  (forall lo hi : Z, (lo <= hi)%Z -> firstReportedMaxSize update = Some hi ->
     Forall (fun bounds => (bounds.1 <= bounds.2)%Z) (boundsAfterEach (lo, hi) (trace r))).
Proof.
  intros r get update.
  pose proof (UpdateEnvironment_run h environmentID minClusterCount w) as Hrun.
  pose proof (GetEnvironment_resizes_nothing environmentID W h w) as Hreads.
  cbv zeta in Hrun. fold r get in Hrun, Hreads.
  change (Forall (fun ev => isResize ev = false) (trace get)) in Hreads.
  destruct (outcome get) as [[model|err]|reason] eqn:Hget.
  - pose proof (updateEnvironmentMinCount_runs h model minClusterCount (final get)) as Hruns.
    pose proof (fun lo hi => updateEnvironmentMinCount_bounds h (final get) model
                               minClusterCount lo hi) as Hbounds.
    unfold satisfies in Hruns. cbv zeta in Hruns, Hbounds.
    destruct (run h (ecsbackend.updateEnvironmentMinCount model minClusterCount) (final get))
      as [[o2 w2] t2]. cbn [outcome final trace fst snd] in Hrun, Hruns, Hbounds.
    assert (update = t2) as Hupdate.
    { subst update. rewrite Hrun. cbn [trace snd]. apply drop_own_length. }
    assert (trace r = trace get ++ t2) as Htrace by by rewrite Hrun.
    assert (outcome r = match o2 with
                        | Panicked reason => Panicked reason
                        | Returned (Some err) => Returned (Err err)
                        | Returned None => Returned (Ok model)
                        end) as Hout by by rewrite Hrun.
    clearbody update r. subst update.
    split; [exact Htrace|]. split; [exact Hreads|]. split.
    + cbv zeta. rewrite Hout.
      destruct Hruns
        as [(asg & err & -> & ->)
           |[(-> & reason & ->)
            |[(asg & Hlt & [(err & -> & ->)|(reply & -> & ->)])
             |(asg & Hge & reply & -> & ->)]]].
      * left. by exists asg, err.
      * right. left. split; [done|]. by exists reason.
      * right. right. left. exists asg. split; [done|]. left. by exists err.
      * right. right. left. exists asg. split; [done|]. right. exists reply.
        split; [done|]. by destruct reply.
      * right. right. right. exists asg. split; [done|]. exists reply.
        split; [done|]. by destruct reply.
    + intros lo hi Hle Hhi. rewrite Htrace, (boundsAfterEach_reads _ _ _ Hreads).
      apply List.Forall_app. split; [by apply Forall_repeat|]. by apply Hbounds.
  - assert (update = []) as Hupdate.
    { subst update. rewrite Hrun. cbn [trace snd]. rewrite <- (app_nil_r (trace get)) at 2.
      apply drop_own_length. }
    split; [by rewrite Hupdate, app_nil_r, Hrun|]. split; [exact Hreads|].
    split; [split; [exact Hupdate|by rewrite Hrun]|].
    intros lo hi _ Hhi. rewrite Hupdate in Hhi. discriminate Hhi.
  - assert (update = []) as Hupdate.
    { subst update. rewrite Hrun. cbn [trace snd]. rewrite <- (app_nil_r (trace get)) at 2.
      apply drop_own_length. }
    split; [by rewrite Hupdate, app_nil_r, Hrun|]. split; [exact Hreads|].
    split; [split; [exact Hupdate|by rewrite Hrun]|].
    intros lo hi _ Hhi. rewrite Hupdate in Hhi. discriminate Hhi.
Qed.

Lemma UpdateEnvironment_raises_max_first_witness :
  let r := run account.handler (ecsbackend.UpdateEnvironment account.prodID 5) account.prod in
  (exists model, outcome r = Returned (Ok model)) /\
  account.scalingGroups (final r) !! "l0-test-prod1a2b3" = Some ("l0-test-prod1a2b3", 5, 5)%Z /\
  Forall (fun bounds => (bounds.1 <= bounds.2)%Z) (boundsAfterEach (2, 2)%Z (trace r)).
Proof.
  split; [by eexists|]. split; [reflexivity|].
  apply (@UpdateEnvironment_raises_max_first account.codec account.helpers _
           account.handler account.prod account.prodID 5%Z).
  - lia.
  - reflexivity.
Defined.

Section DeleteRefused.
Import ecsbackend.
Context `{!id.Codec} `{!ecsbackend.Helpers}.
Context {W : Type} (h : Handler awsE W).

Lemma waits_refuse_nothing (ecsEnvironmentID : string) (securityGroup : ec2.SecurityGroup) :
  callsOnly (fun ev => refusal ev = None)
    (waitForAutoScalingGroupInactive ecsEnvironmentID) /\
  callsOnly (fun ev => refusal ev = None)
    (waitForSecurityGroupDeleted securityGroup).
Proof.
  split; unfold waitForAutoScalingGroupInactive, waitForSecurityGroupDeleted, waitutils.Wait;
    calls_only.
Qed.

Lemma none_and_once {A B : Type} (f : A -> option B) (b : B) (l : list A) :
  Forall (fun a => f a = None) l -> Exists (fun a => f a = Some b) l -> False.
Proof.
  intros Hall Hex. induction Hex as [a l Ha|a l _ IH].
  - apply Forall_inv in Hall. congruence.
  - apply IH. by apply Forall_inv_tail in Hall.
Qed.

(** An error of DeleteAutoScalingGroup or DeleteLaunchConfiguration that
    does not say "name not found" ends DeleteEnvironment with that error,
    whatever else its message says. *)
Lemma DeleteEnvironment_refused (environmentID : string) (err : error) (w : W) :
  satisfies h (DeleteEnvironment environmentID) w (fun o _ tr =>
    Exists (fun ev => refusal ev = Some err) tr -> o = Returned (Some err)).
Proof.
  unfold DeleteEnvironment. cbv zeta. cbn [bind call].
  apply satisfies_Do; intros r1 w1 _. fatal_or_go.
  { apply satisfies_Ret. intros Hex.
    apply Exists_cons in Hex as [[=]|Hex]. by apply Exists_nil in Hex. }
  apply satisfies_Do; intros r2 w2 _. fatal_or_go.
  { apply satisfies_Ret. intros Hex.
    apply Exists_cons in Hex as [[=]|Hex]. apply Exists_cons in Hex as [[=]|Hex].
    by apply Exists_nil in Hex. }
  apply satisfies_Do; intros r3 w3 _. fatal_or_go.
  { apply satisfies_Ret. intros Hex.
    apply Exists_cons in Hex as [[=]|Hex]. apply Exists_cons in Hex as [[=]|Hex].
    apply Exists_cons in Hex as [Hex|Hex]; [|by apply Exists_nil in Hex].
    cbn [refusal] in Hex. congruence. }
  apply satisfies_Do; intros r4 w4 _. fatal_or_go.
  { apply satisfies_Ret. intros Hex.
    apply Exists_cons in Hex as [[=]|Hex]. apply Exists_cons in Hex as [[=]|Hex].
    apply Exists_cons in Hex as [Hex|Hex]; [cbn [refusal] in Hex; congruence|].
    apply Exists_cons in Hex as [Hex|Hex]; [|by apply Exists_nil in Hex].
    cbn [refusal] in Hex. congruence. }
  eapply satisfies_mono.
  { apply (callsOnly_satisfies (fun ev => refusal ev = None)).
    assert (forall sg, callsOnly (fun ev => refusal ev = None)
                         (waitForSecurityGroupDeleted sg)) as Hwait
      by (intros sg; apply (waits_refuse_nothing "" sg)).
    pose proof (proj1 (waits_refuse_nothing (id.ECSEnvironmentID environmentID)
                         (ec2.mkSecurityGroup None))) as Hpoll.
    apply callsOnly_bind; [exact Hpoll|]. intros r5.
    destruct r5; [apply callsOnly_Ret|]. cbn [bind call].
    apply callsOnly_Do; [done|]. intros [sg [e6|]]; [apply callsOnly_Ret|].
    apply callsOnly_bind; [destruct sg; [apply Hwait|apply callsOnly_Ret]|].
    intros r7. calls_only. }
  intros o w5 tr Hall Hex. exfalso.
  apply Exists_cons in Hex as [[=]|Hex]. apply Exists_cons in Hex as [[=]|Hex].
  apply Exists_cons in Hex as [Hex|Hex]; [cbn [refusal] in Hex; congruence|].
  apply Exists_cons in Hex as [Hex|Hex]; [cbn [refusal] in Hex; congruence|].
  exact (none_and_once _ _ _ Hall Hex).
Qed.
End DeleteRefused.



